(** * SafeBank file-integrity monitor: baseline-driven change detection

    A shallow embedding of the two monitor implementations
    ([monitor_files.py] and [SafeBank_FIM/monitor.py]) and of the baseline
    builder [create_baseline.py], together with the properties of the
    classifier, the alert pipeline, the status counters and the scan. *)

From Stdlib Require Import ZArith Ascii String List Lia Bool.
From stdpp Require Import base option list strings pretty gmap.
From Equations Require Import Equations.

Local Open Scope Z_scope.
Local Open Scope string_scope.
Local Open Scope list_scope.

(** * Python runtime fragments *)

Module Py.

(** Exceptions the modelled code can meet. *)
Inductive exn : Type :=
| ValueError (msg : string)
| KeyError (key : string)
| IndexError
| AttributeError (msg : string)
| OSError (msg : string)
| SMTPException (msg : string)
| JSONDecodeError (msg : string)
| UnicodeEncodeError (msg : string).

(** Outcome of an expression: a value, or a raised exception. *)
Inductive Exc (A : Type) : Type :=
| Ok (a : A)
| Raise (e : exn).
Arguments Ok {A} a.
Arguments Raise {A} e.

(** Whitespace as [str.split()] sees it, on the ASCII range. *)
Definition is_space (c : ascii) : bool :=
  let n := nat_of_ascii c in
  ((9 <=? n)%nat && (n <=? 13)%nat) || ((28 <=? n)%nat && (n <=? 32)%nat).

(** [s.split()]: the maximal runs of non-whitespace characters.
    [cur] holds the word being read, in reverse. *)
Fixpoint split_go (s : string) (cur : list ascii) : list string :=
  let flush := match cur with
               | [] => []
               | _ => [string_of_list_ascii (rev cur)]
               end in
  match s with
  | EmptyString => flush
  | String c r => if is_space c then flush ++ split_go r []
                  else split_go r (c :: cur)
  end.

Definition split (s : string) : list string := split_go s [].

(** [l[-1]], which raises IndexError on the empty list. *)
Definition index_last {A} (l : list A) : Exc A :=
  match last l with
  | Some x => Ok x
  | None => Raise IndexError
  end.

(** [l[-n:]]: the last [n] items, the whole list when it is shorter. *)
Definition slice_last {A} (n : nat) (l : list A) : list A :=
  drop (length l - n) l.

(** [s.split(sep)] for a one-character separator. *)
Fixpoint split_on (c : ascii) (s : string) : list string :=
  match s with
  | EmptyString => [EmptyString]
  | String x r =>
      if Ascii.eqb x c then EmptyString :: split_on c r
      else match split_on c r with
           | hd :: tl => String x hd :: tl
           | [] => [String x EmptyString]
           end
  end.

Definition startswith (p s : string) : bool := String.prefix p s.

Fixpoint endswith_char (c : ascii) (s : string) : bool :=
  match s with
  | EmptyString => false
  | String x EmptyString => Ascii.eqb x c
  | String _ r => endswith_char c r
  end.

(** Truth value of a [str]. *)
Definition str_truthy (s : string) : bool := negb (String.eqb s "").

End Py.

Import Py.

(** * [os.path] on a POSIX system *)

Module PosixPath.

Definition sep : ascii := "/"%char.

Definition isabs (p : string) : bool := startswith "/" p.

(** [join(a, b)] *)
Definition join (a b : string) : string :=
  if startswith "/" b then b
  else if String.eqb a "" || endswith_char sep a then a +:+ b
  else a +:+ "/" +:+ b.

Definition normpath_step (initial_slashes : nat) (new_comps : list string)
    (comp : string) : list string :=
  if String.eqb comp "" || String.eqb comp "." then new_comps
  else if negb (String.eqb comp "..")
          || ((initial_slashes =? 0)%nat && (length new_comps =? 0)%nat)
          || match last new_comps with
             | Some c => String.eqb c ".."
             | None => false
             end
       then new_comps ++ [comp]
       else removelast new_comps.

(** [normpath(path)] *)
Definition normpath (path : string) : string :=
  if String.eqb path "" then "."
  else
    let initial_slashes :=
      if startswith "/" path then
        if startswith "//" path && negb (startswith "///" path) then 2%nat
        else 1%nat
      else 0%nat in
    let comps := fold_left (normpath_step initial_slashes) (split_on sep path) [] in
    let path' := String.concat "/" comps in
    let path' := string_of_list_ascii (repeat sep initial_slashes) +:+ path' in
    if String.eqb path' "" then "." else path'.

(** [abspath(path)], with the working directory of the process. *)
Definition abspath (cwd path : string) : string :=
  normpath (if isabs path then path else join cwd path).

Fixpoint commonprefix (l1 l2 : list string) : list string :=
  match l1, l2 with
  | x :: r1, y :: r2 => if String.eqb x y then x :: commonprefix r1 r2 else []
  | _, _ => []
  end.

Definition nonempty_parts (p : string) : list string :=
  filter (fun x => str_truthy x = true) (split_on sep p).

(** [relpath(path, start)] *)
Definition relpath (cwd path start : string) : Exc string :=
  if String.eqb path "" then Raise (ValueError "no path specified")
  else
    let start_list := nonempty_parts (abspath cwd start) in
    let path_list := nonempty_parts (abspath cwd path) in
    let i := length (commonprefix start_list path_list) in
    let rel_list := repeat ".." (length start_list - i) ++ drop i path_list in
    match rel_list with
    | [] => Ok "."
    | c :: cs => Ok (fold_left join cs c)
    end.

(** Text after the last separator, [rest] being what follows the
    current position. *)
Fixpoint basename_go (s acc : string) : string :=
  match s with
  | EmptyString => acc
  | String c r => if Ascii.eqb c sep then basename_go r r else basename_go r acc
  end.

(** [basename(p)] *)
Definition basename (p : string) : string := basename_go p p.

End PosixPath.

(** * [hashlib.sha256]

    The hash object of the Python library, after FIPS 180-4: [new],
    [update] and [hexdigest].  Words are 32-bit integers in [Z], with the
    wrap-around written out. *)

Module SHA256.

Local Open Scope Z_scope.

Definition wrap32 (x : Z) : Z := x mod 2 ^ 32.
Definition add32 (x y : Z) : Z := wrap32 (x + y).
Definition rotr (n x : Z) : Z :=
  Z.lor (Z.shiftr x n) (wrap32 (Z.shiftl x (32 - n))).
Definition not32 (x : Z) : Z := Z.lxor x (2 ^ 32 - 1).

Definition Ch (x y z : Z) : Z := Z.lxor (Z.land x y) (Z.land (not32 x) z).
Definition Maj (x y z : Z) : Z :=
  Z.lxor (Z.lxor (Z.land x y) (Z.land x z)) (Z.land y z).
Definition bsig0 (x : Z) : Z := Z.lxor (Z.lxor (rotr 2 x) (rotr 13 x)) (rotr 22 x).
Definition bsig1 (x : Z) : Z := Z.lxor (Z.lxor (rotr 6 x) (rotr 11 x)) (rotr 25 x).
Definition ssig0 (x : Z) : Z := Z.lxor (Z.lxor (rotr 7 x) (rotr 18 x)) (Z.shiftr x 3).
Definition ssig1 (x : Z) : Z := Z.lxor (Z.lxor (rotr 17 x) (rotr 19 x)) (Z.shiftr x 10).

(** The round constants are the fractional parts of the cube roots of the
    first 64 primes, the initial state those of the square roots of the
    first 8: both are computed rather than tabulated. *)
Definition is_prime (n : Z) : bool :=
  (1 <? n) && forallb (fun d => negb (n mod d =? 0)) (map Z.of_nat (seq 2 (Z.to_nat n - 2))).

Definition primes64 : list Z :=
  Eval vm_compute in filter (fun n => is_prime n = true) (map Z.of_nat (seq 2 310)).

(** Integer cube root, one bit at a time from bit 40 down. *)
Definition icbrt (n : Z) : Z :=
  fold_left (fun r b => let r' := r + 2 ^ Z.of_nat b in
                        if r' * r' * r' <=? n then r' else r)
            (rev (seq 0 41)) 0.

Definition K : list Z :=
  Eval vm_compute in map (fun p => wrap32 (icbrt (p * 2 ^ 96))) primes64.

Record regs : Type := Regs { ra : Z; rb : Z; rc : Z; rd : Z; re : Z; rf : Z; rg : Z; rh : Z }.

Definition H0 : regs :=
  Eval vm_compute in
    let f i := wrap32 (Z.sqrt (nth i primes64 0 * 2 ^ 64)) in
    Regs (f 0%nat) (f 1%nat) (f 2%nat) (f 3%nat) (f 4%nat) (f 5%nat) (f 6%nat) (f 7%nat).

Definition byte_val (b : Byte.byte) : Z := Z.of_N (Byte.to_N b).

(** Big-endian 32-bit words of a block. *)
Fixpoint words_of (bs : list Byte.byte) : list Z :=
  match bs with
  | b0 :: b1 :: b2 :: b3 :: r =>
      (byte_val b0 * 2 ^ 24 + byte_val b1 * 2 ^ 16 + byte_val b2 * 2 ^ 8 + byte_val b3)
      :: words_of r
  | _ => []
  end.

(** Message schedule: the 16 words of the block extended to 64. *)
Definition schedule_step (w : list Z) (t : nat) : list Z :=
  let g i := nth (t - i) w 0 in
  w ++ [add32 (add32 (ssig1 (g 2%nat)) (g 7%nat)) (add32 (ssig0 (g 15%nat)) (g 16%nat))].

Definition schedule (block : list Byte.byte) : list Z :=
  fold_left schedule_step (seq 16 48) (words_of block).

Definition round (s : regs) (kw : Z * Z) : regs :=
  let '(k, w) := kw in
  let t1 := add32 (add32 (add32 (rh s) (bsig1 (re s))) (add32 (Ch (re s) (rf s) (rg s)) k)) w in
  let t2 := add32 (bsig0 (ra s)) (Maj (ra s) (rb s) (rc s)) in
  Regs (add32 t1 t2) (ra s) (rb s) (rc s) (add32 (rd s) t1) (re s) (rf s) (rg s).

(** One 64-byte block folded into the state. *)
Definition compress (s : regs) (block : list Byte.byte) : regs :=
  let s' := fold_left round (combine K (schedule block)) s in
  Regs (add32 (ra s) (ra s')) (add32 (rb s) (rb s')) (add32 (rc s) (rc s'))
       (add32 (rd s) (rd s')) (add32 (re s) (re s')) (add32 (rf s) (rf s'))
       (add32 (rg s) (rg s')) (add32 (rh s) (rh s')).

(** The hash object: chaining state, bytes not yet forming a block, and
    the number of bytes fed so far. *)
Record hasher : Type := Hasher { state : regs; pending : list Byte.byte; fed : Z }.

(** [hashlib.sha256()] *)
Definition new : hasher := Hasher H0 [] 0.

Definition feed (h : hasher) (b : Byte.byte) : hasher :=
  let buf := pending h ++ [b] in
  if (length buf =? 64)%nat
  then Hasher (compress (state h) buf) [] (fed h + 1)
  else Hasher (state h) buf (fed h + 1).

(** [h.update(data)] *)
Definition update (h : hasher) (data : list Byte.byte) : hasher :=
  fold_left feed data h.

Definition byte_of_Z (z : Z) : Byte.byte :=
  match Byte.of_N (Z.to_N (z mod 256)) with
  | Some b => b
  | None => Byte.x00
  end.

(** The padding: a one bit, zeros up to 56 modulo 64, the bit length on
    eight bytes. *)
Definition padding (n : Z) : list Byte.byte :=
  let zeros := Z.to_nat ((55 - n) mod 64) in
  let bits := (8 * n) mod 2 ^ 64 in
  Byte.x80 :: repeat Byte.x00 zeros
    ++ map (fun i => byte_of_Z (Z.shiftr bits (8 * Z.of_nat i))) (rev (seq 0 8)).

Definition hex_digit (d : Z) : ascii :=
  nth (Z.to_nat d) (list_ascii_of_string "0123456789abcdef") "0"%char.

(** Eight lowercase hexadecimal digits of a word. *)
Definition hex32 (x : Z) : string :=
  string_of_list_ascii
    (map (fun i => hex_digit (Z.shiftr x (4 * Z.of_nat i) mod 16)) (rev (seq 0 8))).

(** [h.hexdigest()]: the object itself is left as it is. *)
Definition hexdigest (h : hasher) : string :=
  let s := state (update h (padding (fed h))) in
  hex32 (ra s) +:+ hex32 (rb s) +:+ hex32 (rc s) +:+ hex32 (rd s) +:+
  hex32 (re s) +:+ hex32 (rf s) +:+ hex32 (rg s) +:+ hex32 (rh s).

(** [hashlib.sha256(data).hexdigest()]: the digest of a whole message. *)
Definition sha256_hex (data : list Byte.byte) : string :=
  hexdigest (update new data).

End SHA256.

(** * Data model *)

(** One entry of the baseline: [{"hash", "size", "last_modified",
    "permissions"}].  The modification time is a JSON number and is kept
    as its text. *)
Record FileRecord : Type := {
  hash : string;
  file_size : Z;                (* "size" *)
  last_modified : string;
  permissions : string
}.

(** The [metadata] object; every key may be absent (the monitors read it
    with [.get]). *)
Record Metadata : Type := {
  created : option string;
  directory : option string;
  total_files : option Z
}.

(** A key of a JSON object that holds an object when it holds anything:
    absent, [null], or there. *)
Inductive Field (A : Type) : Type :=
| Missing
| Null
| Present (a : A).
Arguments Missing {A}.
Arguments Null {A}.
Arguments Present {A} a.

(** The baseline as [json.load] returns it when the file holds a JSON
    object: ["metadata"] may be absent or [null], ["files"] may be
    absent.  A mapping under ["files"] holds entries with the four keys
    of [create_baseline.py]. *)
Record Baseline : Type := {
  metadata : Field Metadata;
  files : option (gmap string FileRecord)
}.

(** [{}] *)
Definition no_metadata : Metadata :=
  {| created := None; directory := None; total_files := None |}.

(** [{'metadata': {}, 'files': {}}] *)
Definition empty_baseline : Baseline :=
  {| metadata := Present no_metadata; files := Some ∅ |}.

(** [baseline.get('metadata', {})], on which [.get(key, default)] is
    called next: [None] has no [get]. *)
Definition get_metadata (b : Baseline) : Exc Metadata :=
  match metadata b with
  | Missing => Ok no_metadata
  | Null => Raise (AttributeError "'NoneType' object has no attribute 'get'")
  | Present m => Ok m
  end.

(** What the watcher delivers. *)
Inductive EventKind : Type := Modified | Created | Deleted.

Record RawEvent : Type := {
  src_path : string;
  event_type : EventKind;
  is_directory : bool
}.

(** An entry of [DASHBOARD_DATA['alerts']]. *)
Record Alert : Type := {
  a_time : string;
  a_type : string;
  a_file : string;
  a_path : string;
  a_details : string
}.

(** The module-level [DASHBOARD_DATA] dictionary. *)
Record DashboardData : Type := {
  alerts : list Alert;
  last_scan : option string;
  file_count : Z;
  last_update : option string
}.

Definition DASHBOARD_DATA_initial : DashboardData :=
  {| alerts := []; last_scan := None; file_count := 0; last_update := None |}.

(** [CONFIG['EMAIL_CONFIG']]: a dictionary, any key of which may be
    missing (reading it then raises KeyError). *)
Record EmailConfig : Type := {
  smtp_server : option string;
  smtp_port : option Z;
  sender_email : option string;
  sender_password : option string;
  recipient_emails : option (list string)
}.

Record Email : Type := {
  msg_from : string;
  msg_to : string;
  msg_subject : string;
  msg_body : string
}.

(** The two monitor programs of the repository. *)
Inductive Impl : Type :=
| monitor_files          (* src/monitor_files.py *)
| SafeBank_FIM_monitor.  (* src/SafeBank_FIM/monitor.py *)

(** * The world the programs run in *)

(** A path on disk: one that [open] refuses with an error, or a file with
    its bytes and, when the device fails, the number of reads that still
    succeed and the error of the next one. *)
Inductive FileNode : Type :=
| Unopenable (e : exn)
| Regular (content : list Byte.byte) (failure : option (nat * exn)).

(** Everything outside the programs.  Each call that can fail is here
    with its outcome. *)
Record World : Type := {
  cwd : string;
  fs : string -> FileNode;
  now_strftime : string;                 (* datetime.now().strftime('%Y-%m-%d %H:%M:%S') *)
  now_isoformat : string;                (* datetime.now().isoformat() *)
  console : string -> Exc unit;          (* print(line): the write to sys.stdout *)
  mime_text : string -> Exc unit;        (* MIMEText(body, 'plain') *)
  smtp_open : string -> Z -> Exc unit;   (* smtplib.SMTP(server, port) *)
  smtp_starttls : Exc unit;              (* server.starttls() *)
  smtp_login : string -> string -> Exc unit;   (* server.login(user, password) *)
  smtp_send : Email -> Exc unit;         (* server.send_message(msg) *)
  smtp_quit : Exc unit;                  (* leaving the with block: QUIT and close *)
  makedirs : string -> Exc unit;         (* os.makedirs(dir, exist_ok=True) *)
  baseline_exists : bool;                (* os.path.exists(CONFIG['BASELINE_FILE']) *)
  baseline_create : Exc unit;            (* writing a first, empty baseline file *)
  baseline_reopen : Exc unit;            (* opening the file just written, to load it *)
  baseline_json : Exc Baseline           (* json.load(open(CONFIG['BASELINE_FILE'])) *)
}.

Inductive Level : Type := INFO | WARNING | ERROR.

(** What a run does to the outside, in order.  A [Log] is a record
    handed to a logger; the logging module passes it to its handlers and
    raises nothing, whatever becomes of it there. *)
Inductive Effect : Type :=
| Log (logger : string) (lvl : Level) (msg : string)
| Print (msg : string)                   (* a line that reached the console *)
| Sent (m : Email)                       (* a message the server took *)
| Opened (path : string).                (* open(path, 'rb') is called *)

(** * Computations: dashboard state, exceptions, and the effects performed *)

Definition M (A : Type) : Type :=
  World -> DashboardData -> Exc A * DashboardData * list Effect.

Definition ret {A} (a : A) : M A := fun _ d => (Ok a, d, []).

Definition bind {A B} (m : M A) (k : A -> M B) : M B :=
  fun w d =>
    match m w d with
    | (Ok a, d1, t1) => let '(r, d2, t2) := k a w d1 in (r, d2, t1 ++ t2)
    | (Raise e, d1, t1) => (Raise e, d1, t1)
    end.

Notation "x <- m ;; k" := (bind m (fun x => k))
  (at level 100, m at next level, right associativity).
Notation "m ;;; k" := (bind m (fun _ => k))
  (at level 100, right associativity).

(** [try: body except Exception as e: handler e] *)
Definition try_except {A} (body : M A) (handler : exn -> M A) : M A :=
  fun w d =>
    match body w d with
    | (Raise e, d1, t1) => let '(r, d2, t2) := handler e w d1 in (r, d2, t1 ++ t2)
    | ok => ok
    end.

(** [with ...: body]: the exit runs however the body ends, and an
    exception of the exit is the one that leaves the block. *)
Definition with_exit {A} (body : M A) (exit : M unit) : M A :=
  fun w d =>
    let '(r, d1, t1) := body w d in
    match exit w d1 with
    | (Ok _, d2, t2) => (r, d2, t1 ++ t2)
    | (Raise e, d2, t2) => (Raise e, d2, t1 ++ t2)
    end.

Definition lift {A} (r : Exc A) : M A := fun _ d => (r, d, []).
Definition ask : M World := fun w d => (Ok w, d, []).
Definition get : M DashboardData := fun _ d => (Ok d, d, []).
Definition put (d : DashboardData) : M unit := fun _ _ => (Ok tt, d, []).
Definition emit (e : Effect) : M unit := fun _ d => (Ok tt, d, [e]).

(** The rest of a run, on the machine as a step has left it. *)
Definition in_world {A} (w : World) (m : M A) : M A := fun _ d => m w d.

(** [d[key]] on a dictionary whose key may be missing. *)
Definition getitem {A} (key : string) (v : option A) : M A :=
  lift (match v with Some a => Ok a | None => Raise (KeyError key) end).

(** [print(line)]: the line is on the console when the write went well. *)
Definition print (line : string) : M unit :=
  w <- ask ;;
  lift (console w line) ;;;
  emit (Print line).

Definition result {A} (x : Exc A * DashboardData * list Effect) : Exc A := x.1.1.
Definition dashboard {A} (x : Exc A * DashboardData * list Effect) : DashboardData := x.1.2.
Definition effects {A} (x : Exc A * DashboardData * list Effect) : list Effect := x.2.

(** [str(e)] *)
Definition exn_str (e : exn) : string :=
  match e with
  | KeyError k => "'" +:+ k +:+ "'"
  | IndexError => "list index out of range"
  | ValueError m | AttributeError m | OSError m | SMTPException m
  | JSONDecodeError m | UnicodeEncodeError m => m
  end.

(** * The hasher: [calculate_file_hash] *)

(** An open binary file. *)
Record FileObj : Type := {
  rest : list Byte.byte;
  failing : option (nat * exn)
}.

(** [open(file_path, 'rb')] *)
Definition open (node : FileNode) : Exc FileObj :=
  match node with
  | Unopenable e => Raise e
  | Regular content failure => Ok {| rest := content; failing := failure |}
  end.

(** [f.read(n)]: the next [n] bytes, fewer at the end of the file. *)
Definition read (f : FileObj) (n : nat) : Exc (list Byte.byte * FileObj) :=
  match failing f with
  | Some (O, e) => Raise e
  | g => Ok (take n (rest f),
             {| rest := drop n (rest f);
                failing := (fun ke => (Nat.pred ke.1, ke.2)) <$> g |})
  end.

Lemma read_progress f n b data f' :
  read f n = Ok (b :: data, f') -> (length (rest f') < length (rest f))%nat.
Proof.
  unfold read. intros H.
  assert (Hd : take n (rest f) = b :: data /\ rest f' = drop n (rest f)).
  { destruct (failing f) as [[[|k] e]|]; inversion H; subst; auto. }
  destruct Hd as [Ht ->]. rewrite length_drop.
  destruct n as [|n]; [rewrite take_0 in Ht; discriminate|].
  destruct (rest f); [discriminate|]. simpl. lia.
Qed.

(** The loop
[[
    while True:
        data = f.read(chunk)
        if not data: break
        sha256.update(data)
]]
    It ends because every non-empty read leaves less to read. *)
Equations? read_loop (chunk : nat) (f : FileObj) (sha256 : SHA256.hasher) :
    Exc SHA256.hasher by wf (length (rest f)) lt :=
  read_loop chunk f sha256 with Equations.Prop.Logic.inspect (read f chunk) := {
    | exist _ (Raise e) _ => Raise e
    | exist _ (Ok (nil, _)) _ => Ok sha256
    | exist _ (Ok (cons b data, f')) Hr =>
        read_loop chunk f' (SHA256.update sha256 (b :: data)) }.
Proof. eapply read_progress; eassumption. Qed.

(** The body of the [try] of [calculate_file_hash], for a chunk size. *)
Definition hash_stream (chunk : nat) (file_path : string) : M string :=
  w <- ask ;;
  emit (Opened file_path) ;;;
  f <- lift (open (fs w file_path)) ;;
  sha256 <- lift (read_loop chunk f SHA256.new) ;;
  ret (SHA256.hexdigest sha256).

(** 64 KiB *)
Definition CHUNK : nat := N.to_nat 65536.

(** [FileChangeHandler.calculate_file_hash], the same in both monitors. *)
Definition calculate_file_hash (file_path : string) : M (option string) :=
  try_except
    (h <- hash_stream CHUNK file_path ;; ret (Some h))
    (fun e =>
       emit (Log "FIM_Handler" ERROR ("Hash calculation failed: " +:+ exn_str e)) ;;;
       ret None).

(** [calculate_file_hash] of [create_baseline.py], which prints instead of
    logging. *)
Definition baseline_calculate_file_hash (file_path : string) : M (option string) :=
  try_except
    (h <- hash_stream CHUNK file_path ;; ret (Some h))
    (fun e =>
       print ("Error calculating hash for " +:+ file_path +:+ ": " +:+ exn_str e) ;;;
       ret None).

(** * The notification channel: [EmailAlertSystem.send_alert] *)

Definition nl : string := String (ascii_of_nat 10) EmptyString.

Definition subject_prefix (impl : Impl) : string :=
  match impl with
  | monitor_files => "FIM Alert: "
  | SafeBank_FIM_monitor => "FIM Security Alert: "
  end.

Definition body_closing (impl : Impl) : string :=
  match impl with
  | monitor_files => "This requires immediate investigation."
  | SafeBank_FIM_monitor => "Action Required: Investigate immediately."
  end.

Definition print_prefix (impl : Impl) : string :=
  match impl with
  | monitor_files => "ALERT: "
  | SafeBank_FIM_monitor => "SECURITY ALERT: "
  end.

Definition email_body (impl : Impl) (now alert_type file_path details : string) : string :=
  let ind := "        " in
  nl +:+ ind +:+ "SafeBank File Integrity Alert" +:+ nl
  +:+ ind +:+ "----------------------------" +:+ nl
  +:+ ind +:+ "Type: " +:+ alert_type +:+ nl
  +:+ ind +:+ "File: " +:+ PosixPath.basename file_path +:+ nl
  +:+ ind +:+ "Path: " +:+ file_path +:+ nl
  +:+ ind +:+ "Time: " +:+ now +:+ nl
  +:+ ind +:+ "Details: " +:+ details +:+ nl
  +:+ ind +:+ nl
  +:+ ind +:+ body_closing impl +:+ nl
  +:+ ind.

(** The message [send_alert] builds. *)
Definition alert_mail (impl : Impl) (w : World) (from : string) (rcpts : list string)
    (alert_type file_path details : string) : Email :=
  {| msg_from := from;
     msg_to := String.concat ", " rcpts;
     msg_subject := subject_prefix impl +:+ alert_type;
     msg_body := email_body impl (now_strftime w) alert_type file_path details |}.

(** The line [send_alert] prints when the mail did not go through. *)
Definition console_line (impl : Impl) (alert_type file_path details : string) : string :=
  print_prefix impl +:+ (subject_prefix impl +:+ alert_type)
  +:+ " - " +:+ file_path +:+ " - " +:+ details.

(** The [try] block of [send_alert]: the message is put together, the
    server is reached, and inside the [with] block the session is secured
    and the message handed over. *)
Definition mail_alert (config : EmailConfig) (w : World) (subject body : string) : M bool :=
  from <- getitem "sender_email" (sender_email config) ;;
  rcpts <- getitem "recipient_emails" (recipient_emails config) ;;
  let msg := {| msg_from := from; msg_to := String.concat ", " rcpts;
                msg_subject := subject; msg_body := body |} in
  lift (mime_text w body) ;;;
  server <- getitem "smtp_server" (smtp_server config) ;;
  port <- getitem "smtp_port" (smtp_port config) ;;
  lift (smtp_open w server port) ;;;
  with_exit
    (lift (smtp_starttls w) ;;;
     user <- getitem "sender_email" (sender_email config) ;;
     password <- getitem "sender_password" (sender_password config) ;;
     lift (smtp_login w user password) ;;;
     lift (smtp_send w msg) ;;;
     emit (Sent msg))
    (lift (smtp_quit w)) ;;;
  emit (Log "FIM_EmailAlerts" INFO ("Email alert sent: " +:+ subject)) ;;;
  ret true.

(** Its [except] block; the [print] is not inside any [try]. *)
Definition report_unsent (impl : Impl) (subject file_path details : string) (e : exn)
    : M bool :=
  emit (Log "FIM_EmailAlerts" ERROR ("Email failed: " +:+ exn_str e)) ;;;
  print (print_prefix impl +:+ subject +:+ " - " +:+ file_path +:+ " - " +:+ details) ;;;
  ret false.

(** [send_alert(alert_type, file_path, details)].  The subject and the
    body are built before the [try]. *)
Definition send_alert (impl : Impl) (config : EmailConfig)
    (alert_type file_path details : string) : M bool :=
  w <- ask ;;
  let subject := subject_prefix impl +:+ alert_type in
  let body := email_body impl (now_strftime w) alert_type file_path details in
  try_except
    (mail_alert config w subject body)
    (report_unsent impl subject file_path details).

(** * The handler: [FileChangeHandler] *)

(** What [__init__] has established when it returns: nothing in
    [monitor_files.py]; in [SafeBank_FIM/monitor.py], where it ends with
    [self._update_dashboard_data()], that the baseline has a file mapping
    and a metadata that is not [null]. *)
Definition initialised (impl : Impl) (b : Baseline) : Prop :=
  match impl with
  | monitor_files => True
  | SafeBank_FIM_monitor => is_Some (files b) /\ metadata b <> Null
  end.

(** A handler object.  The baseline is never assigned after [__init__]. *)
Record Handler (impl : Impl) : Type := {
  baseline : Baseline;
  email_config : EmailConfig;
  monitor_dir : string;
  constructed : initialised impl baseline
}.
Arguments baseline {impl} _.
Arguments email_config {impl} _.
Arguments monitor_dir {impl} _.
Arguments constructed {impl} _.

(** The dictionary literal of [_trigger_alert]. *)
Definition details_table (impl : Impl) : gmap string string :=
  match impl with
  | monitor_files =>
      <["MODIFIED" := "File content changed"]>
      (<["CREATED" := "New file appeared"]>
      (<["DELETED" := "Critical file removed"]> ∅))
  | SafeBank_FIM_monitor =>
      <["MODIFIED" := "Unauthorized content modification detected"]>
      (<["CREATED" := "Unauthorized file added to system"]>
      (<["DELETED" := "Critical file removed without authorization"]> ∅))
  end.

Definition details_fallback (impl : Impl) : string :=
  match impl with
  | monitor_files => "Unknown change"
  | SafeBank_FIM_monitor => "Security-related change detected"
  end.

(** [{...}.get(alert_type.split()[-1], fallback)] *)
Definition alert_details (impl : Impl) (alert_type : string) : Exc string :=
  match index_last (split alert_type) with
  | Ok key => Ok (default (details_fallback impl) (details_table impl !! key))
  | Raise e => Raise e
  end.

Definition with_alerts (d : DashboardData) (l : list Alert) : DashboardData :=
  {| alerts := l; last_scan := last_scan d; file_count := file_count d;
     last_update := last_update d |}.

(** [_trigger_alert(alert_type, file_path)] *)
Definition _trigger_alert {impl : Impl} (self : Handler impl)
    (alert_type file_path : string) : M unit :=
  details <- lift (alert_details impl alert_type) ;;
  emit (Log "FIM_Handler" WARNING (alert_type +:+ ": " +:+ file_path)) ;;;
  send_alert impl (email_config self) alert_type file_path details ;;;
  w <- ask ;;
  d <- get ;;
  put (with_alerts d (alerts d ++ [ {| a_time := now_strftime w;
                                       a_type := alert_type;
                                       a_file := PosixPath.basename file_path;
                                       a_path := file_path;
                                       a_details := details |} ])) ;;;
  d <- get ;;
  if (50 <? length (alerts d))%nat
  then put (with_alerts d (slice_last 50 (alerts d)))
  else ret tt.

(** Truth value of what [calculate_file_hash] returns. *)
Definition hash_truthy (h : option string) : bool :=
  match h with
  | Some s => str_truthy s
  | None => false
  end.

(** [_process_event(file_path, change_type)].  [self.baseline['files']]
    is read where the source reads it: after the hash, and only when
    there is one, for a modification. *)
Definition _process_event {impl : Impl} (self : Handler impl)
    (file_path change_type : string) : M unit :=
  try_except
    (w <- ask ;;
     relative_path <- lift (PosixPath.relpath (cwd w) file_path (monitor_dir self)) ;;
     if String.eqb change_type "MODIFIED" then
       current_hash <- calculate_file_hash file_path ;;
       match current_hash with
       | Some h =>
           if str_truthy h then
             tracked <- getitem "files" (files (baseline self)) ;;
             match tracked !! relative_path with
             | Some record =>
                 if negb (String.eqb h (hash record))
                 then _trigger_alert self "File Modified" file_path
                 else ret tt
             | None => ret tt
             end
           else ret tt
       | None => ret tt
       end
     else if String.eqb change_type "CREATED" then
       tracked <- getitem "files" (files (baseline self)) ;;
       match tracked !! relative_path with
       | None => _trigger_alert self "New File Detected" file_path
       | Some _ => ret tt
       end
     else if String.eqb change_type "DELETED" then
       tracked <- getitem "files" (files (baseline self)) ;;
       match tracked !! relative_path with
       | Some _ => _trigger_alert self "File Deleted" file_path
       | None => ret tt
       end
     else ret tt)
    (fun e => emit (Log "FIM_Handler" ERROR ("Error processing event: " +:+ exn_str e))).

(** The body of [_update_dashboard_data()], of [SafeBank_FIM/monitor.py]
    only, on the baseline of the handler: three assignments, each of
    which may be the one that raises. *)
Definition update_dashboard (b : Baseline) : M unit :=
  w <- ask ;;
  tracked <- getitem "files" (files b) ;;
  d <- get ;;
  put {| alerts := alerts d; file_count := Z.of_nat (size tracked);
         last_scan := last_scan d; last_update := last_update d |} ;;;
  m <- lift (get_metadata b) ;;
  d <- get ;;
  put {| alerts := alerts d; file_count := file_count d;
         last_scan := Some (default "Never" (created m));
         last_update := last_update d |} ;;;
  d <- get ;;
  put {| alerts := alerts d; file_count := file_count d;
         last_scan := last_scan d; last_update := Some (now_isoformat w) |}.

Definition _update_dashboard_data {impl : Impl} (self : Handler impl) : M unit :=
  update_dashboard (baseline self).

(** What follows [_process_event] in the [on_...] methods. *)
Definition after_event {impl : Impl} (self : Handler impl) : M unit :=
  match impl with
  | monitor_files => ret tt
  | SafeBank_FIM_monitor => _update_dashboard_data self
  end.

Definition on_modified {impl : Impl} (self : Handler impl) (event : RawEvent) : M unit :=
  if negb (is_directory event)
  then _process_event self (src_path event) "MODIFIED" ;;; after_event self
  else ret tt.

Definition on_created {impl : Impl} (self : Handler impl) (event : RawEvent) : M unit :=
  if negb (is_directory event)
  then _process_event self (src_path event) "CREATED" ;;; after_event self
  else ret tt.

Definition on_deleted {impl : Impl} (self : Handler impl) (event : RawEvent) : M unit :=
  if negb (is_directory event)
  then _process_event self (src_path event) "DELETED" ;;; after_event self
  else ret tt.

(** The watcher's dispatch of an event to the method of its kind. *)
Definition dispatch (impl : Impl) (self : Handler impl) (event : RawEvent) : M unit :=
  match event_type event with
  | Modified => on_modified self event
  | Created => on_created self event
  | Deleted => on_deleted self event
  end.

Definition initialised_dec (impl : Impl) (b : Baseline) :
  {initialised impl b} + {~ initialised impl b}.
Proof.
  destruct impl; [left; exact I|]. unfold initialised.
  destruct (files b) as [m|]; [|right; intros [[x Hx] _]; discriminate Hx].
  destruct (metadata b) as [| |md];
    [left|right; intros [_ H]; apply H; reflexivity|left];
    (split; [exists m; reflexivity|discriminate]).
Defined.

(** [FileChangeHandler(baseline, email_config, monitor_dir)]: the
    attributes are set, and [SafeBank_FIM/monitor.py] then calls
    [_update_dashboard_data()]; the object is there when that call has
    returned (it has raised in the other case). *)
Definition new_handler (impl : Impl) (b : Baseline) (cfg : EmailConfig)
    (dir : string) : M (Handler impl) :=
  match impl with
  | monitor_files => ret tt
  | SafeBank_FIM_monitor => update_dashboard b
  end ;;;
  match initialised_dec impl b with
  | left H => ret {| baseline := b; email_config := cfg; monitor_dir := dir;
                     constructed := H |}
  | right _ => lift (Raise (KeyError "files"))
  end.

(** * Startup *)

(** The machine once [initialize_environment] has written a first
    baseline file, [{'metadata': {}, 'files': {}}]: the file is there,
    and loading it gives what was written, when it can be opened. *)
Definition with_baseline_file (w : World) : World :=
  {| cwd := cwd w; fs := fs w;
     now_strftime := now_strftime w; now_isoformat := now_isoformat w;
     console := console w; mime_text := mime_text w;
     smtp_open := smtp_open w; smtp_starttls := smtp_starttls w;
     smtp_login := smtp_login w; smtp_send := smtp_send w; smtp_quit := smtp_quit w;
     makedirs := makedirs w;
     baseline_exists := true;
     baseline_create := baseline_create w;
     baseline_reopen := baseline_reopen w;
     baseline_json := match baseline_reopen w with
                      | Ok _ => Ok empty_baseline
                      | Raise e => Raise e
                      end |}.

(** [initialize_environment()], for the [MONITOR_DIR] and the
    [BASELINE_FILE] of the configuration; nothing in it is inside a
    [try].  It gives the machine as it leaves it. *)
Definition initialize_environment (dir baseline_file : string) : M World :=
  w <- ask ;;
  lift (makedirs w dir) ;;;
  if baseline_exists w then ret w
  else
    lift (baseline_create w) ;;;
    emit (Log "root" INFO ("Created baseline file: " +:+ baseline_file)) ;;;
    ret (with_baseline_file w).

(** [load_baseline()] *)
Definition load_baseline (impl : Impl) : M Baseline :=
  try_except
    (w <- ask ;;
     b <- lift (baseline_json w) ;;
     match impl with
     | monitor_files =>
         m <- lift (get_metadata b) ;;
         d <- get ;;
         put {| alerts := alerts d; file_count := default 0 (total_files m);
                last_scan := last_scan d; last_update := last_update d |} ;;;
         m <- lift (get_metadata b) ;;
         d <- get ;;
         put {| alerts := alerts d; file_count := file_count d;
                last_scan := Some (default "Never" (created m));
                last_update := last_update d |}
     | SafeBank_FIM_monitor =>
         emit (Log "root" INFO
                 ("Loaded baseline with " +:+ pretty (size (default ∅ (files b)))
                  +:+ " files"))
     end ;;;
     ret b)
    (fun e =>
       emit (Log "root" ERROR ("Error loading baseline: " +:+ exn_str e)) ;;;
       ret empty_baseline).

(** [start_monitoring()] up to the construction of the handler: the
    environment, the baseline, the handler.  None of the three calls is
    inside the [try] of the function. *)
Definition start_monitoring (impl : Impl) (cfg : EmailConfig)
    (dir baseline_file : string) : M (Handler impl) :=
  w <- initialize_environment dir baseline_file ;;
  in_world w
    (b <- load_baseline impl ;;
     new_handler impl b cfg dir).

(** * The dashboard page *)

(** What the page shows of [DASHBOARD_DATA]: [data.file_count],
    [data.last_scan], [data.alerts|length] and [data.last_update]. *)
Record StatusSnapshot : Type := {
  filesTracked : Z;
  lastBaselineCreatedAt : option string;
  alertCount : nat;
  lastUpdatedAt : option string
}.

Definition status_snapshot (d : DashboardData) : StatusSnapshot :=
  {| filesTracked := file_count d;
     lastBaselineCreatedAt := last_scan d;
     alertCount := length (alerts d);
     lastUpdatedAt := last_update d |}.

(** [s.lower()], on the ASCII range. *)
Definition lower_char (c : ascii) : ascii :=
  let n := nat_of_ascii c in
  if ((65 <=? n)%nat && (n <=? 90)%nat) then ascii_of_nat (n + 32) else c.

Fixpoint lower (s : string) : string :=
  match s with
  | EmptyString => EmptyString
  | String c r => String (lower_char c) (lower r)
  end.

(** The class of an alert's block, [alert.type.lower().split()[-1]]; the
    template renders nothing for it when the type has no word. *)
Definition css_class (a : Alert) : string :=
  default "" (last (split (lower (a_type a)))).

(** The classes the style sheet of the page has a rule for, besides
    [alert] and [stats]. *)
Definition styled_classes : list string := ["modified"; "created"; "deleted"].

(** The blocks of the page, [data.alerts|reverse]: the latest alert first. *)
Definition alert_rows (d : DashboardData) : list (string * Alert) :=
  map (fun a => (css_class a, a)) (rev (alerts d)).

(** * The baseline builder: [create_baseline.py] *)

(** What [os.stat] tells of a file, as far as the builder reads it.  The
    modification time is kept as the text of the number. *)
Record Stat : Type := {
  st_size : Z;
  st_mtime : string;
  st_mode : N
}.

(** What a scan meets besides the contents of the files and the console:
    the tree as [os.walk] yields it (each directory with the names of its
    files), [os.stat], and the writing of the output file. *)
Record Scan : Type := {
  walk : string -> list (string * list string);
  stat : string -> Exc Stat;
  dump : string -> Baseline -> Exc unit
}.

(** The octal digits of a number, most significant first. *)
Fixpoint oct_digits (fuel : nat) (n : N) (acc : list ascii) : list ascii :=
  match fuel with
  | O => acc
  | S fuel' =>
      let acc' := ascii_of_N (48 + n mod 8) :: acc in
      if (n <? 8)%N then acc' else oct_digits fuel' (n / 8) acc'
  end.

(** [oct(n)] for a number that is not negative. *)
Definition oct (n : N) : string :=
  "0o" +:+ string_of_list_ascii (oct_digits (S (N.to_nat (N.log2 n))) n []).

(** [s[-n:]] *)
Definition str_last (n : nat) (s : string) : string :=
  string_of_list_ascii (slice_last n (list_ascii_of_string s)).

(** The entry written for a file. *)
Definition new_record (file_hash : string) (file_stats : Stat) : FileRecord :=
  {| hash := file_hash;
     file_size := st_size file_stats;
     last_modified := st_mtime file_stats;
     permissions := str_last 4 (oct (st_mode file_stats)) |}.

(** [baseline['files'][relative_path] = record] and then
    [baseline['metadata']['total_files'] += 1], on the dictionary the
    builder has made itself. *)
Definition add_entry (b : Baseline) (relative_path : string) (record : FileRecord)
    : Baseline :=
  {| metadata :=
       match metadata b with
       | Present m => Present {| created := created m; directory := directory m;
                                 total_files := Z.succ <$> total_files m |}
       | other => other
       end;
     files := insert relative_path record <$> files b |}.

(** The body of the inner loop: one file of one directory.  The relative
    path is computed before the [try]; a file without a hash is passed
    over by [continue]; the [print] of the handler is not inside any
    [try]. *)
Definition scan_file (sc : Scan) (directory root file : string) (b : Baseline)
    : M Baseline :=
  let file_path := PosixPath.join root file in
  w <- ask ;;
  relative_path <- lift (PosixPath.relpath (cwd w) file_path directory) ;;
  try_except
    (file_hash <- baseline_calculate_file_hash file_path ;;
     match file_hash with
     | None => ret b
     | Some h =>
         file_stats <- lift (stat sc file_path) ;;
         ret (add_entry b relative_path (new_record h file_stats))
     end)
    (fun e =>
       print ("Error processing " +:+ file_path +:+ ": " +:+ exn_str e) ;;;
       ret b).

(** A [for] loop that updates a value. *)
Fixpoint for_each {A S : Type} (body : A -> S -> M S) (l : list A) (s : S) : M S :=
  match l with
  | [] => ret s
  | a :: l' => s' <- body a s ;; for_each body l' s'
  end.

(** The dictionary [create_baseline] starts from. *)
Definition fresh_baseline (w : World) (directory : string) : Baseline :=
  {| metadata := Present {| created := Some (now_isoformat w);
                            directory := Some (PosixPath.abspath (cwd w) directory);
                            total_files := Some 0 |};
     files := Some ∅ |}.

(** [baseline['metadata']['total_files']] *)
Definition written_total (b : Baseline) : Z :=
  match metadata b with
  | Present m => default 0 (total_files m)
  | _ => 0
  end.

(** [create_baseline(directory, output_file)] *)
Definition create_baseline (sc : Scan) (directory output_file : string) : M Baseline :=
  w <- ask ;;
  baseline <- for_each
                (fun '(root, names) b =>
                   for_each (fun file b => scan_file sc directory root file b) names b)
                (walk sc directory) (fresh_baseline w directory) ;;
  lift (dump sc output_file baseline) ;;;
  print ("Baseline created successfully with "
         +:+ pretty (written_total baseline) +:+ " files.") ;;;
  ret baseline.

(** * Observations on a run *)

(** The warnings [_trigger_alert] logs, one per alert raised. *)
Definition alert_logs (t : list Effect) : list string :=
  omap (fun e => match e with
                 | Log l WARNING m => if String.eqb l "FIM_Handler" then Some m else None
                 | _ => None
                 end) t.

(** The files the run called [open] on, for hashing. *)
Definition opened_files (t : list Effect) : list string :=
  omap (fun e => match e with Opened p => Some p | _ => None end) t.

(** The messages the mail server took. *)
Definition sent_mails (t : list Effect) : list Email :=
  omap (fun e => match e with Sent m => Some m | _ => None end) t.

(** The lines that reached the console. *)
Definition printed (t : list Effect) : list string :=
  omap (fun e => match e with Print s => Some s | _ => None end) t.

(** The category an alert stands for, by the type [_process_event] gives it. *)
Definition alert_category (a : Alert) : option EventKind :=
  if String.eqb (a_type a) "File Modified" then Some Modified
  else if String.eqb (a_type a) "New File Detected" then Some Created
  else if String.eqb (a_type a) "File Deleted" then Some Deleted
  else None.

(** The record [_trigger_alert] appends. *)
Definition new_alert (w : World) (alert_type file_path details : string) : Alert :=
  {| a_time := now_strftime w;
     a_type := alert_type;
     a_file := PosixPath.basename file_path;
     a_path := file_path;
     a_details := details |}.

(** The dashboard once an alert is recorded. *)
Definition record_alert (d : DashboardData) (a : Alert) : DashboardData :=
  with_alerts d (slice_last 50 (alerts d ++ [a])).

(** The key [_process_event] gets for each kind of event. *)
Definition change_type_of (k : EventKind) : string :=
  match k with
  | Modified => "MODIFIED"
  | Created => "CREATED"
  | Deleted => "DELETED"
  end.

(** The type [_process_event] gives to the alerts of each kind. *)
Definition alert_type_of (k : EventKind) : string :=
  match k with
  | Modified => "File Modified"
  | Created => "New File Detected"
  | Deleted => "File Deleted"
  end.

(** What one call of [send_alert] comes to, the dashboard apart: what it
    returns or raises, and what it does. *)
Definition delivery (impl : Impl) (config : EmailConfig)
    (alert_type file_path details : string) (w : World) : Exc bool * list Effect :=
  (result (send_alert impl config alert_type file_path details w DASHBOARD_DATA_initial),
   effects (send_alert impl config alert_type file_path details w DASHBOARD_DATA_initial)).

(** The same machine with another disk: other file contents, files missing
    or unreadable. *)
Definition with_fs (w : World) (disk : string -> FileNode) : World :=
  {| cwd := cwd w; fs := disk;
     now_strftime := now_strftime w; now_isoformat := now_isoformat w;
     console := console w; mime_text := mime_text w;
     smtp_open := smtp_open w; smtp_starttls := smtp_starttls w;
     smtp_login := smtp_login w; smtp_send := smtp_send w; smtp_quit := smtp_quit w;
     makedirs := makedirs w;
     baseline_exists := baseline_exists w;
     baseline_create := baseline_create w;
     baseline_reopen := baseline_reopen w;
     baseline_json := baseline_json w |}.

(** * Proofs *)

Ltac run :=
  unfold print, getitem in *;
  unfold bind, ret, try_except, with_exit, in_world, lift, ask, get, put, emit in *;
  cbn beta iota zeta in *.

Section Slices.
Context {A : Type}.
Implicit Types l : list A.

Lemma slice_last_short n l : (length l <= n)%nat -> slice_last n l = l.
Proof.
  intros H. unfold slice_last.
  replace (length l - n)%nat with 0%nat by lia. apply drop_0.
Qed.

Lemma slice_last_length n l : length (slice_last n l) = Nat.min n (length l).
Proof. unfold slice_last. rewrite length_drop. lia. Qed.

Lemma slice_last_app n l1 l2 :
  (length l2 <= n)%nat ->
  slice_last n (slice_last n l1 ++ l2) = slice_last n (l1 ++ l2).
Proof.
  intros H. unfold slice_last.
  rewrite !length_app, length_drop.
  destruct (decide (length l1 <= n)%nat) as [Hle|Hgt].
  - replace (length l1 - n)%nat with 0%nat by lia.
    rewrite drop_0. f_equal. lia.
  - rewrite !drop_app.
    replace (length l1 - (length l1 - n) + length l2 - n - length (drop (length l1 - n) l1))%nat
      with (length l1 + length l2 - n - length l1)%nat
      by (rewrite length_drop; lia).
    rewrite drop_drop. f_equal. f_equal. lia.
Qed.

Lemma slice_last_snoc n l a :
  (0 < n)%nat -> slice_last n (slice_last n l ++ [a]) = slice_last n (l ++ [a]).
Proof. intros H. apply slice_last_app. simpl. lia. Qed.
End Slices.

Lemma last_slice_last_snoc {A} n (l : list A) a :
  (0 < n)%nat -> last (slice_last n (l ++ [a])) = Some a.
Proof.
  intros Hn. unfold slice_last. rewrite length_app. cbn [length].
  rewrite drop_app_le by lia. apply last_snoc.
Qed.

Lemma slice_last_exact {A} (l1 l2 : list A) n :
  length l2 = n -> slice_last n (l1 ++ l2) = l2.
Proof.
  intros <-. unfold slice_last. rewrite length_app.
  replace (length l1 + length l2 - length l2)%nat with (length l1) by lia.
  apply drop_app_length.
Qed.

Lemma omap_snoc {A B} (f : A -> option B) l x :
  omap f (l ++ [x]) = omap f l ++ match f x with Some y => [y] | None => [] end.
Proof. rewrite omap_app. f_equal. Qed.

Lemma omap_cons {A B} (f : A -> option B) x l :
  omap f (x :: l) = match f x with Some y => y :: omap f l | None => omap f l end.
Proof. reflexivity. Qed.

Lemma alert_logs_app t1 t2 : alert_logs (t1 ++ t2) = alert_logs t1 ++ alert_logs t2.
Proof. apply omap_app. Qed.

Lemma opened_files_app t1 t2 : opened_files (t1 ++ t2) = opened_files t1 ++ opened_files t2.
Proof. apply omap_app. Qed.

Lemma alert_logs_warning m t :
  alert_logs (Log "FIM_Handler" WARNING m :: t) = m :: alert_logs t.
Proof. reflexivity. Qed.

Lemma opened_files_log l lv m t : opened_files (Log l lv m :: t) = opened_files t.
Proof. reflexivity. Qed.

(** Laws of the computations used below. *)
Lemma bind_ask {B} (k : World -> M B) w d : bind ask k w d = k w w d.
Proof. unfold bind, ask. destruct (k w w d) as [[r d2] t2]. reflexivity. Qed.

Lemma bind_lift_ok {A B} (a : A) (k : A -> M B) w d :
  bind (lift (Ok a)) k w d = k a w d.
Proof. unfold bind, lift. destruct (k a w d) as [[r d2] t2]. reflexivity. Qed.

Lemma bind_lift_raise {A B} e (k : A -> M B) w d :
  bind (lift (Raise e)) k w d = (Raise e, d, []).
Proof. reflexivity. Qed.

Lemma bind_ok {A B} (m : M A) (k : A -> M B) w d a d1 t1 :
  m w d = (Ok a, d1, t1) ->
  bind m k w d = (let '(r, d2, t2) := k a w d1 in (r, d2, t1 ++ t2)).
Proof. intros E. unfold bind. rewrite E. reflexivity. Qed.

Lemma bind_raise {A B} (m : M A) (k : A -> M B) w d e d1 t1 :
  m w d = (Raise e, d1, t1) -> bind m k w d = (Raise e, d1, t1).
Proof. intros E. unfold bind. rewrite E. reflexivity. Qed.

Lemma try_except_ok {A} (body : M A) handler w d a d1 t1 :
  body w d = (Ok a, d1, t1) -> try_except body handler w d = (Ok a, d1, t1).
Proof. intros E. unfold try_except. rewrite E. reflexivity. Qed.

Lemma try_except_raise {A} (body : M A) handler w d e d1 t1 :
  body w d = (Raise e, d1, t1) ->
  try_except body handler w d
  = (let '(r, d2, t2) := handler e w d1 in (r, d2, t1 ++ t2)).
Proof. intros E. unfold try_except. rewrite E. reflexivity. Qed.

(** ** Computations that leave the dashboard alone *)

(** What a computation returns and does, the dashboard apart. *)
Definition run_io {A} (m : M A) (w : World) : Exc A * list Effect :=
  (result (m w DASHBOARD_DATA_initial), effects (m w DASHBOARD_DATA_initial)).

(** A computation that neither reads nor writes the dashboard, logs no
    alert and opens no file. *)
Definition quiet {A} (m : M A) : Prop :=
  forall w d,
    m w d = ((run_io m w).1, d, (run_io m w).2)
    /\ alert_logs (run_io m w).2 = [] /\ opened_files (run_io m w).2 = [].

Lemma quiet_intro {A} (m : M A) :
  (forall w, exists r t, (forall d', m w d' = (r, d', t))
                         /\ alert_logs t = [] /\ opened_files t = []) ->
  quiet m.
Proof.
  intros H w d. destruct (H w) as (r & t & E & Hl & Ho).
  unfold run_io, result, effects. rewrite (E DASHBOARD_DATA_initial), (E d). auto.
Qed.

Lemma quiet_elim {A} (m : M A) w :
  quiet m ->
  exists r t, (forall d, m w d = (r, d, t)) /\ alert_logs t = [] /\ opened_files t = [].
Proof.
  intros H. exists (run_io m w).1, (run_io m w).2.
  split; [intros d; apply H|apply (H w DASHBOARD_DATA_initial)].
Qed.

Lemma quiet_ret {A} (a : A) : quiet (ret a).
Proof. apply quiet_intro. intros w. exists (Ok a), []. auto. Qed.

Lemma quiet_lift {A} (r : Exc A) : quiet (lift r).
Proof. apply quiet_intro. intros w. exists r, []. auto. Qed.

Lemma quiet_getitem {A} key (v : option A) : quiet (getitem key v).
Proof. apply quiet_lift. Qed.

Lemma quiet_emit e :
  alert_logs [e] = [] -> opened_files [e] = [] -> quiet (emit e).
Proof. intros Hl Ho. apply quiet_intro. intros w. exists (Ok tt), [e]. auto. Qed.

Lemma quiet_bind {A B} (m : M A) (k : A -> M B) :
  quiet m -> (forall a, quiet (k a)) -> quiet (bind m k).
Proof.
  intros Hm Hk. apply quiet_intro. intros w.
  destruct (quiet_elim m w Hm) as (r & t & E & Hl & Ho).
  destruct r as [a|e].
  - destruct (quiet_elim (k a) w (Hk a)) as (r' & t' & E' & Hl' & Ho').
    exists r', (t ++ t'). split; [|rewrite alert_logs_app, opened_files_app, Hl, Hl', Ho, Ho'; auto].
    intros d'. unfold bind. rewrite E, E'. reflexivity.
  - exists (Raise e), t. split; [|auto]. intros d'. unfold bind. rewrite E. reflexivity.
Qed.

Lemma quiet_ask {B} (k : World -> M B) :
  (forall w, quiet (k w)) -> quiet (bind ask k).
Proof.
  intros Hk. apply quiet_intro. intros w.
  destruct (quiet_elim (k w) w (Hk w)) as (r & t & E & Hl & Ho).
  exists r, t. split; [|auto]. intros d'. rewrite bind_ask. apply E.
Qed.

Lemma quiet_try {A} (body : M A) handler :
  quiet body -> (forall e, quiet (handler e)) -> quiet (try_except body handler).
Proof.
  intros Hb Hh. apply quiet_intro. intros w.
  destruct (quiet_elim body w Hb) as (r & t & E & Hl & Ho).
  destruct r as [a|e].
  - exists (Ok a), t. split; [|auto]. intros d'. unfold try_except. rewrite E. reflexivity.
  - destruct (quiet_elim (handler e) w (Hh e)) as (r' & t' & E' & Hl' & Ho').
    exists r', (t ++ t'). split; [|rewrite alert_logs_app, opened_files_app, Hl, Hl', Ho, Ho'; auto].
    intros d'. unfold try_except. rewrite E, E'. reflexivity.
Qed.

Lemma quiet_with_exit {A} (body : M A) exit :
  quiet body -> quiet exit -> quiet (with_exit body exit).
Proof.
  intros Hb Hx. apply quiet_intro. intros w.
  destruct (quiet_elim body w Hb) as (r & t & E & Hl & Ho).
  destruct (quiet_elim exit w Hx) as (r' & t' & E' & Hl' & Ho').
  exists (match r' with Ok _ => r | Raise e => Raise e end), (t ++ t').
  split; [|rewrite alert_logs_app, opened_files_app, Hl, Hl', Ho, Ho'; auto].
  intros d'. unfold with_exit. rewrite E, E'. destruct r'; reflexivity.
Qed.

Lemma quiet_print line : quiet (print line).
Proof.
  unfold print. apply quiet_ask. intros w.
  apply quiet_bind; [apply quiet_lift|]. intros _. apply quiet_emit; reflexivity.
Qed.

Lemma mail_alert_quiet config w subject body : quiet (mail_alert config w subject body).
Proof.
  unfold mail_alert.
  repeat first
    [ apply quiet_getitem | apply quiet_lift | apply quiet_ret
    | apply quiet_emit; reflexivity
    | apply quiet_with_exit
    | apply quiet_bind; [|intros ?] ].
Qed.

Lemma report_unsent_quiet impl subject fp det e : quiet (report_unsent impl subject fp det e).
Proof.
  unfold report_unsent.
  repeat first
    [ apply quiet_print | apply quiet_ret | apply quiet_emit; reflexivity
    | apply quiet_bind; [|intros ?] ].
Qed.

(** [send_alert] leaves the dashboard alone, logs no alert and opens no
    file, however it ends. *)
Lemma send_alert_quiet impl config ty fp det : quiet (send_alert impl config ty fp det).
Proof.
  unfold send_alert. apply quiet_ask. intros w. cbv zeta.
  apply quiet_try; [apply mail_alert_quiet|intros e; apply report_unsent_quiet].
Qed.

Lemma send_alert_run impl config ty fp det w d :
  send_alert impl config ty fp det w d
  = ((delivery impl config ty fp det w).1, d, (delivery impl config ty fp det w).2).
Proof. apply (send_alert_quiet impl config ty fp det w d). Qed.

Lemma delivery_silent impl config ty fp det w :
  alert_logs (delivery impl config ty fp det w).2 = []
  /\ opened_files (delivery impl config ty fp det w).2 = [].
Proof. apply (send_alert_quiet impl config ty fp det w DASHBOARD_DATA_initial). Qed.

(** ** The hasher *)

(** What [calculate_file_hash] returns for a path of the disk: the digest,
    or [None] where the code logs a failure. *)
Definition file_hash (node : FileNode) : option string :=
  match open node with
  | Ok f => match read_loop CHUNK f SHA256.new with
            | Ok sha256 => Some (SHA256.hexdigest sha256)
            | Raise _ => None
            end
  | Raise _ => None
  end.

Lemma update_app h a b :
  SHA256.update (SHA256.update h a) b = SHA256.update h (a ++ b).
Proof. unfold SHA256.update. symmetry. apply fold_left_app. Qed.

Lemma read_inv f n data f' :
  read f n = Ok (data, f') ->
  data = take n (rest f) /\ rest f' = drop n (rest f)
  /\ failing f' = (fun ke => (Nat.pred ke.1, ke.2)) <$> failing f.
Proof.
  unfold read. destruct (failing f) as [[[|k] e]|]; intros H; inversion H; auto.
Qed.

(** A run of the loop that ends without an exception has fed the whole
    rest of the file to the hash object, whatever the chunk size. *)
Lemma read_loop_feeds_all chunk f sha256 sha' :
  (0 < chunk)%nat ->
  read_loop chunk f sha256 = Ok sha' ->
  sha' = SHA256.update sha256 (rest f).
Proof.
  intros Hc. funelim (read_loop chunk f sha256); intros Hres.
  - inversion Hres; subst.
    match goal with
    | E : read _ _ = Ok ([], _) |- _ => pose proof (read_inv _ _ _ _ E) as (Ht & _ & _)
    end.
    destruct chunk; [lia|]. destruct (rest f); [reflexivity|discriminate].
  - match goal with
    | IH : context [read_loop _ _ _ = _ -> _] |- _ => apply IH in Hres; [|exact Hc]
    end.
    pose proof (read_inv _ _ _ _ Hr) as (Ht & Hd & _).
    rewrite Hres, Hd, Ht, update_app, take_drop. reflexivity.
  - discriminate.
Qed.

(** On a device that does not fail the loop ends without an exception. *)
Lemma read_loop_returns chunk f sha256 :
  failing f = None -> exists sha', read_loop chunk f sha256 = Ok sha'.
Proof.
  funelim (read_loop chunk f sha256); intros Hn.
  - eauto.
  - match goal with
    | IH : context [_ -> exists _, _] |- _ => apply IH
    end.
    pose proof (read_inv _ _ _ _ Hr) as (_ & _ & Hl). rewrite Hl, Hn. reflexivity.
  - match goal with
    | E : read _ _ = Raise _ |- _ => pose proof E as E'; unfold read in E'; rewrite Hn in E'
    end.
    discriminate.
Qed.

Lemma read_loop_readable chunk content sha256 :
  (0 < chunk)%nat ->
  read_loop chunk {| rest := content; failing := None |} sha256
  = Ok (SHA256.update sha256 content).
Proof.
  intros Hc.
  destruct (read_loop_returns chunk {| rest := content; failing := None |} sha256 eq_refl)
    as [sha' E].
  rewrite E. f_equal. eapply (read_loop_feeds_all _ _ _ _ Hc E).
Qed.

Lemma CHUNK_pos : (0 < CHUNK)%nat.
Proof. unfold CHUNK. lia. Qed.

Lemma file_hash_readable content :
  file_hash (Regular content None) = Some (SHA256.sha256_hex content).
Proof.
  unfold file_hash, open. rewrite (read_loop_readable _ _ _ CHUNK_pos). reflexivity.
Qed.

Lemma file_hash_some node h :
  file_hash node = Some h ->
  exists content good, node = Regular content good /\ h = SHA256.sha256_hex content.
Proof.
  unfold file_hash, open. destruct node as [e0|content good]; [discriminate|].
  destruct (read_loop _ _ _) as [sha'|e] eqn:E; [|discriminate].
  intros [= <-]. apply (read_loop_feeds_all _ _ _ _ CHUNK_pos) in E. subst sha'.
  eauto.
Qed.

(** ** The shape of a digest *)

Definition hex_alphabet : list ascii := list_ascii_of_string "0123456789abcdef".

Lemma hex_digit_lower z : In (SHA256.hex_digit (z mod 16)) hex_alphabet.
Proof.
  unfold SHA256.hex_digit. apply nth_In.
  change (length hex_alphabet) with 16%nat.
  pose proof (Z.mod_pos_bound z 16 eq_refl). lia.
Qed.

Lemma hex32_chars x :
  length (list_ascii_of_string (SHA256.hex32 x)) = 8%nat
  /\ Forall (fun c => In c hex_alphabet) (list_ascii_of_string (SHA256.hex32 x)).
Proof.
  unfold SHA256.hex32. rewrite list_ascii_of_string_of_list_ascii. split.
  - rewrite List.length_map, List.length_rev, List.length_seq. reflexivity.
  - apply List.Forall_forall. intros c Hin.
    apply List.in_map_iff in Hin as (i & <- & _). apply hex_digit_lower.
Qed.

Lemma list_ascii_of_string_app s1 s2 :
  list_ascii_of_string (s1 +:+ s2) = list_ascii_of_string s1 ++ list_ascii_of_string s2.
Proof. induction s1 as [|c s1 IH]; simpl; [reflexivity|]. now rewrite IH. Qed.

(** [hexdigest] gives 64 characters, each a lowercase hexadecimal digit. *)
Lemma hexdigest_lowercase_hex h :
  length (list_ascii_of_string (SHA256.hexdigest h)) = 64%nat
  /\ Forall (fun c => In c hex_alphabet) (list_ascii_of_string (SHA256.hexdigest h)).
Proof.
  unfold SHA256.hexdigest. cbv zeta.
  set (s := SHA256.state _).
  rewrite !list_ascii_of_string_app.
  split.
  - rewrite !List.length_app.
    rewrite !(proj1 (hex32_chars _)). reflexivity.
  - rewrite !Forall_app. repeat split; apply hex32_chars.
Qed.

Lemma hexdigest_truthy h : str_truthy (SHA256.hexdigest h) = true.
Proof.
  destruct (hexdigest_lowercase_hex h) as [Hlen _].
  destruct (SHA256.hexdigest h); [discriminate|reflexivity].
Qed.

Lemma file_hash_truthy node h : file_hash node = Some h -> str_truthy h = true.
Proof.
  intros H. apply file_hash_some in H as (content & good & _ & ->).
  apply hexdigest_truthy.
Qed.


(** ** The hasher's outcomes *)

(** What the [try] of [calculate_file_hash] comes to for a path of the
    disk: the digest, or the exception of [open] or of a read. *)
Definition hash_outcome (node : FileNode) : Exc string :=
  match open node with
  | Ok f => match read_loop CHUNK f SHA256.new with
            | Ok sha256 => Ok (SHA256.hexdigest sha256)
            | Raise e => Raise e
            end
  | Raise e => Raise e
  end.

Lemma file_hash_outcome node :
  file_hash node = match hash_outcome node with Ok h => Some h | Raise _ => None end.
Proof.
  unfold file_hash, hash_outcome. destruct (open node) as [f|e]; [|reflexivity].
  destruct (read_loop CHUNK f SHA256.new); reflexivity.
Qed.

Lemma hash_stream_run chunk fp w d :
  hash_stream chunk fp w d
  = (match open (fs w fp) with
     | Ok f => match read_loop chunk f SHA256.new with
               | Ok sha256 => Ok (SHA256.hexdigest sha256)
               | Raise e => Raise e
               end
     | Raise e => Raise e
     end, d, [Opened fp]).
Proof.
  unfold hash_stream. run. destruct (open (fs w fp)) as [f|e]; [|reflexivity].
  cbn beta iota. destruct (read_loop chunk f SHA256.new); reflexivity.
Qed.

(** [calculate_file_hash] of the monitors never raises, leaves the
    dashboard alone and logs no alert. *)
Lemma calculate_file_hash_run fp w d :
  calculate_file_hash fp w d
  = match hash_outcome (fs w fp) with
    | Ok h => (Ok (Some h), d, [Opened fp])
    | Raise e =>
        (Ok None, d,
         [Opened fp; Log "FIM_Handler" ERROR ("Hash calculation failed: " +:+ exn_str e)])
    end.
Proof.
  unfold calculate_file_hash, try_except, bind. rewrite hash_stream_run.
  fold (hash_outcome (fs w fp)). destruct (hash_outcome (fs w fp)); reflexivity.
Qed.

(** That of [create_baseline.py] prints the error, and raises what the
    console raises when it cannot. *)
Lemma baseline_calculate_file_hash_run fp w d :
  baseline_calculate_file_hash fp w d
  = match hash_outcome (fs w fp) with
    | Ok h => (Ok (Some h), d, [Opened fp])
    | Raise e =>
        let line := "Error calculating hash for " +:+ fp +:+ ": " +:+ exn_str e in
        match console w line with
        | Ok _ => (Ok None, d, [Opened fp; Print line])
        | Raise e' => (Raise e', d, [Opened fp])
        end
    end.
Proof.
  unfold baseline_calculate_file_hash, try_except, bind at 1. rewrite hash_stream_run.
  fold (hash_outcome (fs w fp)). destruct (hash_outcome (fs w fp)) as [h|e]; [reflexivity|].
  run. destruct (console w _) as [[]|e']; reflexivity.
Qed.

Lemma hash_outcome_truthy node h : hash_outcome node = Ok h -> str_truthy h = true.
Proof.
  intros H. apply (file_hash_truthy node). rewrite file_hash_outcome, H. reflexivity.
Qed.

(** ** The classifier *)

Lemma alert_details_modified impl :
  alert_details impl "File Modified" = Ok (details_fallback impl).
Proof. destruct impl; vm_compute; reflexivity. Qed.

Lemma alert_details_created impl :
  alert_details impl "New File Detected" = Ok (details_fallback impl).
Proof. destruct impl; vm_compute; reflexivity. Qed.

Lemma alert_details_deleted impl :
  alert_details impl "File Deleted" = Ok (details_fallback impl).
Proof. destruct impl; vm_compute; reflexivity. Qed.

Lemma alert_details_of impl k :
  alert_details impl (alert_type_of k) = Ok (details_fallback impl).
Proof.
  destruct k; [apply alert_details_modified | apply alert_details_created
              | apply alert_details_deleted].
Qed.

(** One call of [_trigger_alert] with a type that has a last word: the
    warning is logged; the alert is recorded when [send_alert] returns,
    with either answer; when [send_alert] raises, the call is left with
    that exception and the history as it was. *)
Lemma trigger_alert_run impl (self : Handler impl) ty fp det w d :
  alert_details impl ty = Ok det ->
  _trigger_alert self ty fp w d
  = match (delivery impl (email_config self) ty fp det w).1 with
    | Ok _ =>
        (Ok tt, record_alert d (new_alert w ty fp det),
         Log "FIM_Handler" WARNING (ty +:+ ": " +:+ fp)
           :: (delivery impl (email_config self) ty fp det w).2)
    | Raise e =>
        (Raise e, d,
         Log "FIM_Handler" WARNING (ty +:+ ": " +:+ fp)
           :: (delivery impl (email_config self) ty fp det w).2)
    end.
Proof.
  intros Hd. unfold _trigger_alert. unfold bind at 1. unfold lift at 1. rewrite Hd.
  unfold bind at 1. unfold emit at 1. unfold bind at 1.
  rewrite send_alert_run.
  destruct (delivery impl (email_config self) ty fp det w).1 as [b|e]; [|reflexivity].
  run. unfold record_alert, new_alert. cbn [alerts with_alerts].
  destruct (50 <? length _)%nat eqn:Hlen; cbn beta iota; rewrite ?app_nil_r.
  - reflexivity.
  - apply Nat.ltb_ge in Hlen. rewrite slice_last_short by exact Hlen. reflexivity.
Qed.

(** A type without any word makes [split()[-1]] raise before anything is
    done. *)
Lemma trigger_alert_raises impl (self : Handler impl) ty fp e w d :
  alert_details impl ty = Raise e ->
  _trigger_alert self ty fp w d = (Raise e, d, []).
Proof. intros Hd. unfold _trigger_alert. run. rewrite Hd. reflexivity. Qed.

(** What [_process_event] makes of the call of [_trigger_alert] for an
    event of kind [k]: the alert recorded, or the exception of
    [send_alert] caught and logged. *)
Definition alert_outcome {impl : Impl} (self : Handler impl) (k : EventKind)
    (fp : string) (w : World) (d : DashboardData)
    : Exc unit * DashboardData * list Effect :=
  let ty := alert_type_of k in
  let dl := delivery impl (email_config self) ty fp (details_fallback impl) w in
  match dl.1 with
  | Ok _ =>
      (Ok tt, record_alert d (new_alert w ty fp (details_fallback impl)),
       Log "FIM_Handler" WARNING (ty +:+ ": " +:+ fp) :: dl.2)
  | Raise e =>
      (Ok tt, d,
       Log "FIM_Handler" WARNING (ty +:+ ": " +:+ fp) :: dl.2
       ++ [Log "FIM_Handler" ERROR ("Error processing event: " +:+ exn_str e)])
  end.

(** The [except] of [_process_event]. *)
Definition contained (out : Exc unit * DashboardData * list Effect)
    : Exc unit * DashboardData * list Effect :=
  match out with
  | (Raise e, d1, t1) =>
      (Ok tt, d1, t1 ++ [Log "FIM_Handler" ERROR ("Error processing event: " +:+ exn_str e)])
  | ok => ok
  end.

Lemma contained_trigger impl (self : Handler impl) k fp w d :
  contained (_trigger_alert self (alert_type_of k) fp w d) = alert_outcome self k fp w d.
Proof.
  rewrite (trigger_alert_run impl self _ fp _ w d (alert_details_of impl k)).
  unfold alert_outcome. cbv zeta.
  destruct (delivery impl (email_config self) _ fp _ w).1; reflexivity.
Qed.

Lemma try_contained (body : M unit) w d :
  try_except body
    (fun e => emit (Log "FIM_Handler" ERROR ("Error processing event: " +:+ exn_str e))) w d
  = contained (body w d).
Proof.
  unfold try_except, contained, emit. destruct (body w d) as [[[[]|e] d1] t1]; reflexivity.
Qed.

(** An event whose path cannot be made relative is logged and dropped. *)
Lemma process_event_relpath_raises impl (self : Handler impl) fp ct w d e :
  PosixPath.relpath (cwd w) fp (monitor_dir self) = Raise e ->
  _process_event self fp ct w d
  = (Ok tt, d, [Log "FIM_Handler" ERROR ("Error processing event: " +:+ exn_str e)]).
Proof.
  intros Hrel. unfold _process_event. rewrite try_contained.
  rewrite bind_ask. cbn beta. rewrite Hrel, bind_lift_raise. reflexivity.
Qed.

(** The error logged when the baseline has no file mapping. *)
Definition no_files_logged : list Effect :=
  [Log "FIM_Handler" ERROR "Error processing event: 'files'"].

Lemma process_event_created impl (self : Handler impl) fp w d rel :
  PosixPath.relpath (cwd w) fp (monitor_dir self) = Ok rel ->
  _process_event self fp "CREATED" w d
  = match files (baseline self) with
    | None => (Ok tt, d, no_files_logged)
    | Some tracked =>
        match tracked !! rel with
        | None => alert_outcome self Created fp w d
        | Some _ => (Ok tt, d, [])
        end
    end.
Proof.
  intros Hrel. unfold _process_event. rewrite try_contained.
  rewrite bind_ask. cbn beta. rewrite Hrel, bind_lift_ok.
  change (String.eqb "CREATED" "MODIFIED") with false.
  change (String.eqb "CREATED" "CREATED") with true. cbn iota.
  destruct (files (baseline self)) as [tracked|]; [|reflexivity].
  unfold getitem. rewrite bind_lift_ok.
  destruct (tracked !! rel); [reflexivity|].
  apply (contained_trigger impl self Created).
Qed.

Lemma process_event_deleted impl (self : Handler impl) fp w d rel :
  PosixPath.relpath (cwd w) fp (monitor_dir self) = Ok rel ->
  _process_event self fp "DELETED" w d
  = match files (baseline self) with
    | None => (Ok tt, d, no_files_logged)
    | Some tracked =>
        match tracked !! rel with
        | Some _ => alert_outcome self Deleted fp w d
        | None => (Ok tt, d, [])
        end
    end.
Proof.
  intros Hrel. unfold _process_event. rewrite try_contained.
  rewrite bind_ask. cbn beta. rewrite Hrel, bind_lift_ok.
  change (String.eqb "DELETED" "MODIFIED") with false.
  change (String.eqb "DELETED" "CREATED") with false.
  change (String.eqb "DELETED" "DELETED") with true. cbn iota.
  destruct (files (baseline self)) as [tracked|]; [|reflexivity].
  unfold getitem. rewrite bind_lift_ok.
  destruct (tracked !! rel); [|reflexivity].
  apply (contained_trigger impl self Deleted).
Qed.

(** The run with the [open] call of the hasher in front. *)
Definition after_open (fp : string) (out : Exc unit * DashboardData * list Effect)
    : Exc unit * DashboardData * list Effect :=
  (out.1.1, out.1.2, Opened fp :: out.2).

Lemma process_event_modified impl (self : Handler impl) fp w d rel :
  PosixPath.relpath (cwd w) fp (monitor_dir self) = Ok rel ->
  _process_event self fp "MODIFIED" w d
  = match hash_outcome (fs w fp) with
    | Raise e =>
        (Ok tt, d,
         [Opened fp; Log "FIM_Handler" ERROR ("Hash calculation failed: " +:+ exn_str e)])
    | Ok h =>
        after_open fp
          match files (baseline self) with
          | None => (Ok tt, d, no_files_logged)
          | Some tracked =>
              match tracked !! rel with
              | Some record =>
                  if String.eqb h (hash record) then (Ok tt, d, [])
                  else alert_outcome self Modified fp w d
              | None => (Ok tt, d, [])
              end
          end
    end.
Proof.
  intros Hrel. unfold _process_event. rewrite try_contained.
  rewrite bind_ask. cbn beta. rewrite Hrel, bind_lift_ok.
  change (String.eqb "MODIFIED" "MODIFIED") with true. cbn iota.
  unfold bind at 1. rewrite calculate_file_hash_run.
  destruct (hash_outcome (fs w fp)) as [h|e] eqn:Hh; [|reflexivity].
  rewrite (hash_outcome_truthy _ _ Hh).
  destruct (files (baseline self)) as [tracked|]; [|reflexivity].
  unfold getitem. rewrite bind_lift_ok.
  destruct (tracked !! rel) as [record|]; [|reflexivity].
  destruct (String.eqb h (hash record)); [reflexivity|]. cbn [negb].
  rewrite <- (contained_trigger impl self Modified). cbn [alert_type_of].
  destruct (_trigger_alert self "File Modified" fp w d) as [[[[]|e] d1] t1];
    reflexivity.
Qed.

(** ** Dispatch *)

(** The number of files [SafeBank_FIM/monitor.py] shows for a handler. *)
Definition tracked_count {impl : Impl} (self : Handler impl) : Z :=
  Z.of_nat (size (default ∅ (files (baseline self)))).

(** The scan date it shows. *)
Definition scan_date (b : Baseline) : string :=
  default "Never" (match metadata b with Present m => created m | _ => None end).

(** The dashboard [SafeBank_FIM/monitor.py] leaves after an event: the
    counters are recomputed from the handler's baseline. *)
Definition refreshed {impl : Impl} (self : Handler impl) (w : World) (d : DashboardData)
    : DashboardData :=
  {| alerts := alerts d;
     file_count := tracked_count self;
     last_scan := Some (scan_date (baseline self));
     last_update := Some (now_isoformat w) |}.

Definition settled {impl : Impl} (self : Handler impl) (w : World) (d : DashboardData)
    : DashboardData :=
  match impl with
  | monitor_files => d
  | SafeBank_FIM_monitor => refreshed self w d
  end.

Lemma update_dashboard_run b tracked w d :
  files b = Some tracked -> metadata b <> Null ->
  update_dashboard b w d
  = (Ok tt,
     {| alerts := alerts d; file_count := Z.of_nat (size tracked);
        last_scan := Some (scan_date b); last_update := Some (now_isoformat w) |},
     []).
Proof.
  intros Hf Hm. unfold update_dashboard, scan_date, get_metadata. run. rewrite Hf.
  cbn beta iota. destruct (metadata b); [reflexivity|congruence|reflexivity].
Qed.

Lemma after_event_settles impl (self : Handler impl) w d :
  after_event self w d = (Ok tt, settled self w d, []).
Proof.
  destruct self as [b cfg dir Hc]. destruct impl; [reflexivity|].
  destruct Hc as [[tracked Hf] Hm]. unfold after_event, _update_dashboard_data.
  cbn [baseline]. rewrite (update_dashboard_run _ _ _ _ Hf Hm).
  unfold settled, refreshed, tracked_count. cbn [baseline]. rewrite Hf. reflexivity.
Qed.

Lemma settled_alerts impl (self : Handler impl) w d :
  alerts (settled self w d) = alerts d.
Proof. destruct impl; reflexivity. Qed.

Lemma dispatch_directory impl (self : Handler impl) event w d :
  is_directory event = true -> dispatch impl self event w d = (Ok tt, d, []).
Proof.
  intros H. unfold dispatch, on_modified, on_created, on_deleted.
  rewrite H. destruct (event_type event); reflexivity.
Qed.

Lemma dispatch_file impl (self : Handler impl) event w d :
  is_directory event = false ->
  dispatch impl self event w d
  = (_process_event self (src_path event) (change_type_of (event_type event)) ;;;
     after_event self) w d.
Proof.
  intros H. unfold dispatch, on_modified, on_created, on_deleted.
  rewrite H. destruct (event_type event); reflexivity.
Qed.

(** The end of an [on_...] method after a [_process_event] that returned. *)
Definition finish {impl : Impl} (self : Handler impl) (w : World)
    (out : Exc unit * DashboardData * list Effect)
    : Exc unit * DashboardData * list Effect :=
  (out.1.1, settled self w out.1.2, out.2).

Lemma dispatch_finish impl (self : Handler impl) event w d :
  is_directory event = false ->
  result (_process_event self (src_path event) (change_type_of (event_type event)) w d)
  = Ok tt ->
  dispatch impl self event w d
  = finish self w
      (_process_event self (src_path event) (change_type_of (event_type event)) w d).
Proof.
  intros Hdir Hr. rewrite (dispatch_file _ _ _ _ _ Hdir). unfold bind, finish.
  destruct (_process_event _ _ _ w d) as [[r d1] t1]. cbn in Hr. subst r.
  rewrite after_event_settles, app_nil_r. reflexivity.
Qed.

Lemma process_event_returns impl (self : Handler impl) fp ct w d :
  result (_process_event self fp ct w d) = Ok tt.
Proof.
  unfold _process_event. rewrite try_contained.
  match goal with |- result (contained ?x) = _ => destruct x as [[[[]|e] d1] t1] end;
    reflexivity.
Qed.

Lemma dispatch_run impl (self : Handler impl) event w d :
  is_directory event = false ->
  dispatch impl self event w d
  = finish self w
      (_process_event self (src_path event) (change_type_of (event_type event)) w d).
Proof. intros Hdir. apply dispatch_finish; [exact Hdir|apply process_event_returns]. Qed.

(** ** The notification channel *)

(** What the [try] block of [send_alert] comes to, the dashboard apart. *)
Definition mail_outcome (impl : Impl) (config : EmailConfig)
    (ty fp det : string) (w : World) : Exc bool * list Effect :=
  run_io (mail_alert config w (subject_prefix impl +:+ ty)
            (email_body impl (now_strftime w) ty fp det)) w.

(** The mail can go through: every key is there, and nothing on the way
    fails. *)
Definition mail_goes_through (impl : Impl) (config : EmailConfig)
    (ty fp det : string) (w : World) : Prop :=
  exists srv port from pw rcpts,
    smtp_server config = Some srv
    /\ smtp_port config = Some port
    /\ sender_email config = Some from
    /\ sender_password config = Some pw
    /\ recipient_emails config = Some rcpts
    /\ mime_text w (email_body impl (now_strftime w) ty fp det) = Ok tt
    /\ smtp_open w srv port = Ok tt
    /\ smtp_starttls w = Ok tt
    /\ smtp_login w from pw = Ok tt
    /\ smtp_send w (alert_mail impl w from rcpts ty fp det) = Ok tt
    /\ smtp_quit w = Ok tt.

Ltac not_through :=
  intros (?&?&?&?&?&?&?&?&?&?&?&?&?&?&?&?);
  repeat match goal with
         | H : Some _ = Some _ |- _ => injection H as H; subst
         | H : None = Some _ |- _ => discriminate H
         end;
  congruence.

Ltac unsent := right; split; [not_through|cbn [fst snd]; eauto 6].
Ltac unsent_inside :=
  right; split;
    [not_through
    |match goal with |- context [smtp_quit ?w] => destruct (smtp_quit w) as [[]|?e] end;
     cbn; eauto 6].

Lemma mail_outcome_cases impl config ty fp det w :
  (mail_goes_through impl config ty fp det w
   /\ exists from rcpts,
        sender_email config = Some from /\ recipient_emails config = Some rcpts
        /\ mail_outcome impl config ty fp det w
           = (Ok true,
              [Sent (alert_mail impl w from rcpts ty fp det);
               Log "FIM_EmailAlerts" INFO
                 ("Email alert sent: " +:+ subject_prefix impl +:+ ty)]))
  \/ (~ mail_goes_through impl config ty fp det w
      /\ exists e t0,
           mail_outcome impl config ty fp det w = (Raise e, t0)
           /\ (t0 = [] \/ exists m, smtp_send w m = Ok tt /\ t0 = [Sent m])).
Proof.
  unfold mail_outcome, run_io, result, effects, mail_alert, mail_goes_through, alert_mail.
  run.
  destruct (sender_email config) as [from|] eqn:Hfrom; cbn beta iota; [|unsent].
  destruct (recipient_emails config) as [rc|] eqn:Hrc; cbn beta iota; [|unsent].
  destruct (mime_text w _) as [[]|e0] eqn:Hmime; cbn beta iota; [|unsent].
  destruct (smtp_server config) as [srv|] eqn:Hsrv; cbn beta iota; [|unsent].
  destruct (smtp_port config) as [port|] eqn:Hport; cbn beta iota; [|unsent].
  destruct (smtp_open w srv port) as [[]|e1] eqn:Hopen; cbn beta iota; [|unsent].
  destruct (smtp_starttls w) as [[]|e2] eqn:Htls; cbn beta iota; [|unsent_inside].
  destruct (sender_password config) as [pw|] eqn:Hpw; cbn beta iota; [|unsent_inside].
  destruct (smtp_login w from pw) as [[]|e4] eqn:Hlogin; cbn beta iota; [|unsent_inside].
  destruct (smtp_send w _) as [[]|e5] eqn:Hsend; cbn beta iota; [|unsent_inside].
  destruct (smtp_quit w) as [[]|e6] eqn:Hquit; cbn beta iota.
  - left. split; [exists srv, port, from, pw, rc; auto 12|].
    exists from, rc. auto.
  - right. split; [not_through|].
    exists e6. eexists. split; [reflexivity|]. right. eexists. split; [exact Hsend|reflexivity].
Qed.

(** [send_alert] from the outcome of its [try] block. *)
Lemma delivery_of_mail impl config ty fp det w :
  delivery impl config ty fp det w
  = match mail_outcome impl config ty fp det w with
    | (Ok b, t) => (Ok b, t)
    | (Raise e, t) =>
        match console w (console_line impl ty fp det) with
        | Ok _ =>
            (Ok false,
             t ++ [Log "FIM_EmailAlerts" ERROR ("Email failed: " +:+ exn_str e);
                   Print (console_line impl ty fp det)])
        | Raise e' =>
            (Raise e', t ++ [Log "FIM_EmailAlerts" ERROR ("Email failed: " +:+ exn_str e)])
        end
    end.
Proof.
  unfold delivery, mail_outcome, run_io, send_alert, result, effects.
  rewrite bind_ask. cbv zeta. unfold try_except.
  destruct (mail_alert _ _ _ _ w DASHBOARD_DATA_initial) as [[[b|e] d1] t1]; cbn [fst snd];
    [reflexivity|].
  unfold report_unsent, console_line. run.
  destruct (console w _) as [[]|e']; cbn; rewrite ?app_nil_r; reflexivity.
Qed.

(** When the console takes the line, [send_alert] returns. *)
Lemma console_ok_delivers impl config ty fp det w :
  console w (console_line impl ty fp det) = Ok tt ->
  exists b, (delivery impl config ty fp det w).1 = Ok b.
Proof.
  intros Hc. rewrite delivery_of_mail.
  destruct (mail_outcome impl config ty fp det w) as [[b|e] t]; [eauto|].
  rewrite Hc. eauto.
Qed.

(** It raises exactly when the mail did not go through and the console
    then refuses the line; the exception is the console's. *)
Lemma delivery_raises impl config ty fp det w e :
  (delivery impl config ty fp det w).1 = Raise e
  <-> ~ mail_goes_through impl config ty fp det w
      /\ console w (console_line impl ty fp det) = Raise e.
Proof.
  rewrite delivery_of_mail.
  destruct (mail_outcome_cases impl config ty fp det w)
    as [(Hg & from & rc & _ & _ & E)|(Hng & e0 & t0 & E & _)]; rewrite E.
  - split; [discriminate|]. intros [Hn _]. contradiction.
  - destruct (console w _) as [[]|e']; cbn; split.
    + discriminate.
    + intros [_ H]. discriminate.
    + intros [= ->]. auto.
    + intros [_ [= ->]]. reflexivity.
Qed.

(** ** Verdicts *)

(** The run produced exactly one alert, of category [k], for the path:
    one warning was logged and one record was appended to the history
    (which then keeps its last 50). *)
Definition one_alert_of (k : EventKind) (fp : string) (d : DashboardData)
    (out : Exc unit * DashboardData * list Effect) : Prop :=
  result out = Ok tt
  /\ length (alert_logs (effects out)) = 1%nat
  /\ exists a, alert_category a = Some k /\ a_path a = fp
               /\ alerts (dashboard out) = slice_last 50 (alerts d ++ [a]).

(** The run produced no alert. *)
Definition no_alert (d : DashboardData)
    (out : Exc unit * DashboardData * list Effect) : Prop :=
  result out = Ok tt
  /\ length (alert_logs (effects out)) = 0%nat
  /\ alerts (dashboard out) = alerts d.

(** The run raised the alert and lost it: the warning was logged, and
    the history is as it was. *)
Definition alert_lost (k : EventKind) (fp : string) (d : DashboardData)
    (out : Exc unit * DashboardData * list Effect) : Prop :=
  result out = Ok tt
  /\ alert_logs (effects out) = [alert_type_of k +:+ ": " +:+ fp]
  /\ alerts (dashboard out) = alerts d.

(** What [send_alert] returns or raises for the alert of an event of
    kind [k]. *)
Definition notification {impl : Impl} (self : Handler impl) (k : EventKind)
    (fp : string) (w : World) : Exc bool :=
  (delivery impl (email_config self) (alert_type_of k) fp (details_fallback impl) w).1.

Lemma alert_category_of w k fp det :
  alert_category (new_alert w (alert_type_of k) fp det) = Some k.
Proof. destruct k; reflexivity. Qed.

Lemma alert_outcome_sent impl (self : Handler impl) k fp w d b :
  notification self k fp w = Ok b ->
  alert_outcome self k fp w d
  = (Ok tt, record_alert d (new_alert w (alert_type_of k) fp (details_fallback impl)),
     Log "FIM_Handler" WARNING (alert_type_of k +:+ ": " +:+ fp)
       :: (delivery impl (email_config self) (alert_type_of k) fp
             (details_fallback impl) w).2).
Proof. unfold notification, alert_outcome. cbv zeta. intros ->. reflexivity. Qed.

Lemma alert_outcome_raised impl (self : Handler impl) k fp w d e :
  notification self k fp w = Raise e ->
  alert_outcome self k fp w d
  = (Ok tt, d,
     Log "FIM_Handler" WARNING (alert_type_of k +:+ ": " +:+ fp)
       :: (delivery impl (email_config self) (alert_type_of k) fp
             (details_fallback impl) w).2
       ++ [Log "FIM_Handler" ERROR ("Error processing event: " +:+ exn_str e)]).
Proof. unfold notification, alert_outcome. cbv zeta. intros ->. reflexivity. Qed.

Lemma alert_outcome_one impl (self : Handler impl) k fp w d b :
  notification self k fp w = Ok b -> one_alert_of k fp d (alert_outcome self k fp w d).
Proof.
  intros H. rewrite (alert_outcome_sent _ _ _ _ _ _ _ H).
  destruct (delivery_silent impl (email_config self) (alert_type_of k) fp
              (details_fallback impl) w) as [Hl _].
  split; [reflexivity|]. split.
  - unfold effects. cbn [snd]. rewrite alert_logs_warning, Hl. reflexivity.
  - eexists. split; [apply alert_category_of|]. split; reflexivity.
Qed.

Lemma alert_outcome_lost impl (self : Handler impl) k fp w d e :
  notification self k fp w = Raise e -> alert_lost k fp d (alert_outcome self k fp w d).
Proof.
  intros H. rewrite (alert_outcome_raised _ _ _ _ _ _ _ H).
  destruct (delivery_silent impl (email_config self) (alert_type_of k) fp
              (details_fallback impl) w) as [Hl _].
  split; [reflexivity|]. split; [|reflexivity].
  unfold effects. cbn [snd]. rewrite alert_logs_warning, alert_logs_app, Hl. reflexivity.
Qed.

Lemma one_alert_not_none k fp d out : one_alert_of k fp d out -> no_alert d out -> False.
Proof. intros (_ & H1 & _) (_ & H0 & _). congruence. Qed.

(** The refresh of the counters at the end of an [on_...] method leaves
    the verdict as it is. *)
Lemma finish_one_alert impl (self : Handler impl) w k fp d out :
  one_alert_of k fp d out -> one_alert_of k fp d (finish self w out).
Proof.
  intros (Hr & Hl & a & Hk & Hp & Ha). split; [exact Hr|]. split; [exact Hl|].
  exists a. split; [exact Hk|]. split; [exact Hp|].
  unfold finish, dashboard. cbn [fst snd]. rewrite settled_alerts. exact Ha.
Qed.

Lemma finish_no_alert impl (self : Handler impl) w d out :
  no_alert d out -> no_alert d (finish self w out).
Proof.
  intros (Hr & Hl & Ha). split; [exact Hr|]. split; [exact Hl|].
  unfold finish, dashboard. cbn [fst snd]. rewrite settled_alerts. exact Ha.
Qed.

Lemma finish_alert_lost impl (self : Handler impl) w k fp d out :
  alert_lost k fp d out -> alert_lost k fp d (finish self w out).
Proof.
  intros (Hr & Hl & Ha). split; [exact Hr|]. split; [exact Hl|].
  unfold finish, dashboard. cbn [fst snd]. rewrite settled_alerts. exact Ha.
Qed.

Lemma after_open_one_alert fp' k fp d out :
  one_alert_of k fp d out -> one_alert_of k fp d (after_open fp' out).
Proof. intros H. exact H. Qed.

Lemma after_open_no_alert fp' d out : no_alert d out -> no_alert d (after_open fp' out).
Proof. intros H. exact H. Qed.

Lemma after_open_alert_lost fp' k fp d out :
  alert_lost k fp d out -> alert_lost k fp d (after_open fp' out).
Proof. intros H. exact H. Qed.

Lemma quiet_no_alert d t : alert_logs t = [] -> no_alert d (Ok tt, d, t).
Proof.
  intros H. split; [reflexivity|]. split; [|reflexivity].
  unfold effects. cbn [snd]. rewrite H. reflexivity.
Qed.

(** The handlers on an event for a file, by kind. *)
Lemma created_outcome impl (self : Handler impl) event w d rel tracked :
  is_directory event = false -> event_type event = Created ->
  PosixPath.relpath (cwd w) (src_path event) (monitor_dir self) = Ok rel ->
  files (baseline self) = Some tracked ->
  dispatch impl self event w d
  = finish self w
      match tracked !! rel with
      | None => alert_outcome self Created (src_path event) w d
      | Some _ => (Ok tt, d, [])
      end.
Proof.
  intros Hdir Hk Hrel Hf. rewrite (dispatch_run _ _ _ _ _ Hdir), Hk. cbn [change_type_of].
  rewrite (process_event_created impl self (src_path event) w d rel Hrel), Hf. reflexivity.
Qed.

Lemma deleted_outcome impl (self : Handler impl) event w d rel tracked :
  is_directory event = false -> event_type event = Deleted ->
  PosixPath.relpath (cwd w) (src_path event) (monitor_dir self) = Ok rel ->
  files (baseline self) = Some tracked ->
  dispatch impl self event w d
  = finish self w
      match tracked !! rel with
      | Some _ => alert_outcome self Deleted (src_path event) w d
      | None => (Ok tt, d, [])
      end.
Proof.
  intros Hdir Hk Hrel Hf. rewrite (dispatch_run _ _ _ _ _ Hdir), Hk. cbn [change_type_of].
  rewrite (process_event_deleted impl self (src_path event) w d rel Hrel), Hf. reflexivity.
Qed.

Lemma modified_outcome impl (self : Handler impl) event w d rel tracked :
  is_directory event = false -> event_type event = Modified ->
  PosixPath.relpath (cwd w) (src_path event) (monitor_dir self) = Ok rel ->
  files (baseline self) = Some tracked ->
  dispatch impl self event w d
  = finish self w
      match hash_outcome (fs w (src_path event)) with
      | Raise e =>
          (Ok tt, d,
           [Opened (src_path event);
            Log "FIM_Handler" ERROR ("Hash calculation failed: " +:+ exn_str e)])
      | Ok h =>
          after_open (src_path event)
            match tracked !! rel with
            | Some record =>
                if String.eqb h (hash record) then (Ok tt, d, [])
                else alert_outcome self Modified (src_path event) w d
            | None => (Ok tt, d, [])
            end
      end.
Proof.
  intros Hdir Hk Hrel Hf. rewrite (dispatch_run _ _ _ _ _ Hdir), Hk. cbn [change_type_of].
  rewrite (process_event_modified impl self (src_path event) w d rel Hrel), Hf. reflexivity.
Qed.

(** * A concrete installation, for the examples *)

Module Example.

Definition digest_abc : string :=
  "ba7816bf8f01cfea414140de5dae2223b00361a396177a9cb410ff61f20015ad".

(** Two file names with a byte that is no UTF-8 (a Latin-1 e acute), as
    an archive unpacked with another encoding leaves them; Python holds
    such a byte as a lone surrogate. *)
Definition odd_new : string := "SafeBank_Data/caf" +:+ String (ascii_of_nat 233) ".txt".
Definition odd_old : string := "SafeBank_Data/r" +:+ String (ascii_of_nat 233) "sum.txt".

(** The position of the first character that a strict UTF-8 encoder
    refuses: a lone surrogate, which is how Python holds such a byte. *)
Fixpoint first_surrogate (s : string) (i : nat) : option nat :=
  match s with
  | EmptyString => None
  | String c r =>
      if (nat_of_ascii c <? 128)%nat then first_surrogate r (S i) else Some i
  end.

Definition encode_strict (s : string) : Exc unit :=
  match first_surrogate s 0 with
  | None => Ok tt
  | Some i =>
      Raise (UnicodeEncodeError
               ("'utf-8' codec can't encode character '\udce9' in position "
                +:+ pretty i +:+ ": surrogates not allowed"))
  end.

(** [a.txt] holds "abc"; [locked.txt] fails at its first read; the file
    with the odd name that the baseline knows has been tampered with;
    nothing else can be opened. *)
Definition disk (p : string) : FileNode :=
  if String.eqb p "SafeBank_Data/a.txt" then Regular (list_byte_of_string "abc") None
  else if String.eqb p "SafeBank_Data/locked.txt"
       then Regular (list_byte_of_string "secret")
              (Some (0%nat, OSError "[Errno 5] Input/output error"))
  else if String.eqb p odd_old then Regular (list_byte_of_string "tampered") None
  else Unopenable (OSError ("[Errno 2] No such file or directory: '" +:+ p +:+ "'")).

(** The mail server refuses every connection, and the console is a
    stream with strict UTF-8 encoding. *)
Definition world : World :=
  {| cwd := "/srv/fim";
     fs := disk;
     now_strftime := "2025-03-01 12:00:00";
     now_isoformat := "2025-03-01T12:00:00.000000";
     console := encode_strict;
     mime_text := encode_strict;
     smtp_open := fun _ _ => Raise (OSError "[Errno 111] Connection refused");
     smtp_starttls := Ok tt;
     smtp_login := fun _ _ => Ok tt;
     smtp_send := fun _ => Ok tt;
     smtp_quit := Ok tt;
     makedirs := fun _ => Ok tt;
     baseline_exists := true;
     baseline_create := Ok tt;
     baseline_reopen := Ok tt;
     baseline_json := Raise (JSONDecodeError "Expecting value: line 1 column 1 (char 0)") |}.

Definition config : EmailConfig :=
  {| smtp_server := Some "smtp.gmail.com";
     smtp_port := Some 587;
     sender_email := Some "fim@example.org";
     sender_password := Some "";
     recipient_emails := Some ["admin@example.org"] |}.

Definition record_of (h : string) : FileRecord :=
  {| hash := h; file_size := 3; last_modified := "1740830400.0"; permissions := "0644" |}.

Definition tracked_files : gmap string FileRecord :=
  <["a.txt" := record_of digest_abc]>
  (<["config.ini" := record_of digest_abc]>
  (<["locked.txt" := record_of digest_abc]>
  (<["r" +:+ String (ascii_of_nat 233) "sum.txt" := record_of digest_abc]> ∅))).

Definition tracked : Baseline :=
  {| metadata := Present {| created := Some "2025-02-28T09:00:00";
                            directory := Some "/srv/fim/SafeBank_Data";
                            total_files := Some 4 |};
     files := Some tracked_files |}.

Lemma tracked_initialised impl : initialised impl tracked.
Proof. destruct impl; [exact I|]. split; [eexists; reflexivity|discriminate]. Qed.

Definition handler {impl : Impl} : Handler impl :=
  {| baseline := tracked; email_config := config; monitor_dir := "SafeBank_Data";
     constructed := tracked_initialised impl |}.

Definition file_event (k : EventKind) (p : string) : RawEvent :=
  {| src_path := p; event_type := k; is_directory := false |}.

End Example.

(** * Properties of the specification *)

(** C1. A directory event of any kind does nothing at all.  A
    non-directory Created event whose path, made relative to the monitored
    directory, has an entry in the baseline gives no alert; without an
    entry the alert is raised, and it is exactly one alert of category
    Created whenever [send_alert] returns; when [send_alert] raises (the
    [print] of its [except] block failing) the warning is logged and the
    alert never reaches the history.  Likewise for a Deleted event, with
    and without an entry exchanged. *)
Theorem created_deleted_classification impl (self : Handler impl) event w d :
  (is_directory event = true -> dispatch impl self event w d = (Ok tt, d, []))
  /\ (forall rel tracked,
        is_directory event = false ->
        PosixPath.relpath (cwd w) (src_path event) (monitor_dir self) = Ok rel ->
        files (baseline self) = Some tracked ->
        (event_type event = Created ->
           (is_Some (tracked !! rel) -> no_alert d (dispatch impl self event w d))
           /\ (tracked !! rel = None ->
                 (forall b, notification self Created (src_path event) w = Ok b ->
                    one_alert_of Created (src_path event) d (dispatch impl self event w d))
                 /\ (forall e, notification self Created (src_path event) w = Raise e ->
                       alert_lost Created (src_path event) d (dispatch impl self event w d))))
        /\ (event_type event = Deleted ->
              (tracked !! rel = None -> no_alert d (dispatch impl self event w d))
              /\ (is_Some (tracked !! rel) ->
                    (forall b, notification self Deleted (src_path event) w = Ok b ->
                       one_alert_of Deleted (src_path event) d (dispatch impl self event w d))
                    /\ (forall e, notification self Deleted (src_path event) w = Raise e ->
                          alert_lost Deleted (src_path event) d
                            (dispatch impl self event w d))))).
Proof.
  split; [apply dispatch_directory|].
  intros rel tracked Hdir Hrel Hf. split; intros Hk.
  - rewrite (created_outcome impl self event w d rel tracked Hdir Hk Hrel Hf).
    split; [intros [record Hl]|intros Hl]; rewrite Hl.
    + apply finish_no_alert, quiet_no_alert. reflexivity.
    + split; [intros b Hn|intros e Hn].
      * eapply finish_one_alert, alert_outcome_one, Hn.
      * eapply finish_alert_lost, alert_outcome_lost, Hn.
  - rewrite (deleted_outcome impl self event w d rel tracked Hdir Hk Hrel Hf).
    split; [intros Hl|intros [record Hl]]; rewrite Hl.
    + apply finish_no_alert, quiet_no_alert. reflexivity.
    + split; [intros b Hn|intros e Hn].
      * eapply finish_one_alert, alert_outcome_one, Hn.
      * eapply finish_alert_lost, alert_outcome_lost, Hn.
Qed.

(** A file appears that the baseline does not know and whose name holds
    a byte that is no UTF-8, while the mail server is down: the warning
    is logged, and the history stays empty. *)
Lemma created_deleted_classification_witness :
  Example.tracked_files !! ("caf" +:+ String (ascii_of_nat 233) ".txt") = None
  /\ alert_lost Created Example.odd_new DASHBOARD_DATA_initial
       (dispatch monitor_files Example.handler
          (Example.file_event Created Example.odd_new)
          Example.world DASHBOARD_DATA_initial)
  /\ alerts (dashboard (dispatch monitor_files Example.handler
                          (Example.file_event Created Example.odd_new)
                          Example.world DASHBOARD_DATA_initial)) = [].
Proof.
  split; [vm_compute; reflexivity|].
  assert (H : alert_lost Created Example.odd_new DASHBOARD_DATA_initial
                (dispatch monitor_files Example.handler
                   (Example.file_event Created Example.odd_new)
                   Example.world DASHBOARD_DATA_initial)).
  { destruct (created_deleted_classification monitor_files Example.handler
                (Example.file_event Created Example.odd_new)
                Example.world DASHBOARD_DATA_initial) as [_ H].
    destruct (H ("caf" +:+ String (ascii_of_nat 233) ".txt") Example.tracked_files eq_refl)
      as [Hc _]; [vm_compute; reflexivity|reflexivity|].
    destruct (Hc eq_refl) as [_ Hnone].
    destruct Hnone as [_ Hlost]; [vm_compute; reflexivity|].
    eapply Hlost. vm_compute. reflexivity. }
  split; [exact H|]. destruct H as (_ & _ & Ha). exact Ha.
Defined.

(** C2. For a non-directory Modified event whose relative path has an
    entry in the baseline: no alert when the digest of the file equals the
    recorded one; when it differs the alert is raised, and it is exactly
    one alert of category Modified whenever [send_alert] returns, and is
    lost when [send_alert] raises; no alert when the digest cannot be
    obtained.  Without an entry, no alert. *)
Theorem modified_classification impl (self : Handler impl) event w d rel tracked :
  is_directory event = false ->
  event_type event = Modified ->
  PosixPath.relpath (cwd w) (src_path event) (monitor_dir self) = Ok rel ->
  files (baseline self) = Some tracked ->
  (forall record,
      tracked !! rel = Some record ->
      (forall h, file_hash (fs w (src_path event)) = Some h -> h = hash record ->
                 no_alert d (dispatch impl self event w d))
      /\ (forall h, file_hash (fs w (src_path event)) = Some h -> h <> hash record ->
            (forall b, notification self Modified (src_path event) w = Ok b ->
               one_alert_of Modified (src_path event) d (dispatch impl self event w d))
            /\ (forall e, notification self Modified (src_path event) w = Raise e ->
                  alert_lost Modified (src_path event) d (dispatch impl self event w d)))
      /\ (file_hash (fs w (src_path event)) = None ->
          no_alert d (dispatch impl self event w d)))
  /\ (tracked !! rel = None ->
      no_alert d (dispatch impl self event w d)).
Proof.
  intros Hdir Hk Hrel Hf.
  rewrite (modified_outcome impl self event w d rel tracked Hdir Hk Hrel Hf).
  rewrite file_hash_outcome.
  split.
  - intros record Hl. rewrite Hl. split; [|split].
    + intros h Hh ->. destruct (hash_outcome _) as [h'|e]; [|discriminate].
      injection Hh as ->. rewrite String.eqb_refl.
      apply finish_no_alert, quiet_no_alert. reflexivity.
    + intros h Hh Hne. destruct (hash_outcome _) as [h'|e]; [|discriminate].
      injection Hh as ->. apply String.eqb_neq in Hne. rewrite Hne.
      split; [intros b Hn|intros e Hn].
      * eapply finish_one_alert, after_open_one_alert, alert_outcome_one, Hn.
      * eapply finish_alert_lost, after_open_alert_lost, alert_outcome_lost, Hn.
    + intros Hh. destruct (hash_outcome _) as [h'|e]; [discriminate|].
      apply finish_no_alert, quiet_no_alert. reflexivity.
  - intros Hl. rewrite Hl. apply finish_no_alert.
    destruct (hash_outcome _) as [h'|e]; apply quiet_no_alert; reflexivity.
Qed.

(** The tracked file with the odd name has been tampered with while the
    mail server is down: the warning is logged, the history stays
    empty. *)
Lemma modified_classification_witness :
  (exists h, file_hash (fs Example.world Example.odd_old) = Some h
             /\ h <> hash (Example.record_of Example.digest_abc))
  /\ alert_lost Modified Example.odd_old DASHBOARD_DATA_initial
       (dispatch SafeBank_FIM_monitor Example.handler
          (Example.file_event Modified Example.odd_old)
          Example.world DASHBOARD_DATA_initial).
Proof.
  assert (Hh : file_hash (fs Example.world Example.odd_old)
               = Some (SHA256.sha256_hex (list_byte_of_string "tampered")))
    by apply file_hash_readable.
  assert (Hne : SHA256.sha256_hex (list_byte_of_string "tampered")
                <> hash (Example.record_of Example.digest_abc))
    by (vm_compute; discriminate).
  split; [eexists; split; [exact Hh|exact Hne]|].
  destruct (modified_classification SafeBank_FIM_monitor Example.handler
              (Example.file_event Modified Example.odd_old)
              Example.world DASHBOARD_DATA_initial
              ("r" +:+ String (ascii_of_nat 233) "sum.txt") Example.tracked_files
              eq_refl eq_refl) as [H _]; [vm_compute; reflexivity|reflexivity|].
  destruct (H (Example.record_of Example.digest_abc)) as (_ & Hdiff & _);
    [vm_compute; reflexivity|].
  destruct (Hdiff _ Hh Hne) as [_ Hlost].
  eapply Hlost. vm_compute. reflexivity.
Defined.

(** [_process_event], for the three keys the handlers pass: it returns,
    and the alert of the event is either not raised, or raised and
    recorded, or raised and lost. *)
Lemma alert_outcome_cases impl (self : Handler impl) k fp w d :
  exists t,
    alert_logs t = [alert_type_of k +:+ ": " +:+ fp] /\ opened_files t = []
    /\ (alert_outcome self k fp w d
        = (Ok tt, record_alert d (new_alert w (alert_type_of k) fp (details_fallback impl)), t)
        \/ alert_outcome self k fp w d = (Ok tt, d, t)).
Proof.
  destruct (delivery_silent impl (email_config self) (alert_type_of k) fp
              (details_fallback impl) w) as [Hl Ho].
  destruct (notification self k fp w) as [b|e] eqn:Hn.
  - rewrite (alert_outcome_sent _ _ _ _ _ _ _ Hn). eexists. split; [|split; [|left; reflexivity]].
    + rewrite alert_logs_warning, Hl. reflexivity.
    + rewrite opened_files_log. exact Ho.
  - rewrite (alert_outcome_raised _ _ _ _ _ _ _ Hn). eexists.
    split; [|split; [|right; reflexivity]].
    + rewrite alert_logs_warning, alert_logs_app, Hl. reflexivity.
    + rewrite opened_files_log, opened_files_app, Ho. reflexivity.
Qed.

Lemma process_event_cases impl (self : Handler impl) fp k w d :
  exists t,
    (alert_logs t = []
     /\ _process_event self fp (change_type_of k) w d = (Ok tt, d, t))
    \/ (alert_logs t = [alert_type_of k +:+ ": " +:+ fp]
        /\ (_process_event self fp (change_type_of k) w d
            = (Ok tt, record_alert d (new_alert w (alert_type_of k) fp (details_fallback impl)),
               t)
            \/ _process_event self fp (change_type_of k) w d = (Ok tt, d, t))).
Proof.
  assert (Hquiet : forall t0 out, out = (Ok tt, d, t0) -> alert_logs t0 = [] ->
            exists t,
              (alert_logs t = [] /\ out = (Ok tt, d, t))
              \/ (alert_logs t = [alert_type_of k +:+ ": " +:+ fp]
                  /\ (out = (Ok tt, record_alert d (new_alert w (alert_type_of k) fp
                                                      (details_fallback impl)), t)
                      \/ out = (Ok tt, d, t))))
    by (intros t0 out -> H0; exists t0; left; auto).
  assert (Hraised : forall out, out = alert_outcome self k fp w d ->
            exists t,
              (alert_logs t = [] /\ out = (Ok tt, d, t))
              \/ (alert_logs t = [alert_type_of k +:+ ": " +:+ fp]
                  /\ (out = (Ok tt, record_alert d (new_alert w (alert_type_of k) fp
                                                      (details_fallback impl)), t)
                      \/ out = (Ok tt, d, t)))).
  { intros out ->. destruct (alert_outcome_cases impl self k fp w d) as (t & Hl & _ & E).
    exists t. right. auto. }
  destruct (PosixPath.relpath (cwd w) fp (monitor_dir self)) as [rel|e] eqn:Hrel.
  - destruct k; cbn [change_type_of].
    + rewrite (process_event_modified impl self fp w d rel Hrel).
      destruct (hash_outcome (fs w fp)) as [h|e]; [|eapply Hquiet; reflexivity].
      destruct (files (baseline self)) as [tracked|]; [|eapply Hquiet; reflexivity].
      destruct (tracked !! rel) as [record|]; [|eapply Hquiet; reflexivity].
      destruct (String.eqb h (hash record)); [eapply Hquiet; reflexivity|].
      destruct (alert_outcome_cases impl self Modified fp w d) as (t & Hl & _ & [E|E]);
        rewrite E; exists (Opened fp :: t); right; (split; [exact Hl|]);
        [left|right]; reflexivity.
    + rewrite (process_event_created impl self fp w d rel Hrel).
      destruct (files (baseline self)) as [tracked|]; [|eapply Hquiet; reflexivity].
      destruct (tracked !! rel); [eapply Hquiet; reflexivity|]. apply Hraised. reflexivity.
    + rewrite (process_event_deleted impl self fp w d rel Hrel).
      destruct (files (baseline self)) as [tracked|]; [|eapply Hquiet; reflexivity].
      destruct (tracked !! rel); [|eapply Hquiet; reflexivity]. apply Hraised. reflexivity.
  - rewrite (process_event_relpath_raises _ _ _ _ _ _ _ Hrel). eapply Hquiet; reflexivity.
Qed.

(** Every event of a file, whatever its kind and whatever the disk, the
    path, the console and the mail server are like. *)
Lemma dispatch_cases impl (self : Handler impl) event w d :
  is_directory event = false ->
  exists t,
    (alert_logs t = []
     /\ dispatch impl self event w d = (Ok tt, settled self w d, t))
    \/ (alert_logs t = [alert_type_of (event_type event) +:+ ": " +:+ src_path event]
        /\ (dispatch impl self event w d
            = (Ok tt,
               settled self w
                 (record_alert d (new_alert w (alert_type_of (event_type event))
                                    (src_path event) (details_fallback impl))),
               t)
            \/ dispatch impl self event w d = (Ok tt, settled self w d, t))).
Proof.
  intros Hdir. rewrite (dispatch_run _ _ _ _ _ Hdir).
  destruct (process_event_cases impl self (src_path event) (event_type event) w d)
    as (t & [[Hl E]|[Hl [E|E]]]); rewrite E; exists t; unfold finish; cbn [fst snd]; auto.
Qed.

(** The counters after an event of a file: untouched by
    [monitor_files.py], recomputed from the baseline by
    [SafeBank_FIM/monitor.py]. *)
Lemma dispatch_counters impl (self : Handler impl) event w d :
  is_directory event = false ->
  file_count (dashboard (dispatch impl self event w d))
  = match impl with
    | monitor_files => file_count d
    | SafeBank_FIM_monitor => tracked_count self
    end
  /\ last_scan (dashboard (dispatch impl self event w d))
     = match impl with
       | monitor_files => last_scan d
       | SafeBank_FIM_monitor => Some (scan_date (baseline self))
       end.
Proof.
  intros Hdir.
  destruct (dispatch_cases impl self event w d Hdir) as (t & [[_ E]|[_ [E|E]]]);
    rewrite E; destruct impl; split; reflexivity.
Qed.

(** C7. For a path with an entry in the baseline a Deleted event raises
    the alert, and its repeat, whenever it comes, raises it again: the
    baseline the classifier reads is not changed by the event, and the
    counters drawn from it stay as they were.  Each of the two is exactly
    one alert of category Deleted whenever [send_alert] returns, and is
    lost, the warning apart, when [send_alert] raises. *)
Theorem deleted_classification_idempotent impl (self : Handler impl) event w1 w2 d
    rel tracked record :
  is_directory event = false ->
  event_type event = Deleted ->
  PosixPath.relpath (cwd w1) (src_path event) (monitor_dir self) = Ok rel ->
  cwd w2 = cwd w1 ->
  files (baseline self) = Some tracked ->
  tracked !! rel = Some record ->
  let out1 := dispatch impl self event w1 d in
  let out2 := dispatch impl self event w2 (dashboard out1) in
  (forall b, notification self Deleted (src_path event) w1 = Ok b ->
     one_alert_of Deleted (src_path event) d out1)
  /\ (forall e, notification self Deleted (src_path event) w1 = Raise e ->
        alert_lost Deleted (src_path event) d out1)
  /\ (forall b, notification self Deleted (src_path event) w2 = Ok b ->
        one_alert_of Deleted (src_path event) (dashboard out1) out2)
  /\ (forall e, notification self Deleted (src_path event) w2 = Raise e ->
        alert_lost Deleted (src_path event) (dashboard out1) out2)
  /\ file_count (dashboard out2) = file_count (dashboard out1)
  /\ last_scan (dashboard out2) = last_scan (dashboard out1).
Proof.
  intros Hdir Hk Hrel Hcwd Hf Hl out1 out2.
  assert (Hrel2 : PosixPath.relpath (cwd w2) (src_path event) (monitor_dir self) = Ok rel)
    by (rewrite Hcwd; exact Hrel).
  pose proof (deleted_outcome impl self event w1 d rel tracked Hdir Hk Hrel Hf) as E1.
  pose proof (deleted_outcome impl self event w2 (dashboard out1) rel tracked Hdir Hk Hrel2 Hf)
    as E2.
  rewrite Hl in E1, E2. fold out1 in E1. fold out2 in E2.
  split; [intros b Hn; rewrite E1; eapply finish_one_alert, alert_outcome_one, Hn|].
  split; [intros e Hn; rewrite E1; eapply finish_alert_lost, alert_outcome_lost, Hn|].
  split; [intros b Hn; rewrite E2; eapply finish_one_alert, alert_outcome_one, Hn|].
  split; [intros e Hn; rewrite E2; eapply finish_alert_lost, alert_outcome_lost, Hn|].
  destruct (dispatch_counters impl self event w1 d Hdir) as [Hf1 Hs1].
  destruct (dispatch_counters impl self event w2 (dashboard out1) Hdir) as [Hf2 Hs2].
  fold out1 in Hf1, Hs1. fold out2 in Hf2, Hs2.
  rewrite Hf2, Hs2. destruct impl; auto.
Qed.

(** The tracked file with the odd name is deleted, twice, while the
    mail server is down: two warnings, and a history that is still
    empty. *)
Lemma deleted_classification_idempotent_witness :
  alert_lost Deleted Example.odd_old DASHBOARD_DATA_initial
    (dispatch monitor_files Example.handler
       (Example.file_event Deleted Example.odd_old)
       Example.world DASHBOARD_DATA_initial)
  /\ alert_lost Deleted Example.odd_old
       (dashboard (dispatch monitor_files Example.handler
                     (Example.file_event Deleted Example.odd_old)
                     Example.world DASHBOARD_DATA_initial))
       (dispatch monitor_files Example.handler
          (Example.file_event Deleted Example.odd_old)
          Example.world
          (dashboard (dispatch monitor_files Example.handler
                        (Example.file_event Deleted Example.odd_old)
                        Example.world DASHBOARD_DATA_initial))).
Proof.
  destruct (deleted_classification_idempotent monitor_files Example.handler
              (Example.file_event Deleted Example.odd_old)
              Example.world Example.world DASHBOARD_DATA_initial
              ("r" +:+ String (ascii_of_nat 233) "sum.txt") Example.tracked_files
              (Example.record_of Example.digest_abc)
              eq_refl eq_refl) as (_ & H1 & _ & H2 & _);
    [vm_compute; reflexivity | reflexivity | reflexivity | vm_compute; reflexivity |].
  split; [eapply H1|eapply H2]; vm_compute; reflexivity.
Defined.

(** [send_alert] does not look at the disk. *)
Lemma delivery_fs impl cfg ty fp det w disk :
  delivery impl cfg ty fp det (with_fs w disk) = delivery impl cfg ty fp det w.
Proof. reflexivity. Qed.

Lemma alert_outcome_fs impl (self : Handler impl) k fp w disk d :
  alert_outcome self k fp (with_fs w disk) d = alert_outcome self k fp w d.
Proof. reflexivity. Qed.

Lemma settled_fs impl (self : Handler impl) w disk d :
  settled self (with_fs w disk) d = settled self w d.
Proof. destruct impl; reflexivity. Qed.

(** The branches of [_process_event] for the two kinds that are settled by
    the baseline alone. *)
Lemma process_event_fs impl (self : Handler impl) fp k w disk d :
  k <> Modified ->
  _process_event self fp (change_type_of k) (with_fs w disk) d
  = _process_event self fp (change_type_of k) w d.
Proof.
  intros Hk.
  destruct (PosixPath.relpath (cwd w) fp (monitor_dir self)) as [rel|e] eqn:Hrel.
  - destruct k; [congruence|..]; cbn [change_type_of].
    + rewrite (process_event_created impl self fp (with_fs w disk) d rel Hrel),
        (process_event_created impl self fp w d rel Hrel), alert_outcome_fs. reflexivity.
    + rewrite (process_event_deleted impl self fp (with_fs w disk) d rel Hrel),
        (process_event_deleted impl self fp w d rel Hrel), alert_outcome_fs. reflexivity.
  - rewrite (process_event_relpath_raises impl self fp _ (with_fs w disk) d e Hrel),
      (process_event_relpath_raises impl self fp _ w d e Hrel). reflexivity.
Qed.

Lemma process_event_opens_nothing impl (self : Handler impl) fp k w d :
  k <> Modified ->
  opened_files (effects (_process_event self fp (change_type_of k) w d)) = [].
Proof.
  intros Hk.
  destruct (PosixPath.relpath (cwd w) fp (monitor_dir self)) as [rel|e] eqn:Hrel.
  - destruct (alert_outcome_cases impl self k fp w d) as (t & _ & Ho & E).
    assert (Hout : opened_files (effects (alert_outcome self k fp w d)) = [])
      by (destruct E as [E|E]; rewrite E; exact Ho).
    destruct k; [congruence|..]; cbn [change_type_of].
    + rewrite (process_event_created _ _ _ _ _ _ Hrel).
      destruct (files (baseline self)) as [tracked|]; [|reflexivity].
      destruct (tracked !! rel); [reflexivity|exact Hout].
    + rewrite (process_event_deleted _ _ _ _ _ _ Hrel).
      destruct (files (baseline self)) as [tracked|]; [|reflexivity].
      destruct (tracked !! rel); [exact Hout|reflexivity].
  - rewrite (process_event_relpath_raises _ _ _ _ _ _ _ Hrel). reflexivity.
Qed.

(** C10. The handling of a Created or a Deleted event opens no file, so no
    hash is computed for it; and the whole run (the verdict, the alert
    recorded with its category, the dashboard, every line logged or
    printed and every mail sent) is the same on any other disk: other
    contents, the file unreadable, the file absent. *)
Theorem created_deleted_ignore_content impl (self : Handler impl) event w d :
  event_type event <> Modified ->
  opened_files (effects (dispatch impl self event w d)) = []
  /\ (forall disk,
        dispatch impl self event (with_fs w disk) d = dispatch impl self event w d).
Proof.
  intros Hk. destruct (is_directory event) eqn:Hdir.
  - split; [|intros disk]; rewrite !(dispatch_directory _ _ _ _ _ Hdir); reflexivity.
  - split; [|intros disk]; rewrite !(dispatch_run _ _ _ _ _ Hdir).
    + apply (process_event_opens_nothing impl self (src_path event) _ w d Hk).
    + rewrite (process_event_fs _ _ _ _ _ _ _ Hk). unfold finish.
      rewrite settled_fs. reflexivity.
Qed.

(** [a.txt] is tracked and still on the disk, unchanged; its Deleted event
    gets the same run when the disk holds nothing that can be opened. *)
Lemma created_deleted_ignore_content_witness :
  dispatch monitor_files Example.handler
    (Example.file_event Deleted "SafeBank_Data/a.txt")
    (with_fs Example.world (fun _ => Unopenable (OSError "[Errno 5] Input/output error")))
    DASHBOARD_DATA_initial
  = dispatch monitor_files Example.handler
      (Example.file_event Deleted "SafeBank_Data/a.txt")
      Example.world DASHBOARD_DATA_initial.
Proof.
  apply (created_deleted_ignore_content monitor_files Example.handler
           (Example.file_event Deleted "SafeBank_Data/a.txt")
           Example.world DASHBOARD_DATA_initial).
  simpl. discriminate.
Defined.

(** ** The alert history *)








Module BurstExample.





End BurstExample.


(** C4. [send_alert] raises exactly when the mail does not go through and
    the console then refuses the line of the [except] block; the
    exception is the console's.  When it returns, with either answer,
    [_trigger_alert] returns and the alert is the last entry of the
    history; when it raises, [_trigger_alert] is left with that exception
    after the warning, and the history is as it was. *)
Theorem failed_send_still_records impl (self : Handler impl) ty fp det w d :
  alert_details impl ty = Ok det ->
  (forall e,
      (delivery impl (email_config self) ty fp det w).1 = Raise e
      <-> ~ mail_goes_through impl (email_config self) ty fp det w
          /\ console w (console_line impl ty fp det) = Raise e)
  /\ (forall b,
        (delivery impl (email_config self) ty fp det w).1 = Ok b ->
        result (_trigger_alert self ty fp w d) = Ok tt
        /\ dashboard (_trigger_alert self ty fp w d) = record_alert d (new_alert w ty fp det)
        /\ last (alerts (dashboard (_trigger_alert self ty fp w d)))
           = Some (new_alert w ty fp det))
  /\ (forall e,
        (delivery impl (email_config self) ty fp det w).1 = Raise e ->
        _trigger_alert self ty fp w d
        = (Raise e, d,
           Log "FIM_Handler" WARNING (ty +:+ ": " +:+ fp)
             :: (delivery impl (email_config self) ty fp det w).2)).
Proof.
  intros Hd. split; [intros e; apply delivery_raises|].
  split.
  - intros b Hb. rewrite (trigger_alert_run impl self ty fp det w d Hd), Hb.
    split; [reflexivity|]. split; [reflexivity|].
    unfold record_alert, dashboard. cbn [fst snd alerts with_alerts].
    apply last_slice_last_snoc. lia.
  - intros e He. rewrite (trigger_alert_run impl self ty fp det w d Hd), He. reflexivity.
Qed.

(** The mail server is down and the new file has the odd name: the
    [print] of [send_alert] raises, and so does [_trigger_alert]; the
    history stays empty. *)
Lemma failed_send_still_records_witness :
  (exists e,
     result (send_alert monitor_files Example.config "New File Detected" Example.odd_new
               "Unknown change" Example.world DASHBOARD_DATA_initial) = Raise e
     /\ result (_trigger_alert (impl := monitor_files) Example.handler "New File Detected"
                  Example.odd_new Example.world DASHBOARD_DATA_initial) = Raise e)
  /\ alerts (dashboard (_trigger_alert (impl := monitor_files) Example.handler
                          "New File Detected" Example.odd_new
                          Example.world DASHBOARD_DATA_initial)) = [].
Proof.
  destruct (failed_send_still_records monitor_files Example.handler "New File Detected"
              Example.odd_new "Unknown change" Example.world DASHBOARD_DATA_initial)
    as (_ & _ & H); [vm_compute; reflexivity|].
  eassert (Hd : (delivery monitor_files (email_config (Example.handler (impl := monitor_files)))
                   "New File Detected" Example.odd_new "Unknown change" Example.world).1
                = Raise _) by (vm_compute; reflexivity).
  rewrite (H _ Hd). split; [|reflexivity].
  eexists. split; [exact Hd|reflexivity].
Defined.

(** C5. The table of [_trigger_alert] has an entry for each category, under
    the upper-case key; the key looked up is the last word of the alert
    type, which is "Modified", "Detected" or "Deleted".  It is never in the
    table, so every alert the classifier records carries the fallback text
    and none carries the text of its category. *)
Theorem details_lookup_misses impl (self : Handler impl) k fp w d :
  is_Some (details_table impl !! change_type_of k)
  /\ details_table impl !! change_type_of k <> Some (details_fallback impl)
  /\ alert_details impl (alert_type_of k) = Ok (details_fallback impl)
  /\ (forall b,
        notification self k fp w = Ok b ->
        a_details <$> last (alerts (dashboard
                                      (_trigger_alert self (alert_type_of k) fp w d)))
        = Some (details_fallback impl)).
Proof.
  split; [destruct impl, k; vm_compute; eauto|].
  split; [destruct impl, k; vm_compute; discriminate|].
  split; [apply alert_details_of|].
  intros b Hb. unfold notification in Hb.
  rewrite (trigger_alert_run impl self _ fp _ w d (alert_details_of impl k)), Hb.
  unfold record_alert, dashboard. cbn [fst snd alerts with_alerts].
  rewrite last_slice_last_snoc by lia. reflexivity.
Qed.

(** A tracked file is deleted: the alert recorded says "Unknown change",
    not "Critical file removed". *)
Lemma details_lookup_misses_witness :
  details_table monitor_files !! "DELETED" = Some "Critical file removed"
  /\ a_details <$> last (alerts (dashboard
                                   (_trigger_alert (impl := monitor_files) Example.handler
                                      "File Deleted" "SafeBank_Data/config.ini"
                                      Example.world DASHBOARD_DATA_initial)))
     = Some "Unknown change".
Proof.
  split; [vm_compute; reflexivity|].
  destruct (details_lookup_misses monitor_files Example.handler Deleted
              "SafeBank_Data/config.ini" Example.world DASHBOARD_DATA_initial)
    as (_ & _ & _ & H).
  apply (H false). vm_compute. reflexivity.
Defined.

(** The digest after feeding the pieces one by one to a fresh hash object. *)
Definition chunked_digest (pieces : list (list Byte.byte)) : string :=
  SHA256.hexdigest (fold_left SHA256.update pieces SHA256.new).

Lemma update_pieces pieces h :
  fold_left SHA256.update pieces h = SHA256.update h (concat pieces).
Proof.
  revert h. induction pieces as [|p pieces IH]; intros h; cbn [fold_left concat].
  - reflexivity.
  - rewrite IH, update_app. reflexivity.
Qed.

Lemma hash_stream_readable chunk fp w d content :
  (0 < chunk)%nat ->
  fs w fp = Regular content None ->
  hash_stream chunk fp w d = (Ok (SHA256.sha256_hex content), d, [Opened fp]).
Proof.
  intros Hc Hfs. rewrite hash_stream_run, Hfs. cbn [open].
  rewrite (read_loop_readable _ _ _ Hc). reflexivity.
Qed.

Lemma hash_outcome_readable content :
  hash_outcome (Regular content None) = Ok (SHA256.sha256_hex content).
Proof.
  unfold hash_outcome. cbn [open]. rewrite (read_loop_readable _ _ _ CHUNK_pos). reflexivity.
Qed.

(** C6. For a file that can be read to its end, both [calculate_file_hash]
    functions return the SHA-256 digest of the whole content, as one
    [update] of a fresh hash object gives it; the loop returns that digest
    for every chunk size, not only for 64 KiB; feeding the content in any
    pieces gives it too; and it is written as 64 lowercase hexadecimal
    digits. *)
Theorem chunked_hash_is_one_shot fp w d content :
  fs w fp = Regular content None ->
  result (calculate_file_hash fp w d) = Ok (Some (SHA256.sha256_hex content))
  /\ result (baseline_calculate_file_hash fp w d) = Ok (Some (SHA256.sha256_hex content))
  /\ (forall chunk, (0 < chunk)%nat ->
        result (hash_stream chunk fp w d) = Ok (SHA256.sha256_hex content))
  /\ (forall pieces, concat pieces = content ->
        chunked_digest pieces = SHA256.sha256_hex content)
  /\ length (list_ascii_of_string (SHA256.sha256_hex content)) = 64%nat
  /\ Forall (fun c => In c hex_alphabet) (list_ascii_of_string (SHA256.sha256_hex content)).
Proof.
  intros Hfs.
  split; [|split; [|split; [|split]]].
  - rewrite calculate_file_hash_run, Hfs, hash_outcome_readable. reflexivity.
  - rewrite baseline_calculate_file_hash_run, Hfs, hash_outcome_readable. reflexivity.
  - intros chunk Hc. rewrite (hash_stream_readable _ _ _ _ _ Hc Hfs). reflexivity.
  - intros pieces <-. unfold chunked_digest, SHA256.sha256_hex.
    rewrite update_pieces. reflexivity.
  - apply hexdigest_lowercase_hex.
Qed.

(** [a.txt] holds "abc": the digest is the one of the standard's first
    test message. *)
Lemma chunked_hash_is_one_shot_witness :
  result (calculate_file_hash "SafeBank_Data/a.txt" Example.world DASHBOARD_DATA_initial)
  = Ok (Some Example.digest_abc).
Proof.
  destruct (chunked_hash_is_one_shot "SafeBank_Data/a.txt" Example.world
              DASHBOARD_DATA_initial (list_byte_of_string "abc") eq_refl) as [H _].
  rewrite H. vm_compute. reflexivity.
Defined.

(** ** Startup *)

Lemma initialize_environment_run dir baseline_file w d :
  initialize_environment dir baseline_file w d
  = match makedirs w dir with
    | Raise e => (Raise e, d, [])
    | Ok _ =>
        if baseline_exists w then (Ok w, d, [])
        else match baseline_create w with
             | Raise e => (Raise e, d, [])
             | Ok _ =>
                 (Ok (with_baseline_file w), d,
                  [Log "root" INFO ("Created baseline file: " +:+ baseline_file)])
             end
    end.
Proof.
  unfold initialize_environment. run.
  destruct (makedirs w dir) as [[]|e]; [|reflexivity]. cbn beta iota.
  destruct (baseline_exists w); [reflexivity|].
  destruct (baseline_create w) as [[]|e]; reflexivity.
Qed.

(** What [load_baseline] does once the file is read and parsed. *)
Lemma load_baseline_ok impl w d b :
  baseline_json w = Ok b ->
  load_baseline impl w d
  = match impl with
    | monitor_files =>
        match get_metadata b with
        | Ok m =>
            (Ok b,
             {| alerts := alerts d;
                file_count := default 0 (total_files m);
                last_scan := Some (default "Never" (created m));
                last_update := last_update d |},
             [])
        | Raise e =>
            (Ok empty_baseline, d,
             [Log "root" ERROR ("Error loading baseline: " +:+ exn_str e)])
        end
    | SafeBank_FIM_monitor =>
        (Ok b, d,
         [Log "root" INFO
            ("Loaded baseline with " +:+ pretty (size (default ∅ (files b))) +:+ " files")])
    end.
Proof.
  intros Hb. unfold load_baseline. run. rewrite Hb. destruct impl; [|reflexivity].
  cbn beta iota. destruct (get_metadata b); reflexivity.
Qed.

Lemma load_baseline_fails impl w d e :
  baseline_json w = Raise e ->
  load_baseline impl w d
  = (Ok empty_baseline, d, [Log "root" ERROR ("Error loading baseline: " +:+ exn_str e)]).
Proof.
  intros Hb. unfold load_baseline. run. rewrite Hb. reflexivity.
Qed.

(** [load_baseline] returns, whatever the file is like. *)
Lemma load_baseline_returns impl w d :
  exists b, result (load_baseline impl w d) = Ok b.
Proof.
  destruct (baseline_json w) as [b|e] eqn:Hb.
  - rewrite (load_baseline_ok impl w d b Hb). destruct impl; [|eauto].
    destruct (get_metadata b); eauto.
  - rewrite (load_baseline_fails impl w d e Hb). eauto.
Qed.

(** The handler on the empty store. *)
Lemma new_handler_empty impl cfg dir w d :
  exists h d',
    new_handler impl empty_baseline cfg dir w d = (Ok h, d', [])
    /\ baseline h = empty_baseline /\ email_config h = cfg /\ monitor_dir h = dir
    /\ alerts d' = alerts d.
Proof. destruct impl; do 2 eexists; (split; [reflexivity|]); repeat split. Qed.

(** The start on a baseline file that holds the empty store, or that
    cannot be read. *)
Lemma start_on_empty impl cfg dir w d :
  baseline_json w = Ok empty_baseline \/ (exists e, baseline_json w = Raise e) ->
  exists h d' t,
    (b <- load_baseline impl ;; new_handler impl b cfg dir) w d = (Ok h, d', t)
    /\ baseline h = empty_baseline /\ email_config h = cfg /\ monitor_dir h = dir.
Proof.
  intros Hj.
  assert (El : exists d1 t1, load_baseline impl w d = (Ok empty_baseline, d1, t1)).
  { destruct Hj as [Hj|[e Hj]].
    - rewrite (load_baseline_ok impl w d empty_baseline Hj). destruct impl; eauto.
    - rewrite (load_baseline_fails impl w d e Hj). eauto. }
  destruct El as (d1 & t1 & El). unfold bind. rewrite El.
  destruct (new_handler_empty impl cfg dir w d1) as (h & d' & E & Hb & Hc & Hd & _).
  rewrite E. exists h. eauto 6.
Qed.

Module StaleExample.

(** A baseline file whose header counts five files and which lists one. *)
Definition stale : Baseline :=
  {| metadata := Present {| created := Some "2025-02-28T09:00:00";
                            directory := Some "/srv/fim/SafeBank_Data";
                            total_files := Some 5 |};
     files := Some (<["a.txt" := Example.record_of Example.digest_abc]> ∅) |}.

Definition world : World :=
  {| cwd := cwd Example.world;
     fs := fs Example.world;
     now_strftime := now_strftime Example.world;
     now_isoformat := now_isoformat Example.world;
     console := console Example.world;
     mime_text := mime_text Example.world;
     smtp_open := smtp_open Example.world;
     smtp_starttls := smtp_starttls Example.world;
     smtp_login := smtp_login Example.world;
     smtp_send := smtp_send Example.world;
     smtp_quit := smtp_quit Example.world;
     makedirs := makedirs Example.world;
     baseline_exists := true;
     baseline_create := baseline_create Example.world;
     baseline_reopen := baseline_reopen Example.world;
     baseline_json := Ok stale |}.

End StaleExample.

(** C8. In [monitor_files.py] the count the dashboard shows is set once, by
    [load_baseline], to the [total_files] of the file's metadata (0
    without one), whatever the file mapping holds; the handler the engine
    starts with keeps that mapping.  The number of alerts shown is the
    length of the history. *)
Theorem files_tracked_from_metadata cfg dir baseline_file w d b m :
  makedirs w dir = Ok tt ->
  baseline_exists w = true ->
  baseline_json w = Ok b ->
  get_metadata b = Ok m ->
  exists h d',
    start_monitoring monitor_files cfg dir baseline_file w d = (Ok h, d', [])
    /\ files (baseline h) = files b
    /\ filesTracked (status_snapshot d') = default 0 (total_files m)
    /\ alertCount (status_snapshot d') = length (alerts d').
Proof.
  intros Hmk Hex Hb Hm. unfold start_monitoring.
  unfold bind at 1. rewrite initialize_environment_run, Hmk, Hex.
  unfold in_world. unfold bind at 1.
  rewrite (load_baseline_ok monitor_files w d b Hb), Hm. cbn.
  do 2 eexists. repeat split.
Qed.

(** Five files shown, one file tracked. *)
Lemma files_tracked_from_metadata_witness :
  exists h d',
    start_monitoring monitor_files Example.config "SafeBank_Data" "baseline.json"
      StaleExample.world DASHBOARD_DATA_initial = (Ok h, d', [])
    /\ size <$> files (baseline h) = Some 1%nat
    /\ filesTracked (status_snapshot d') = 5.
Proof.
  destruct (files_tracked_from_metadata Example.config "SafeBank_Data" "baseline.json"
              StaleExample.world DASHBOARD_DATA_initial StaleExample.stale
              {| created := Some "2025-02-28T09:00:00";
                 directory := Some "/srv/fim/SafeBank_Data";
                 total_files := Some 5 |} eq_refl eq_refl eq_refl eq_refl)
    as (h & d' & E & Hf & Hc & _).
  exists h, d'. split; [exact E|]. split; [rewrite Hf; vm_compute; reflexivity|].
  rewrite Hc. reflexivity.
Defined.

Module ReadOnlyExample.

(** The example machine started in a directory where nothing can be
    written and where there is no baseline file. *)
Definition world : World :=
  {| cwd := cwd Example.world;
     fs := fs Example.world;
     now_strftime := now_strftime Example.world;
     now_isoformat := now_isoformat Example.world;
     console := console Example.world;
     mime_text := mime_text Example.world;
     smtp_open := smtp_open Example.world;
     smtp_starttls := smtp_starttls Example.world;
     smtp_login := smtp_login Example.world;
     smtp_send := smtp_send Example.world;
     smtp_quit := smtp_quit Example.world;
     makedirs := makedirs Example.world;
     baseline_exists := false;
     baseline_create := Raise (OSError "[Errno 13] Permission denied: 'baseline.json'");
     baseline_reopen := baseline_reopen Example.world;
     baseline_json :=
       Raise (OSError "[Errno 2] No such file or directory: 'baseline.json'") |}.

End ReadOnlyExample.

(** A missing baseline file can keep the engine from starting: when
    the directory is not writable, [initialize_environment] raises
    before the baseline is loaded. *)
Lemma missing_baseline_can_stop_startup :
  baseline_exists ReadOnlyExample.world = false
  /\ result (start_monitoring monitor_files Example.config "SafeBank_Data" "baseline.json"
               ReadOnlyExample.world DASHBOARD_DATA_initial)
     = Raise (OSError "[Errno 13] Permission denied: 'baseline.json'")
  /\ ~ exists h,
         result (start_monitoring monitor_files Example.config "SafeBank_Data"
                   "baseline.json" ReadOnlyExample.world DASHBOARD_DATA_initial) = Ok h.
Proof.
  split; [reflexivity|]. split; [reflexivity|]. intros [h H]. discriminate H.
Qed.

(** C9. [load_baseline] never raises, and a baseline file that cannot be
    opened or parsed gives the empty store, the error logged.  When the
    set-up of the environment goes through (the monitored directory can
    be made, and the baseline file is there but unreadable, or is
    missing and a first, empty one can be written), the engine starts,
    with a handler on the empty store; and from then on the Created event
    of any file gives exactly one alert of category Created, whenever
    the notification of the alert returns. *)
Theorem missing_baseline_starts_empty impl cfg dir baseline_file w d :
  makedirs w dir = Ok tt ->
  (baseline_exists w = false /\ baseline_create w = Ok tt)
  \/ (baseline_exists w = true /\ exists e, baseline_json w = Raise e) ->
  (exists b, result (load_baseline impl w d) = Ok b)
  /\ (forall e, baseline_json w = Raise e ->
        load_baseline impl w d
        = (Ok empty_baseline, d,
           [Log "root" ERROR ("Error loading baseline: " +:+ exn_str e)]))
  /\ files empty_baseline = Some ∅
  /\ metadata empty_baseline
     = Present {| created := None; directory := None; total_files := None |}
  /\ exists h,
       result (start_monitoring impl cfg dir baseline_file w d) = Ok h
       /\ baseline h = empty_baseline /\ email_config h = cfg /\ monitor_dir h = dir
       /\ forall event w' d' rel b,
            is_directory event = false ->
            event_type event = Created ->
            PosixPath.relpath (cwd w') (src_path event) dir = Ok rel ->
            notification h Created (src_path event) w' = Ok b ->
            one_alert_of Created (src_path event) d' (dispatch impl h event w' d').
Proof.
  intros Hmk Hcase.
  split; [apply load_baseline_returns|].
  split; [intros e; apply load_baseline_fails|].
  split; [reflexivity|]. split; [reflexivity|].
  assert (Hstart : exists h,
            result (start_monitoring impl cfg dir baseline_file w d) = Ok h
            /\ baseline h = empty_baseline /\ email_config h = cfg /\ monitor_dir h = dir).
  { unfold start_monitoring. unfold bind at 1.
    rewrite initialize_environment_run, Hmk.
    destruct Hcase as [[Hex Hcr]|[Hex He]]; rewrite Hex; [rewrite Hcr|]; unfold in_world.
    - destruct (start_on_empty impl cfg dir (with_baseline_file w) d)
        as (h & d' & t & E & H); [|rewrite E; exists h; split; [reflexivity|exact H]].
      cbn [baseline_json with_baseline_file].
      destruct (baseline_reopen w) as [[]|e]; [left; reflexivity|right; eauto].
    - destruct (start_on_empty impl cfg dir w d) as (h & d' & t & E & H);
        [right; exact He|].
      rewrite E. exists h. split; [reflexivity|exact H]. }
  destruct Hstart as (h & Hr & Hb & Hc & Hd). exists h.
  split; [exact Hr|]. split; [exact Hb|]. split; [exact Hc|]. split; [exact Hd|].
  intros event w' d' rel b Hdir Hk Hrel Hn.
  rewrite (created_outcome impl h event w' d' rel ∅ Hdir Hk); [| |rewrite Hb; reflexivity].
  - rewrite lookup_empty. eapply finish_one_alert, alert_outcome_one, Hn.
  - rewrite Hd. exact Hrel.
Qed.

(** The baseline file is corrupt; a file that was there all along gets
    its first Created event. *)
Lemma missing_baseline_starts_empty_witness :
  exists h,
    result (start_monitoring SafeBank_FIM_monitor Example.config "SafeBank_Data"
              "baseline.json" Example.world DASHBOARD_DATA_initial) = Ok h
    /\ one_alert_of Created "SafeBank_Data/a.txt" DASHBOARD_DATA_initial
         (dispatch SafeBank_FIM_monitor h
            (Example.file_event Created "SafeBank_Data/a.txt")
            Example.world DASHBOARD_DATA_initial).
Proof.
  destruct (missing_baseline_starts_empty SafeBank_FIM_monitor Example.config
              "SafeBank_Data" "baseline.json" Example.world DASHBOARD_DATA_initial eq_refl)
    as (_ & _ & _ & _ & h & Hs & _ & Hc & _ & Hev).
  - right. split; [reflexivity|]. eexists. reflexivity.
  - exists h. split; [exact Hs|].
    apply (Hev (Example.file_event Created "SafeBank_Data/a.txt") Example.world
             DASHBOARD_DATA_initial "a.txt" false); [reflexivity|reflexivity| |].
    + vm_compute. reflexivity.
    + unfold notification. rewrite Hc. vm_compute. reflexivity.
Defined.

(** * Further properties of the monitors *)

(** ** Event handling as a whole *)

(** X1. No exception leaves an event handler, and one event raises at most
    one alert: the history is either left as it was or gets one record,
    of the event's kind and for the event's path, at its end. *)
Theorem event_handler_contains_failures impl (self : Handler impl) event w d :
  result (dispatch impl self event w d) = Ok tt
  /\ (length (alert_logs (effects (dispatch impl self event w d))) <= 1)%nat
  /\ (alerts (dashboard (dispatch impl self event w d)) = alerts d
      \/ exists a,
           alert_category a = Some (event_type event)
           /\ a_path a = src_path event
           /\ alerts (dashboard (dispatch impl self event w d))
              = slice_last 50 (alerts d ++ [a])).
Proof.
  destruct (is_directory event) eqn:Hdir.
  - rewrite (dispatch_directory _ _ _ _ _ Hdir). cbn. auto.
  - destruct (dispatch_cases impl self event w d Hdir) as (t & [[Hl E]|[Hl [E|E]]]);
      rewrite E; unfold result, dashboard, effects; cbn [fst snd]; rewrite Hl;
      (split; [reflexivity|]); (split; [cbn; lia|]); rewrite settled_alerts.
    + left. reflexivity.
    + right. eexists. split; [apply alert_category_of|]. split; reflexivity.
    + left. reflexivity.
Qed.

(** X2. An event without a path.  [os.path.relpath] raises on the empty
    path; the handler logs that one error and drops the event, whatever
    its kind: no file is opened, no alert is raised and nothing is
    mailed. *)
Theorem event_without_path_is_dropped impl (self : Handler impl) event w d :
  is_directory event = false ->
  src_path event = "" ->
  dispatch impl self event w d
  = (Ok tt, settled self w d,
     [Log "FIM_Handler" ERROR "Error processing event: no path specified"]).
Proof.
  intros Hdir Hp. rewrite (dispatch_run _ _ _ _ _ Hdir).
  rewrite (process_event_relpath_raises impl self (src_path event) _ w d
             (ValueError "no path specified")) by (rewrite Hp; reflexivity).
  reflexivity.
Qed.

Lemma event_without_path_is_dropped_witness :
  dispatch monitor_files Example.handler (Example.file_event Modified "")
    Example.world DASHBOARD_DATA_initial
  = (Ok tt, DASHBOARD_DATA_initial,
     [Log "FIM_Handler" ERROR "Error processing event: no path specified"]).
Proof.
  apply (event_without_path_is_dropped monitor_files Example.handler
           (Example.file_event Modified "") Example.world DASHBOARD_DATA_initial);
    reflexivity.
Defined.

(** The events the watcher delivers, each with the machine as it is when
    the event is handled. *)
Definition run_events {impl : Impl} (self : Handler impl) (evs : list (World * RawEvent))
    (d : DashboardData) : DashboardData :=
  fold_left (fun d we => dashboard (dispatch impl self we.2 we.1 d)) evs d.

(** X3. Over any run of events the history stays within 50 entries, and it
    is only ever extended at its end: what it holds afterwards are the
    last 50 of the old entries followed by the new alerts, of which there
    is at most one per event, each for the path and of the kind of one of
    the events. *)
Theorem history_over_events impl (self : Handler impl) evs d :
  (length (alerts d) <= 50)%nat ->
  exists new,
    alerts (run_events self evs d) = slice_last 50 (alerts d ++ new)
    /\ (length new <= length evs)%nat
    /\ (length (alerts (run_events self evs d)) <= 50)%nat
    /\ Forall (fun a => exists we, In we evs
                                   /\ is_directory we.2 = false
                                   /\ a_path a = src_path we.2
                                   /\ alert_category a = Some (event_type we.2)) new.
Proof.
  intros Hd. induction evs as [|[w event] evs IH] using rev_ind.
  - exists []. rewrite app_nil_r. cbn. rewrite slice_last_short by exact Hd.
    repeat split; auto.
  - destruct IH as (new & Ha & Hn & _ & Hall).
    assert (Hall' : forall a,
               (exists we, In we evs /\ is_directory we.2 = false
                           /\ a_path a = src_path we.2
                           /\ alert_category a = Some (event_type we.2)) ->
               exists we, In we (evs ++ [(w, event)]) /\ is_directory we.2 = false
                          /\ a_path a = src_path we.2
                          /\ alert_category a = Some (event_type we.2)).
    { intros a (we & Hin & H). exists we. split; [apply in_or_app; auto|exact H]. }
    unfold run_events in *. rewrite fold_left_app. cbn [fold_left fst snd].
    set (d1 := fold_left _ evs d) in *.
    assert (Hkeep : forall d2,
               alerts d2 = alerts d1 ->
               exists new0,
                 alerts d2 = slice_last 50 (alerts d ++ new0)
                 /\ (length new0 <= length (evs ++ [(w, event)]))%nat
                 /\ (length (alerts d2) <= 50)%nat
                 /\ Forall (fun a => exists we, In we (evs ++ [(w, event)])
                                                /\ is_directory we.2 = false
                                                /\ a_path a = src_path we.2
                                                /\ alert_category a = Some (event_type we.2))
                      new0).
    { intros d2 E. exists new. rewrite E, Ha, length_app, slice_last_length.
      split; [reflexivity|]. split; [lia|]. split; [lia|].
      eapply Forall_impl; [exact Hall|exact Hall']. }
    destruct (is_directory event) eqn:Hdir.
    + rewrite (dispatch_directory _ _ _ _ _ Hdir). apply Hkeep. reflexivity.
    + destruct (dispatch_cases impl self event w d1 Hdir) as (t & [[_ E]|[_ [E|E]]]);
        rewrite E; unfold dashboard; cbn [fst snd];
        [apply Hkeep, settled_alerts| |apply Hkeep, settled_alerts].
      exists (new ++ [new_alert w (alert_type_of (event_type event)) (src_path event)
                        (details_fallback impl)]).
      rewrite settled_alerts. unfold record_alert. cbn [alerts with_alerts].
      rewrite Ha, slice_last_snoc by lia. rewrite app_assoc, slice_last_length.
      rewrite !length_app. cbn [length].
      split; [reflexivity|]. split; [lia|]. split; [lia|].
      apply Forall_app. split; [eapply Forall_impl; [exact Hall|exact Hall']|].
      constructor; [|constructor].
      exists (w, event). split; [apply in_or_app; right; left; reflexivity|].
      cbn [fst snd]. split; [exact Hdir|]. split; [reflexivity|].
      apply alert_category_of.
Qed.

(** Three events on the example installation: a deletion of a tracked
    file, a new file, a directory. *)
Lemma history_over_events_witness :
  exists new,
    alerts (run_events (impl := monitor_files) Example.handler
              [(Example.world, Example.file_event Deleted "SafeBank_Data/config.ini");
               (Example.world, Example.file_event Created "SafeBank_Data/new.txt");
               (Example.world, {| src_path := "SafeBank_Data/sub"; event_type := Created;
                                  is_directory := true |})]
              DASHBOARD_DATA_initial)
    = slice_last 50 (alerts DASHBOARD_DATA_initial ++ new)
    /\ (length new <= 3)%nat.
Proof.
  destruct (history_over_events monitor_files Example.handler
              [(Example.world, Example.file_event Deleted "SafeBank_Data/config.ini");
               (Example.world, Example.file_event Created "SafeBank_Data/new.txt");
               (Example.world, {| src_path := "SafeBank_Data/sub"; event_type := Created;
                                  is_directory := true |})]
              DASHBOARD_DATA_initial) as (new & H & Hn & _); [simpl; lia|].
  exists new. split; [exact H|exact Hn].
Defined.

(** X4. [SafeBank_FIM/monitor.py] recomputes the status after every event of
    a file, whether it raised an alert, was silent or failed: the files
    shown are the entries of the handler's baseline, the scan date is the
    baseline's, and the update time is the time of the event.  An event of
    a directory refreshes nothing. *)
Theorem monitor_refreshes_status (self : Handler SafeBank_FIM_monitor) event w d :
  (is_directory event = false ->
     exists tracked,
       files (baseline self) = Some tracked
       /\ filesTracked
            (status_snapshot (dashboard (dispatch SafeBank_FIM_monitor self event w d)))
          = Z.of_nat (size tracked)
       /\ lastBaselineCreatedAt
            (status_snapshot (dashboard (dispatch SafeBank_FIM_monitor self event w d)))
          = Some (default "Never"
                    (match metadata (baseline self) with
                     | Present m => created m
                     | _ => None
                     end))
       /\ lastUpdatedAt
            (status_snapshot (dashboard (dispatch SafeBank_FIM_monitor self event w d)))
          = Some (now_isoformat w))
  /\ (is_directory event = true ->
        dashboard (dispatch SafeBank_FIM_monitor self event w d) = d).
Proof.
  split; intros Hdir.
  - destruct (constructed self) as [[tracked Hf] _]. exists tracked. split; [exact Hf|].
    destruct (dispatch_cases SafeBank_FIM_monitor self event w d Hdir)
      as (t & [[_ E]|[_ [E|E]]]); rewrite E;
      unfold dashboard, status_snapshot, settled, refreshed, tracked_count, scan_date;
      cbn [fst snd filesTracked lastBaselineCreatedAt lastUpdatedAt file_count last_scan
           last_update]; rewrite Hf; repeat split.
  - rewrite (dispatch_directory _ _ _ _ _ Hdir). reflexivity.
Qed.

(** X5. [monitor_files.py] never touches the counters once they are loaded:
    whatever events come, the file count and the scan date shown stay
    what [load_baseline] made them. *)
Theorem monitor_files_counters_frozen (self : Handler monitor_files) evs d :
  file_count (run_events self evs d) = file_count d
  /\ last_scan (run_events self evs d) = last_scan d
  /\ last_update (run_events self evs d) = last_update d.
Proof.
  revert d. induction evs as [|[w event] evs IH]; intros d; [auto|].
  unfold run_events in *. cbn [fold_left fst snd].
  destruct (IH (dashboard (dispatch monitor_files self event w d))) as (Hf & Hs & Hu).
  rewrite Hf, Hs, Hu. clear IH Hf Hs Hu.
  destruct (is_directory event) eqn:Hdir.
  - rewrite (dispatch_directory _ _ _ _ _ Hdir). auto.
  - destruct (dispatch_cases monitor_files self event w d Hdir)
      as (t & [[_ E]|[_ [E|E]]]); rewrite E; auto.
Qed.

(** ** What the monitor reads of the baseline *)

(** The hash the baseline records for each path, when it has a file
    mapping. *)
Definition recorded_hashes (b : Baseline) : option (gmap string string) :=
  (fun tracked : gmap string FileRecord => hash <$> tracked) <$> files b.

Lemma trigger_alert_config impl (s1 s2 : Handler impl) ty fp :
  email_config s1 = email_config s2 ->
  _trigger_alert s1 ty fp = _trigger_alert s2 ty fp.
Proof. unfold _trigger_alert. intros ->. reflexivity. Qed.

Lemma bind_ext {A B} (m : M A) (k1 k2 : A -> M B) w d :
  (forall a d1, k1 a w d1 = k2 a w d1) -> bind m k1 w d = bind m k2 w d.
Proof.
  intros H. unfold bind. destruct (m w d) as [[[a|e] d1] t1]; [rewrite H|]; reflexivity.
Qed.

Lemma process_event_hashes impl (s1 s2 : Handler impl) fp ct w d :
  email_config s1 = email_config s2 ->
  monitor_dir s1 = monitor_dir s2 ->
  recorded_hashes (baseline s1) = recorded_hashes (baseline s2) ->
  _process_event s1 fp ct w d = _process_event s2 fp ct w d.
Proof.
  intros Hc Hd Hh. unfold recorded_hashes in Hh.
  unfold _process_event. rewrite !try_contained. f_equal.
  rewrite !bind_ask. cbn beta. rewrite Hd.
  destruct (PosixPath.relpath (cwd w) fp (monitor_dir s2)) as [rel|e]; [|reflexivity].
  rewrite !bind_lift_ok. cbn beta.
  rewrite !(trigger_alert_config impl s1 s2 _ _ Hc).
  assert (Hfiles : forall A (k1 k2 : gmap string FileRecord -> M A) d1,
            (forall t1 t2, files (baseline s1) = Some t1 -> files (baseline s2) = Some t2 ->
                           k1 t1 w d1 = k2 t2 w d1) ->
            bind (getitem "files" (files (baseline s1))) k1 w d1
            = bind (getitem "files" (files (baseline s2))) k2 w d1).
  { intros A k1 k2 d1 Hk.
    destruct (files (baseline s1)) as [t1|], (files (baseline s2)) as [t2|];
      try discriminate; [|reflexivity].
    unfold getitem. rewrite !bind_lift_ok. apply Hk; reflexivity. }
  assert (Hl : forall t1 t2,
            files (baseline s1) = Some t1 -> files (baseline s2) = Some t2 ->
            hash <$> (t1 !! rel) = hash <$> (t2 !! rel)).
  { intros t1 t2 H1 H2. rewrite H1, H2 in Hh. injection Hh as Hh.
    rewrite <- !lookup_fmap, Hh. reflexivity. }
  destruct (String.eqb ct "MODIFIED").
  - apply bind_ext. intros [h|] d1; [|reflexivity].
    destruct (str_truthy h); [|reflexivity].
    apply Hfiles. intros t1 t2 H1 H2. specialize (Hl t1 t2 H1 H2).
    destruct (t1 !! rel) as [r1|], (t2 !! rel) as [r2|]; try discriminate; [|reflexivity].
    injection Hl as ->. reflexivity.
  - destruct (String.eqb ct "CREATED"); [|destruct (String.eqb ct "DELETED")];
      [| |reflexivity];
      apply Hfiles; intros t1 t2 H1 H2; specialize (Hl t1 t2 H1 H2);
      destruct (t1 !! rel) as [r1|], (t2 !! rel) as [r2|];
      try discriminate; reflexivity.
Qed.

(** X6. Of an entry of the baseline the monitor reads the hash and nothing
    else.  Two baselines with the same metadata that give the same
    hashes to the same paths get the same run for every event (verdict,
    alerts, logs, mails, dashboard), whatever sizes, times and
    permissions they record: a change of those alone is never reported. *)
Theorem monitor_reads_only_hashes impl (s1 s2 : Handler impl) event w d :
  email_config s1 = email_config s2 ->
  monitor_dir s1 = monitor_dir s2 ->
  metadata (baseline s1) = metadata (baseline s2) ->
  recorded_hashes (baseline s1) = recorded_hashes (baseline s2) ->
  dispatch impl s1 event w d = dispatch impl s2 event w d.
Proof.
  intros Hc Hd Hm Hh. destruct (is_directory event) eqn:Hdir.
  - rewrite !(dispatch_directory _ _ _ _ _ Hdir). reflexivity.
  - rewrite !(dispatch_run _ _ _ _ _ Hdir).
    rewrite (process_event_hashes impl s1 s2 _ _ _ _ Hc Hd Hh).
    unfold finish. f_equal. f_equal.
    unfold recorded_hashes in Hh.
    destruct impl; [reflexivity|]. unfold settled, refreshed, tracked_count, scan_date.
    rewrite Hm. f_equal.
    destruct (files (baseline s1)) as [t1|], (files (baseline s2)) as [t2|];
      try discriminate; [|reflexivity].
    injection Hh as Hh. cbn [default].
    rewrite <- (map_size_fmap hash t1), Hh, map_size_fmap. reflexivity.
Qed.

Module ResizedExample.

(** The example baseline with another size and other permissions for
    [a.txt]. *)
Definition resized : Baseline :=
  {| metadata := metadata Example.tracked;
     files := Some (<["a.txt" := {| hash := Example.digest_abc; file_size := 4096;
                                    last_modified := "0.0"; permissions := "0777" |}]>
                      Example.tracked_files) |}.

Lemma resized_initialised impl : initialised impl resized.
Proof. destruct impl; [exact I|]. split; [eexists; reflexivity|discriminate]. Qed.

Definition handler {impl : Impl} : Handler impl :=
  {| baseline := resized; email_config := Example.config; monitor_dir := "SafeBank_Data";
     constructed := resized_initialised impl |}.

End ResizedExample.

Lemma monitor_reads_only_hashes_witness :
  dispatch SafeBank_FIM_monitor Example.handler
    (Example.file_event Modified "SafeBank_Data/a.txt") Example.world DASHBOARD_DATA_initial
  = dispatch SafeBank_FIM_monitor ResizedExample.handler
      (Example.file_event Modified "SafeBank_Data/a.txt") Example.world
      DASHBOARD_DATA_initial.
Proof.
  apply monitor_reads_only_hashes; reflexivity.
Defined.

(** ** The hasher's failure paths *)

(** X7. The [calculate_file_hash] of the monitors never raises, whatever
    the file is like: it makes one [open] call and then returns either
    the digest of the whole content of the file, never that of a part
    read before a failure, or [None] after one line in the handler's
    log.  That of [create_baseline.py] returns the same digest; for a
    file it cannot hash it prints the error and returns [None], or is
    left with the exception of the console when the line cannot be
    printed.  The dashboard is not touched. *)
Theorem hash_is_whole_or_none fp w d :
  exists r,
    (match r with
     | Some h => exists content failure,
                   fs w fp = Regular content failure /\ h = SHA256.sha256_hex content
     | None => True
     end)
    /\ (exists t, calculate_file_hash fp w d = (Ok r, d, Opened fp :: t)
                  /\ match r with
                     | Some _ => t = []
                     | None => exists msg,
                         t = [Log "FIM_Handler" ERROR ("Hash calculation failed: " +:+ msg)]
                     end)
    /\ match r with
       | Some _ => baseline_calculate_file_hash fp w d = (Ok r, d, [Opened fp])
       | None =>
           exists msg,
             baseline_calculate_file_hash fp w d
             = match console w ("Error calculating hash for " +:+ fp +:+ ": " +:+ msg) with
               | Ok _ =>
                   (Ok None, d,
                    [Opened fp;
                     Print ("Error calculating hash for " +:+ fp +:+ ": " +:+ msg)])
               | Raise e => (Raise e, d, [Opened fp])
               end
       end.
Proof.
  exists (file_hash (fs w fp)).
  split.
  - destruct (file_hash (fs w fp)) as [h|] eqn:Hh; [|exact I].
    apply file_hash_some in Hh. exact Hh.
  - rewrite calculate_file_hash_run, baseline_calculate_file_hash_run, file_hash_outcome.
    destruct (hash_outcome (fs w fp)) as [h|e]; split; eauto.
Qed.

(** ** The ways [send_alert] ends *)

(** X8. [send_alert] ends in one of three ways.  It returns [True], having
    handed exactly one message to the mail server, closed the session
    and logged the delivery.  Or it returns [False], having logged the
    error and printed the alert, with its path and details, on the
    console.  Or the console refuses that line, and [send_alert] is left
    with the exception of the console, the error logged.  In the last
    two cases no message went out, or one did and the closing of the
    session failed after it. *)
Theorem send_alert_ends_three_ways impl config ty fp det w d :
  (exists m,
      send_alert impl config ty fp det w d
      = (Ok true, d,
         [Sent m; Log "FIM_EmailAlerts" INFO ("Email alert sent: " +:+ msg_subject m)])
      /\ msg_subject m = subject_prefix impl +:+ ty
      /\ mail_goes_through impl config ty fp det w)
  \/ (exists e t0,
        console w (console_line impl ty fp det) = Ok tt
        /\ send_alert impl config ty fp det w d
           = (Ok false, d,
              t0 ++ [Log "FIM_EmailAlerts" ERROR ("Email failed: " +:+ exn_str e);
                     Print (console_line impl ty fp det)])
        /\ (t0 = [] \/ exists m, smtp_send w m = Ok tt /\ t0 = [Sent m]))
  \/ (exists e e' t0,
        console w (console_line impl ty fp det) = Raise e'
        /\ send_alert impl config ty fp det w d
           = (Raise e', d,
              t0 ++ [Log "FIM_EmailAlerts" ERROR ("Email failed: " +:+ exn_str e)])
        /\ (t0 = [] \/ exists m, smtp_send w m = Ok tt /\ t0 = [Sent m])).
Proof.
  rewrite send_alert_run, delivery_of_mail.
  destruct (mail_outcome_cases impl config ty fp det w)
    as [(Hg & from & rc & _ & _ & E)|(_ & e & t0 & E & Ht)]; rewrite E.
  - left. exists (alert_mail impl w from rc ty fp det). repeat split. exact Hg.
  - right. destruct (console w (console_line impl ty fp det)) as [[]|e'] eqn:Hc.
    + left. exists e, t0. auto.
    + right. exists e, e', t0. auto.
Qed.

(** X9. [send_alert] returns [True] exactly when the mail went through:
    every key is configured, the body could be encoded, and the server
    accepted the connection, the securing of the session, the login, the
    message and the closing.  The message then goes from the configured
    sender to all the recipients, joined by a comma and a space, under
    the subject that names the alert type. *)
Theorem send_alert_true_iff_delivered impl config ty fp det w d :
  (result (send_alert impl config ty fp det w d) = Ok true
   <-> mail_goes_through impl config ty fp det w)
  /\ (mail_goes_through impl config ty fp det w ->
      exists from rcpts,
        sender_email config = Some from
        /\ recipient_emails config = Some rcpts
        /\ sent_mails (effects (send_alert impl config ty fp det w d))
           = [alert_mail impl w from rcpts ty fp det]).
Proof.
  rewrite send_alert_run, delivery_of_mail. unfold result, effects. cbn [fst snd].
  destruct (mail_outcome_cases impl config ty fp det w)
    as [(Hg & from & rc & Hf & Hr & E)|(Hng & e & t0 & E & _)]; rewrite E.
  - split; [split; auto|]. intros _. exists from, rc. auto.
  - split; [|intros Hg; contradiction].
    split; [|intros Hg; contradiction].
    destruct (console w (console_line impl ty fp det)); discriminate.
Qed.

Module AcceptingExample.

(** The example machine with a mail server that takes everything and a
    console that takes every line. *)
Definition world : World :=
  {| cwd := cwd Example.world;
     fs := fs Example.world;
     now_strftime := now_strftime Example.world;
     now_isoformat := now_isoformat Example.world;
     console := fun _ => Ok tt;
     mime_text := fun _ => Ok tt;
     smtp_open := fun _ _ => Ok tt;
     smtp_starttls := Ok tt;
     smtp_login := fun _ _ => Ok tt;
     smtp_send := fun _ => Ok tt;
     smtp_quit := Ok tt;
     makedirs := makedirs Example.world;
     baseline_exists := baseline_exists Example.world;
     baseline_create := baseline_create Example.world;
     baseline_reopen := baseline_reopen Example.world;
     baseline_json := baseline_json Example.world |}.

Definition two_recipients : EmailConfig :=
  {| smtp_server := Some "smtp.gmail.com";
     smtp_port := Some 587;
     sender_email := Some "fim@example.org";
     sender_password := Some "app-password";
     recipient_emails := Some ["admin@example.org"; "soc@example.org"] |}.

End AcceptingExample.

Lemma send_alert_true_iff_delivered_witness :
  result (send_alert SafeBank_FIM_monitor AcceptingExample.two_recipients "File Deleted"
            "SafeBank_Data/config.ini" "Security-related change detected"
            AcceptingExample.world DASHBOARD_DATA_initial) = Ok true.
Proof.
  apply (send_alert_true_iff_delivered SafeBank_FIM_monitor
           AcceptingExample.two_recipients "File Deleted" "SafeBank_Data/config.ini"
           "Security-related change detected" AcceptingExample.world
           DASHBOARD_DATA_initial).
  exists "smtp.gmail.com", 587, "fim@example.org", "app-password",
    ["admin@example.org"; "soc@example.org"].
  repeat split.
Defined.

(** The key of the configuration that [send_alert] reads first among the
    missing ones, up to the connection to the server. *)
Definition first_missing_key (config : EmailConfig) : option string :=
  match sender_email config, recipient_emails config,
        smtp_server config, smtp_port config with
  | None, _, _, _ => Some "sender_email"
  | _, None, _, _ => Some "recipient_emails"
  | _, _, None, _ => Some "smtp_server"
  | _, _, _, None => Some "smtp_port"
  | _, _, _, _ => None
  end.

(** X10. An incomplete configuration.  When the sender, the recipients, the
    server or the port is not configured and the body of the message can
    be encoded, the [try] block of [send_alert] fails with the KeyError
    of the first missing key: the log names that key, nothing is sent,
    and [send_alert] returns [False] with the alert printed, or raises
    what the console raises when the line cannot be printed. *)
Theorem send_alert_names_missing_key impl config ty fp det w d key :
  first_missing_key config = Some key ->
  mime_text w (email_body impl (now_strftime w) ty fp det) = Ok tt ->
  send_alert impl config ty fp det w d
  = match console w (console_line impl ty fp det) with
    | Ok _ =>
        (Ok false, d,
         [Log "FIM_EmailAlerts" ERROR ("Email failed: '" +:+ key +:+ "'");
          Print (console_line impl ty fp det)])
    | Raise e =>
        (Raise e, d, [Log "FIM_EmailAlerts" ERROR ("Email failed: '" +:+ key +:+ "'")])
    end.
Proof.
  intros Hkey Hmime. rewrite send_alert_run, delivery_of_mail.
  assert (E : mail_outcome impl config ty fp det w = (Raise (KeyError key), [])).
  { unfold mail_outcome, run_io, result, effects, mail_alert. run.
    unfold first_missing_key in Hkey. rewrite Hmime.
    destruct (sender_email config) as [from|]; cbn beta iota;
      [|injection Hkey as <-; reflexivity].
    destruct (recipient_emails config) as [rc|]; cbn beta iota;
      [|injection Hkey as <-; reflexivity].
    destruct (smtp_server config) as [srv|]; cbn beta iota;
      [|injection Hkey as <-; reflexivity].
    destruct (smtp_port config) as [port|]; cbn beta iota;
      [discriminate|injection Hkey as <-; reflexivity]. }
  rewrite E. destruct (console w (console_line impl ty fp det)) as [[]|e]; reflexivity.
Qed.

Lemma send_alert_names_missing_key_witness :
  effects (send_alert monitor_files
             {| smtp_server := Some "smtp.gmail.com"; smtp_port := None;
                sender_email := Some "fim@example.org"; sender_password := None;
                recipient_emails := Some ["admin@example.org"] |}
             "File Modified" "SafeBank_Data/a.txt" "Unknown change"
             Example.world DASHBOARD_DATA_initial)
  = [Log "FIM_EmailAlerts" ERROR "Email failed: 'smtp_port'";
     Print "ALERT: FIM Alert: File Modified - SafeBank_Data/a.txt - Unknown change"].
Proof.
  rewrite (send_alert_names_missing_key monitor_files
             {| smtp_server := Some "smtp.gmail.com"; smtp_port := None;
                sender_email := Some "fim@example.org"; sender_password := None;
                recipient_emails := Some ["admin@example.org"] |}
             "File Modified" "SafeBank_Data/a.txt" "Unknown change"
             Example.world DASHBOARD_DATA_initial "smtp_port" eq_refl)
    by (vm_compute; reflexivity).
  reflexivity.
Defined.

(** ** Startup, by the baseline file *)






Module HeaderOnlyExample.

(** A baseline file that holds [{"metadata": {}}] and nothing else. *)
Definition header_only : Baseline := {| metadata := Present no_metadata; files := None |}.

Definition world : World :=
  {| cwd := cwd Example.world;
     fs := fs Example.world;
     now_strftime := now_strftime Example.world;
     now_isoformat := now_isoformat Example.world;
     console := console Example.world;
     mime_text := mime_text Example.world;
     smtp_open := smtp_open Example.world;
     smtp_starttls := smtp_starttls Example.world;
     smtp_login := smtp_login Example.world;
     smtp_send := smtp_send Example.world;
     smtp_quit := smtp_quit Example.world;
     makedirs := makedirs Example.world;
     baseline_exists := true;
     baseline_create := baseline_create Example.world;
     baseline_reopen := baseline_reopen Example.world;
     baseline_json := Ok header_only |}.

End HeaderOnlyExample.


(** ** The dashboard page *)

(** X12. What the page shows after an alert of the classifier whose
    notification returned.  The alert just raised is the first block of
    the page, and the page never has more blocks than the history has
    entries.  The block of a Modified or a Deleted alert gets the class
    of its kind; that of a Created alert, whose type is "New File
    Detected", gets the class [detected], for which the style sheet has
    no rule. *)
Theorem newest_alert_heads_the_page impl (self : Handler impl) k fp w d b :
  notification self k fp w = Ok b ->
  let d' := dashboard (_trigger_alert self (alert_type_of k) fp w d) in
  head (alert_rows d')
  = Some (match k with
          | Modified => "modified"
          | Created => "detected"
          | Deleted => "deleted"
          end,
          new_alert w (alert_type_of k) fp (details_fallback impl))
  /\ length (alert_rows d') = length (alerts d')
  /\ (In (css_class (new_alert w (alert_type_of k) fp (details_fallback impl)))
         styled_classes <-> k <> Created).
Proof.
  intros Hn. cbv zeta. unfold notification in Hn.
  rewrite (trigger_alert_run impl self _ fp _ w d (alert_details_of impl k)), Hn.
  unfold dashboard, record_alert, alert_rows. cbn [fst snd alerts with_alerts].
  split; [|split].
  - unfold slice_last. rewrite length_app. cbn [length].
    rewrite drop_app_le by lia. rewrite rev_app_distr. cbn [rev app map head].
    f_equal. f_equal. destruct k; reflexivity.
  - rewrite length_map, length_rev. reflexivity.
  - destruct k; vm_compute; split; intros H; try congruence; try tauto;
      try (exfalso; intuition discriminate).
Qed.

(** A tracked file is deleted while the mail server is down: its block
    heads the page, with the class [deleted]. *)
Lemma newest_alert_heads_the_page_witness :
  head (alert_rows (dashboard (_trigger_alert (impl := monitor_files) Example.handler
                                 "File Deleted" "SafeBank_Data/config.ini"
                                 Example.world DASHBOARD_DATA_initial)))
  = Some ("deleted",
          new_alert Example.world "File Deleted" "SafeBank_Data/config.ini"
            "Unknown change").
Proof.
  apply (newest_alert_heads_the_page monitor_files Example.handler Deleted
           "SafeBank_Data/config.ini" Example.world DASHBOARD_DATA_initial false).
  vm_compute. reflexivity.
Defined.

(** * Properties of the baseline builder *)

(** ** What a scan records *)

(** The paths of the files of the tree, in the order of the scan. *)
Definition walked (sc : Scan) (directory : string) : list string :=
  flat_map (fun '(root, names) => map (PosixPath.join root) names) (walk sc directory).

(** The entry a file gets: none when it cannot be hashed or examined. *)
Definition entry_of (w : World) (sc : Scan) (directory file_path : string)
    : option (string * FileRecord) :=
  match PosixPath.relpath (cwd w) file_path directory,
        file_hash (fs w file_path), stat sc file_path with
  | Ok rel, Some h, Ok st => Some (rel, new_record h st)
  | _, _, _ => None
  end.

(** The entries of a scan, in its order. *)
Definition entries (w : World) (sc : Scan) (directory : string)
    : list (string * FileRecord) :=
  omap (entry_of w sc directory) (walked sc directory).

(** The baseline a scan that is not interrupted ends with. *)
Definition scanned (w : World) (sc : Scan) (directory : string) : Baseline :=
  {| metadata := Present {| created := Some (now_isoformat w);
                            directory := Some (PosixPath.abspath (cwd w) directory);
                            total_files :=
                              Some (Z.of_nat (length (entries w sc directory))) |};
     files := Some (list_to_map (rev (entries w sc directory))) |}.

(** A [print] in an [except] block that then goes on with [b]. *)
Definition reported (w : World) (line : string) (b : Baseline) : Exc Baseline :=
  match console w line with
  | Ok _ => Ok b
  | Raise e => Raise e
  end.

(** What the body of the inner loop comes to for a path: the entry
    added, the file passed over after a line on the console, or the
    exception that leaves the loop (of [relpath], or of the console). *)
Definition scan_step (w : World) (sc : Scan) (directory p : string) (b : Baseline)
    : Exc Baseline :=
  match PosixPath.relpath (cwd w) p directory with
  | Raise e => Raise e
  | Ok rel =>
      match hash_outcome (fs w p) with
      | Ok h =>
          match stat sc p with
          | Ok st => Ok (add_entry b rel (new_record h st))
          | Raise e => reported w ("Error processing " +:+ p +:+ ": " +:+ exn_str e) b
          end
      | Raise e =>
          match console w ("Error calculating hash for " +:+ p +:+ ": " +:+ exn_str e) with
          | Ok _ => Ok b
          | Raise e1 => reported w ("Error processing " +:+ p +:+ ": " +:+ exn_str e1) b
          end
      end
  end.

Lemma scan_file_spec sc directory root file b w d :
  exists t,
    scan_file sc directory root file b w d
    = (scan_step w sc directory (PosixPath.join root file) b, d, t).
Proof.
  unfold scan_file, scan_step, reported. cbv zeta. rewrite bind_ask. cbn beta.
  destruct (PosixPath.relpath _ _ _) as [rel|e]; [|rewrite bind_lift_raise; eauto].
  rewrite bind_lift_ok. unfold try_except. unfold bind at 1.
  rewrite baseline_calculate_file_hash_run.
  destruct (hash_outcome _) as [h|e].
  - destruct (stat sc _) as [st|e]; run; [eauto|].
    destruct (console w _) as [[]|e']; eauto.
  - cbv zeta. destruct (console w _) as [[]|e1]; run; [eauto|].
    destruct (console w _) as [[]|e2]; eauto.
Qed.

(** The pure course of the loops over a list of paths. *)
Fixpoint scan_paths (w : World) (sc : Scan) (directory : string) (ps : list string)
    (b : Baseline) : Exc Baseline :=
  match ps with
  | [] => Ok b
  | p :: ps' =>
      match scan_step w sc directory p b with
      | Ok b' => scan_paths w sc directory ps' b'
      | Raise e => Raise e
      end
  end.

Lemma scan_paths_app w sc directory ps qs b :
  scan_paths w sc directory (ps ++ qs) b
  = match scan_paths w sc directory ps b with
    | Ok b' => scan_paths w sc directory qs b'
    | Raise e => Raise e
    end.
Proof.
  revert b. induction ps as [|p ps IH]; intros b; cbn; [reflexivity|].
  destruct (scan_step _ _ _ _ _); [apply IH|reflexivity].
Qed.

Lemma for_each_names sc directory root names b w d :
  exists t,
    for_each (fun file b => scan_file sc directory root file b) names b w d
    = (scan_paths w sc directory (map (PosixPath.join root) names) b, d, t).
Proof.
  revert b d. induction names as [|file names IH]; intros b d; cbn [for_each map scan_paths].
  - eexists. reflexivity.
  - destruct (scan_file_spec sc directory root file b w d) as (t & E).
    unfold bind. rewrite E.
    destruct (scan_step _ _ _ _ _) as [b'|e]; [|eauto].
    destruct (IH b' d) as (t' & E'). rewrite E'. eauto.
Qed.

Lemma for_each_dirs sc directory dirs b w d :
  exists t,
    for_each
      (fun '(root, names) b =>
         for_each (fun file b => scan_file sc directory root file b) names b)
      dirs b w d
    = (scan_paths w sc directory
         (flat_map (fun '(root, names) => map (PosixPath.join root) names) dirs) b, d, t).
Proof.
  revert b d. induction dirs as [|[root names] dirs IH]; intros b d;
    cbn [for_each flat_map].
  - eexists. reflexivity.
  - destruct (for_each_names sc directory root names b w d) as (t & E).
    unfold bind. rewrite E, scan_paths_app.
    destruct (scan_paths w sc directory (map (PosixPath.join root) names) b) as [b'|e];
      [|eauto].
    destruct (IH b' d) as (t' & E'). rewrite E'. eauto.
Qed.

(** The line [create_baseline] ends with. *)
Definition closing_line (b : Baseline) : string :=
  "Baseline created successfully with " +:+ pretty (written_total b) +:+ " files.".

(** The run of [create_baseline]: the scan, the writing, the last
    line. *)
Lemma create_baseline_run sc directory output_file w d :
  exists t,
    create_baseline sc directory output_file w d
    = (match scan_paths w sc directory (walked sc directory)
               (fresh_baseline w directory) with
       | Ok b => match dump sc output_file b with
                 | Ok _ => reported w (closing_line b) b
                 | Raise e => Raise e
                 end
       | Raise e => Raise e
       end, d, t).
Proof.
  unfold create_baseline, reported, closing_line. rewrite bind_ask.
  destruct (for_each_dirs sc directory (walk sc directory) (fresh_baseline w directory) w d)
    as (t & E).
  unfold bind at 1. rewrite E. fold (walked sc directory).
  destruct (scan_paths _ _ _ _ _) as [b|e]; [|eauto].
  run. destruct (dump sc output_file b) as [[]|e]; [|eauto].
  cbn beta iota. destruct (console w _) as [[]|e]; eauto.
Qed.

(** A step that went through added the entry of its path, if there is
    one. *)
Lemma scan_step_ok w sc directory p b b' :
  scan_step w sc directory p b = Ok b' ->
  b' = match entry_of w sc directory p with
       | Some (rel, r) => add_entry b rel r
       | None => b
       end.
Proof.
  unfold scan_step, entry_of, reported. rewrite file_hash_outcome.
  destruct (PosixPath.relpath _ _ _) as [rel|e]; [|discriminate].
  destruct (hash_outcome _) as [h|e].
  - destruct (stat sc p) as [st|e]; [intros [= <-]; reflexivity|].
    destruct (console w _); [intros [= <-]; reflexivity|discriminate].
  - destruct (console w _) as [[]|e1]; [intros [= <-]; reflexivity|].
    destruct (console w _); [intros [= <-]; reflexivity|discriminate].
Qed.

Lemma scan_paths_ok w sc directory ps b b' :
  scan_paths w sc directory ps b = Ok b' ->
  b' = fold_left (fun b e => add_entry b e.1 e.2) (omap (entry_of w sc directory) ps) b.
Proof.
  revert b. induction ps as [|p ps IH]; intros b.
  - intros [= <-]. reflexivity.
  - cbn [scan_paths]. rewrite omap_cons.
    destruct (scan_step w sc directory p b) as [b1|e] eqn:Hs; [|discriminate].
    apply scan_step_ok in Hs. intros H. apply IH in H. rewrite H, Hs.
    destruct (entry_of w sc directory p) as [[rel' r]|]; reflexivity.
Qed.

Lemma add_entries_files es b tracked :
  files b = Some tracked ->
  files (fold_left (fun b e => add_entry b e.1 e.2) es b)
  = Some (list_to_map (rev es) ∪ tracked).
Proof.
  revert b tracked. induction es as [|[rel r] es IH]; intros b tracked Hf;
    cbn [fold_left rev].
  - cbn. rewrite (left_id_L ∅ (∪)). exact Hf.
  - rewrite (IH _ (<[rel := r]> tracked)) by (cbn [add_entry files fst snd]; rewrite Hf;
                                                reflexivity).
    rewrite list_to_map_app. cbn [list_to_map foldr fst snd uncurry].
    rewrite <- (assoc_L (∪)). do 2 f_equal.
    rewrite insert_union_singleton_l. f_equal.
Qed.

Lemma add_entries_metadata es b c dir n :
  metadata b = Present {| created := c; directory := dir; total_files := Some n |} ->
  metadata (fold_left (fun b e => add_entry b e.1 e.2) es b)
  = Present {| created := c; directory := dir;
               total_files := Some (n + Z.of_nat (length es)) |}.
Proof.
  revert b n. induction es as [|e es IH]; intros b n Hm; cbn [fold_left length].
  - rewrite Hm, Z.add_0_r. reflexivity.
  - rewrite (IH _ (Z.succ n)); [do 3 f_equal; lia|].
    cbn [add_entry metadata]. rewrite Hm. reflexivity.
Qed.

(** The scan of all the entries, from the dictionary the builder starts
    with. *)
Lemma fresh_baseline_filled w sc directory :
  fold_left (fun b e => add_entry b e.1 e.2) (entries w sc directory)
    (fresh_baseline w directory)
  = scanned w sc directory.
Proof.
  destruct (fold_left _ _ _) as [m f] eqn:Hs. unfold scanned.
  assert (Hf : f = Some (list_to_map (rev (entries w sc directory)))).
  { apply (f_equal files) in Hs.
    rewrite (add_entries_files _ _ ∅) in Hs by reflexivity. cbn [files] in Hs.
    rewrite <- Hs. f_equal. apply (right_id_L ∅ (∪)). }
  assert (Hm : m = Present {| created := Some (now_isoformat w);
                              directory := Some (PosixPath.abspath (cwd w) directory);
                              total_files :=
                                Some (Z.of_nat (length (entries w sc directory))) |}).
  { apply (f_equal metadata) in Hs.
    erewrite add_entries_metadata in Hs by reflexivity. symmetry. exact Hs. }
  rewrite Hf, Hm. reflexivity.
Qed.

(** Whenever [create_baseline] returns, it returns the baseline of the
    whole scan, and the writing went well. *)
Lemma create_baseline_returns sc directory output_file w d b :
  result (create_baseline sc directory output_file w d) = Ok b ->
  b = scanned w sc directory /\ dump sc output_file b = Ok tt.
Proof.
  destruct (create_baseline_run sc directory output_file w d) as (t & E).
  rewrite E. unfold result, reported. cbn [fst].
  destruct (scan_paths _ _ _ _ _) as [b'|e] eqn:Hs; [|discriminate].
  destruct (dump sc output_file b') as [[]|e] eqn:Hd; [|discriminate].
  destruct (console w _); [|discriminate].
  intros [= <-]. split; [|exact Hd].
  apply scan_paths_ok in Hs. fold (entries w sc directory) in Hs.
  rewrite Hs. apply fresh_baseline_filled.
Qed.

Lemma entry_of_some w sc directory p rel r :
  entry_of w sc directory p = Some (rel, r) ->
  PosixPath.relpath (cwd w) p directory = Ok rel
  /\ exists h st, file_hash (fs w p) = Some h /\ stat sc p = Ok st /\ r = new_record h st.
Proof.
  unfold entry_of.
  destruct (PosixPath.relpath _ _ _) as [rel'|]; [|discriminate].
  destruct (file_hash _) as [h|]; [|discriminate].
  destruct (stat sc p) as [st|]; [|discriminate].
  intros [= <- <-]. split; [reflexivity|]. exists h, st. auto.
Qed.

Lemma entries_elem w sc directory rel r :
  In (rel, r) (entries w sc directory) <->
  exists p, In p (walked sc directory) /\ entry_of w sc directory p = Some (rel, r).
Proof.
  unfold entries. rewrite <- list_elem_of_In, list_elem_of_omap.
  split; intros (p & H1 & H2); exists p; split; auto; apply list_elem_of_In; exact H1.
Qed.

(** The file mapping of a finished scan. *)
Definition scanned_files (w : World) (sc : Scan) (directory : string)
    : gmap string FileRecord :=
  list_to_map (rev (entries w sc directory)).

Lemma scanned_lookup_some w sc directory rel r :
  scanned_files w sc directory !! rel = Some r ->
  exists p, In p (walked sc directory) /\ entry_of w sc directory p = Some (rel, r).
Proof.
  unfold scanned_files. intros H. apply elem_of_list_to_map_2 in H.
  apply list_elem_of_In, in_rev in H. apply entries_elem, H.
Qed.

Lemma scanned_lookup_is_some w sc directory p rel r :
  In p (walked sc directory) ->
  entry_of w sc directory p = Some (rel, r) ->
  is_Some (scanned_files w sc directory !! rel).
Proof.
  intros Hin He. unfold scanned_files.
  destruct (list_to_map (rev (entries w sc directory)) !! rel) as [r'|] eqn:Hl; [eauto|].
  apply not_elem_of_list_to_map_2 in Hl. exfalso. apply Hl.
  rewrite list_elem_of_fmap. exists (rel, r). split; [reflexivity|].
  apply list_elem_of_In. rewrite <- in_rev. apply entries_elem. eauto.
Qed.

(** X13. Every entry of a baseline that [create_baseline] returns stands for
    a file of the tree: its key is the path of that file relative to the
    directory, its hash is the SHA-256 digest of the whole content the
    file had, and its size, time and permissions come from [os.stat] of
    it.  A file of the tree that could be hashed and examined has an
    entry under its relative path. *)
Theorem baseline_entries_are_walked_files sc directory output_file w d b :
  result (create_baseline sc directory output_file w d) = Ok b ->
  exists tracked,
    files b = Some tracked
    /\ (forall rel r,
          tracked !! rel = Some r ->
          exists p content failure st,
            In p (walked sc directory)
            /\ PosixPath.relpath (cwd w) p directory = Ok rel
            /\ fs w p = Regular content failure
            /\ stat sc p = Ok st
            /\ r = new_record (SHA256.sha256_hex content) st)
    /\ (forall p rel h st,
          In p (walked sc directory) ->
          PosixPath.relpath (cwd w) p directory = Ok rel ->
          file_hash (fs w p) = Some h ->
          stat sc p = Ok st ->
          is_Some (tracked !! rel)).
Proof.
  intros Hb. apply create_baseline_returns in Hb as [-> _].
  exists (scanned_files w sc directory). split; [reflexivity|]. split.
  - intros rel r Hl. apply scanned_lookup_some in Hl as (p & Hin & He).
    apply entry_of_some in He as (Hrel & h & st & Hh & Hst & ->).
    apply file_hash_some in Hh as (content & good & Hfs & ->).
    exists p, content, good, st. auto.
  - intros p rel h st Hin Hrel Hh Hst.
    apply (scanned_lookup_is_some w sc directory p rel (new_record h st) Hin).
    unfold entry_of. rewrite Hrel, Hh, Hst. reflexivity.
Qed.

Module ScanExample.

(** The tree of the example installation: two files, of which
    [locked.txt] cannot be read. *)
Definition scan : Scan :=
  {| walk := fun _ => [("SafeBank_Data", ["a.txt"; "locked.txt"])];
     stat := fun _ => Ok {| st_size := 3; st_mtime := "1740830400.0"; st_mode := 33188 |};
     dump := fun _ _ => Ok tt |}.

Definition built : Baseline := scanned Example.world scan "SafeBank_Data".

Lemma built_initialised impl : initialised impl built.
Proof. destruct impl; [exact I|]. split; [eexists; reflexivity|discriminate]. Qed.

(** A monitor started on the baseline of the scan. *)
Definition handler {impl : Impl} : Handler impl :=
  {| baseline := built; email_config := Example.config; monitor_dir := "SafeBank_Data";
     constructed := built_initialised impl |}.

End ScanExample.

Lemma baseline_entries_are_walked_files_witness :
  exists tracked,
    files ScanExample.built = Some tracked
    /\ tracked !! "a.txt"
       = Some (new_record Example.digest_abc
                 {| st_size := 3; st_mtime := "1740830400.0"; st_mode := 33188 |})
    /\ is_Some (tracked !! "a.txt").
Proof.
  destruct (baseline_entries_are_walked_files ScanExample.scan "SafeBank_Data"
              "baseline.json" Example.world DASHBOARD_DATA_initial ScanExample.built)
    as (tracked & Hf & _ & H); [vm_compute; reflexivity|].
  exists tracked. split; [exact Hf|]. split.
  - injection Hf as <-. vm_compute. reflexivity.
  - apply (H "SafeBank_Data/a.txt" "a.txt" Example.digest_abc
             {| st_size := 3; st_mtime := "1740830400.0"; st_mode := 33188 |});
      [simpl; auto | vm_compute; reflexivity | vm_compute; reflexivity | reflexivity].
Defined.

Lemma rev_is_reverse {A} (l : list A) : rev l = reverse l.
Proof. rewrite rev_alt. reflexivity. Qed.

Lemma size_list_to_map_le (l : list (string * FileRecord)) :
  (size (list_to_map l : gmap string FileRecord) <= length l)%nat.
Proof.
  induction l as [|[k v] l IH]; cbn [list_to_map foldr length uncurry fst snd].
  - rewrite map_size_empty. lia.
  - rewrite map_size_insert. destruct (_ !! k); cbn; lia.
Qed.

(** X14. The [total_files] a baseline is written with is the number of files
    recorded during the scan.  It is never less than the number of
    entries of the file mapping, and equal to it when no two recorded
    files share a relative path; then the count [monitor_files.py] reads
    from that baseline is the number of files it tracks. *)
Theorem baseline_total_counts_records sc directory output_file w d b :
  result (create_baseline sc directory output_file w d) = Ok b ->
  exists m tracked,
    metadata b = Present m /\ files b = Some tracked
    /\ total_files m = Some (Z.of_nat (length (entries w sc directory)))
    /\ (size tracked <= length (entries w sc directory))%nat
    /\ (NoDup (entries w sc directory).*1 ->
        size tracked = length (entries w sc directory)
        /\ forall w' d',
             baseline_json w' = Ok b ->
             filesTracked (status_snapshot (dashboard (load_baseline monitor_files w' d')))
             = Z.of_nat (size tracked)).
Proof.
  intros Hb. apply create_baseline_returns in Hb as [-> _].
  do 2 eexists. split; [reflexivity|]. split; [reflexivity|].
  split; [reflexivity|]. split.
  - rewrite <- (length_rev (entries w sc directory)). apply size_list_to_map_le.
  - intros Hnd.
    assert (Hs : size (list_to_map (rev (entries w sc directory)) : gmap string FileRecord)
                 = length (entries w sc directory)).
    { rewrite <- (length_rev (entries w sc directory)). apply map_size_list_to_map.
      rewrite rev_is_reverse, fmap_reverse, reverse_Permutation. exact Hnd. }
    split; [exact Hs|].
    intros w' d' Hj. rewrite (load_baseline_ok monitor_files w' d' _ Hj).
    cbn. rewrite Hs. reflexivity.
Qed.

Lemma baseline_total_counts_records_witness :
  exists m tracked,
    metadata ScanExample.built = Present m /\ files ScanExample.built = Some tracked
    /\ total_files m = Some 1
    /\ size tracked = 1%nat.
Proof.
  destruct (baseline_total_counts_records ScanExample.scan "SafeBank_Data"
              "baseline.json" Example.world DASHBOARD_DATA_initial ScanExample.built)
    as (m & tracked & Hm & Hf & Ht & _ & Hn); [vm_compute; reflexivity|].
  exists m, tracked. split; [exact Hm|]. split; [exact Hf|].
  split; [rewrite Ht; vm_compute; reflexivity|].
  destruct Hn as [Hs _].
  { replace ((entries Example.world ScanExample.scan "SafeBank_Data").*1)
      with ["a.txt"] by (vm_compute; reflexivity).
    apply NoDup_singleton. }
  rewrite Hs. vm_compute. reflexivity.
Defined.

Lemma relpath_raises cwd0 p start e :
  PosixPath.relpath cwd0 p start = Raise e -> p = "".
Proof.
  unfold PosixPath.relpath. destruct (String.eqb p "") eqn:Hp.
  - intros _. apply String.eqb_eq, Hp.
  - cbv zeta. destruct (_ ++ _); discriminate.
Qed.

Lemma scan_step_completes w sc directory p b :
  p <> "" ->
  (forall line, console w line = Ok tt) ->
  scan_step w sc directory p b
  = Ok match entry_of w sc directory p with
       | Some (rel, r) => add_entry b rel r
       | None => b
       end.
Proof.
  intros Hp Hc. unfold scan_step, entry_of, reported. rewrite file_hash_outcome.
  destruct (PosixPath.relpath (cwd w) p directory) as [rel|e] eqn:Hrel.
  - destruct (hash_outcome _) as [h|e]; [|rewrite Hc; reflexivity].
    destruct (stat sc p) as [st|e]; [reflexivity|rewrite Hc; reflexivity].
  - apply relpath_raises in Hrel. contradiction.
Qed.

Lemma scan_paths_completes w sc directory ps b :
  Forall (fun p => p <> "") ps ->
  (forall line, console w line = Ok tt) ->
  scan_paths w sc directory ps b
  = Ok (fold_left (fun b e => add_entry b e.1 e.2) (omap (entry_of w sc directory) ps) b).
Proof.
  intros Hps Hc. revert b. induction Hps as [|p ps Hp _ IH]; intros b; [reflexivity|].
  cbn [scan_paths]. rewrite omap_cons, (scan_step_completes _ _ _ _ _ Hp Hc), IH.
  destruct (entry_of w sc directory p) as [[rel' r]|]; reflexivity.
Qed.

(** X15. On a console that takes every line, a scan is not stopped by a
    file it cannot read or examine.  When every path of the tree is a
    path at all (not the empty string), the scan runs to its end,
    leaving such files out, and the outcome of [create_baseline] is that
    of writing the output file: the baseline when it could be written,
    the error of the writing otherwise.  A tree without files gives a
    baseline without entries and with a count of 0. *)
Theorem create_baseline_completes sc directory output_file w d :
  Forall (fun p => p <> "") (walked sc directory) ->
  (forall line, console w line = Ok tt) ->
  result (create_baseline sc directory output_file w d)
  = match dump sc output_file (scanned w sc directory) with
    | Ok _ => Ok (scanned w sc directory)
    | Raise e => Raise e
    end
  /\ (walked sc directory = [] ->
      files (scanned w sc directory) = Some ∅
      /\ written_total (scanned w sc directory) = 0).
Proof.
  intros Hps Hc. split.
  - destruct (create_baseline_run sc directory output_file w d) as (t & E).
    rewrite E. unfold result, reported. cbn [fst].
    rewrite (scan_paths_completes _ _ _ _ _ Hps Hc).
    fold (entries w sc directory). rewrite fresh_baseline_filled, Hc. reflexivity.
  - intros Hw. unfold scanned, entries. rewrite Hw. split; reflexivity.
Qed.

Lemma create_baseline_completes_witness :
  result (create_baseline ScanExample.scan "SafeBank_Data" "baseline.json"
            AcceptingExample.world DASHBOARD_DATA_initial)
  = Ok (scanned AcceptingExample.world ScanExample.scan "SafeBank_Data").
Proof.
  destruct (create_baseline_completes ScanExample.scan "SafeBank_Data" "baseline.json"
              AcceptingExample.world DASHBOARD_DATA_initial) as [H _].
  - repeat constructor; discriminate.
  - reflexivity.
  - rewrite H. reflexivity.
Defined.

Lemma scanned_lookup_unique w sc directory p rel h st :
  In p (walked sc directory) ->
  PosixPath.relpath (cwd w) p directory = Ok rel ->
  (forall q, In q (walked sc directory) ->
             PosixPath.relpath (cwd w) q directory = Ok rel -> q = p) ->
  file_hash (fs w p) = Some h ->
  stat sc p = Ok st ->
  scanned_files w sc directory !! rel = Some (new_record h st).
Proof.
  intros Hin Hrel Huniq Hh Hst.
  assert (He : entry_of w sc directory p = Some (rel, new_record h st))
    by (unfold entry_of; rewrite Hrel, Hh, Hst; reflexivity).
  destruct (scanned_lookup_is_some w sc directory p rel _ Hin He) as [r Hl].
  rewrite Hl. f_equal.
  apply scanned_lookup_some in Hl as (q & Hq & Heq).
  pose proof (entry_of_some _ _ _ _ _ _ Heq) as (Hrq & _).
  rewrite (Huniq q Hq Hrq), He in Heq. congruence.
Qed.

(** The alert of the event is raised: recorded as exactly one alert when
    its notification returns, lost after the warning when the
    notification raises. *)
Definition alert_raised {impl : Impl} (self : Handler impl) (k : EventKind) (fp : string)
    (w : World) (d : DashboardData) (out : Exc unit * DashboardData * list Effect) : Prop :=
  match notification self k fp w with
  | Ok _ => one_alert_of k fp d out
  | Raise _ => alert_lost k fp d out
  end.

Lemma alert_outcome_is_raised impl (self : Handler impl) k fp w d :
  alert_raised self k fp w d (finish self w (alert_outcome self k fp w d)).
Proof.
  unfold alert_raised. destruct (notification self k fp w) as [b|e] eqn:Hn.
  - eapply finish_one_alert, alert_outcome_one, Hn.
  - eapply finish_alert_lost, alert_outcome_lost, Hn.
Qed.

Lemma alert_outcome_opened_is_raised impl (self : Handler impl) k fp w d :
  alert_raised self k fp w d (finish self w (after_open fp (alert_outcome self k fp w d))).
Proof.
  unfold alert_raised. destruct (notification self k fp w) as [b|e] eqn:Hn.
  - eapply finish_one_alert, after_open_one_alert, alert_outcome_one, Hn.
  - eapply finish_alert_lost, after_open_alert_lost, alert_outcome_lost, Hn.
Qed.

(** X16. Building a baseline and then watching with it.  Take a file of the
    tree that was hashed and examined and whose relative path no other
    file of the tree shares, and a monitor that runs on the baseline
    [create_baseline] returned, from the same working directory.  A
    Modified event of the file raises the alert exactly when the digest
    of the file is no longer the one of the scan: none while the content
    is unchanged, and none when the file has become unreadable.  A
    Created event of it raises no alert, a Deleted event raises one.  An
    alert that is raised is recorded when its notification returns. *)
Theorem fresh_baseline_round_trip impl sc directory output_file w d b
    (self : Handler impl) event w' d' rel h st :
  result (create_baseline sc directory output_file w d) = Ok b ->
  baseline self = b ->
  monitor_dir self = directory ->
  is_directory event = false ->
  In (src_path event) (walked sc directory) ->
  PosixPath.relpath (cwd w) (src_path event) directory = Ok rel ->
  (forall q, In q (walked sc directory) ->
             PosixPath.relpath (cwd w) q directory = Ok rel -> q = src_path event) ->
  file_hash (fs w (src_path event)) = Some h ->
  stat sc (src_path event) = Ok st ->
  cwd w' = cwd w ->
  let out := dispatch impl self event w' d' in
  match event_type event with
  | Modified =>
      match file_hash (fs w' (src_path event)) with
      | Some h' => if String.eqb h' h then no_alert d' out
                   else alert_raised self Modified (src_path event) w' d' out
      | None => no_alert d' out
      end
  | Created => no_alert d' out
  | Deleted => alert_raised self Deleted (src_path event) w' d' out
  end.
Proof.
  intros Hb Hbase Hmon Hdir Hin Hrel Huniq Hh Hst Hcwd out.
  apply create_baseline_returns in Hb as [-> _].
  pose proof (scanned_lookup_unique w sc directory _ rel h st Hin Hrel Huniq Hh Hst) as Hl.
  assert (Hrel' : PosixPath.relpath (cwd w') (src_path event) (monitor_dir self) = Ok rel)
    by (rewrite Hcwd, Hmon; exact Hrel).
  assert (Hf : files (baseline self) = Some (scanned_files w sc directory))
    by (rewrite Hbase; reflexivity).
  subst out. destruct (event_type event) eqn:Hk.
  - rewrite (modified_outcome impl self event w' d' rel _ Hdir Hk Hrel' Hf), Hl.
    cbn [hash new_record]. rewrite file_hash_outcome.
    destruct (hash_outcome (fs w' (src_path event))) as [h'|e].
    + destruct (String.eqb h' h).
      * apply finish_no_alert, quiet_no_alert. reflexivity.
      * apply alert_outcome_opened_is_raised.
    + apply finish_no_alert, quiet_no_alert. reflexivity.
  - rewrite (created_outcome impl self event w' d' rel _ Hdir Hk Hrel' Hf), Hl.
    apply finish_no_alert, quiet_no_alert. reflexivity.
  - rewrite (deleted_outcome impl self event w' d' rel _ Hdir Hk Hrel' Hf), Hl.
    apply alert_outcome_is_raised.
Qed.

(** [a.txt] right after the scan. *)
Lemma fresh_baseline_round_trip_witness :
  no_alert DASHBOARD_DATA_initial
    (dispatch monitor_files ScanExample.handler
       (Example.file_event Modified "SafeBank_Data/a.txt")
       Example.world DASHBOARD_DATA_initial).
Proof.
  pose proof (fresh_baseline_round_trip monitor_files ScanExample.scan "SafeBank_Data"
                "baseline.json" Example.world DASHBOARD_DATA_initial
                ScanExample.built ScanExample.handler
                (Example.file_event Modified "SafeBank_Data/a.txt")
                Example.world DASHBOARD_DATA_initial "a.txt" Example.digest_abc
                {| st_size := 3; st_mtime := "1740830400.0"; st_mode := 33188 |}) as H.
  cbv zeta in H. cbn [event_type Example.file_event src_path] in H.
  replace (file_hash (fs Example.world "SafeBank_Data/a.txt"))
    with (Some Example.digest_abc) in H by (vm_compute; reflexivity).
  rewrite String.eqb_refl in H.
  apply H.
  - vm_compute. reflexivity.
  - reflexivity.
  - reflexivity.
  - reflexivity.
  - left. reflexivity.
  - vm_compute. reflexivity.
  - intros q [<-|[<-|[]]] Hq; [reflexivity|]. vm_compute in Hq. discriminate Hq.
  - reflexivity.
  - reflexivity.
  - reflexivity.
Defined.

(** X17. A file the scan did not record.  Take a relative path under which
    the tree had no file that could be hashed and examined when the
    baseline was built: the file was not there, or it was unreadable.
    The baseline has no entry for it, so a monitor that runs on that
    baseline raises the alert of a new file on a Created event of the
    file (recorded when its notification returns) and passes over its
    Modified and Deleted events in silence. *)
Theorem unrecorded_file_round_trip impl sc directory output_file w d b
    (self : Handler impl) event w' d' rel :
  result (create_baseline sc directory output_file w d) = Ok b ->
  baseline self = b ->
  monitor_dir self = directory ->
  (forall q, In q (walked sc directory) ->
             PosixPath.relpath (cwd w) q directory = Ok rel ->
             file_hash (fs w q) = None \/ exists e, stat sc q = Raise e) ->
  is_directory event = false ->
  PosixPath.relpath (cwd w') (src_path event) directory = Ok rel ->
  let out := dispatch impl self event w' d' in
  (exists tracked, files b = Some tracked /\ tracked !! rel = None)
  /\ match event_type event with
     | Created => alert_raised self Created (src_path event) w' d' out
     | _ => no_alert d' out
     end.
Proof.
  intros Hb Hbase Hmon Hnone Hdir Hrel out.
  apply create_baseline_returns in Hb as [-> _].
  assert (Hl : scanned_files w sc directory !! rel = None).
  { destruct (scanned_files w sc directory !! rel) as [r|] eqn:Hl; [|reflexivity].
    apply scanned_lookup_some in Hl as (q & Hq & He).
    apply entry_of_some in He as (Hrq & h & st & Hh & Hst & _).
    destruct (Hnone q Hq Hrq) as [Hn|[e He]]; congruence. }
  split; [exists (scanned_files w sc directory); split; [reflexivity|exact Hl]|].
  assert (Hrel' : PosixPath.relpath (cwd w') (src_path event) (monitor_dir self) = Ok rel)
    by (rewrite Hmon; exact Hrel).
  assert (Hf : files (baseline self) = Some (scanned_files w sc directory))
    by (rewrite Hbase; reflexivity).
  subst out. destruct (event_type event) eqn:Hk.
  - rewrite (modified_outcome impl self event w' d' rel _ Hdir Hk Hrel' Hf), Hl.
    apply finish_no_alert.
    destruct (hash_outcome (fs w' (src_path event))); apply quiet_no_alert; reflexivity.
  - rewrite (created_outcome impl self event w' d' rel _ Hdir Hk Hrel' Hf), Hl.
    apply alert_outcome_is_raised.
  - rewrite (deleted_outcome impl self event w' d' rel _ Hdir Hk Hrel' Hf), Hl.
    apply finish_no_alert, quiet_no_alert. reflexivity.
Qed.

(** [locked.txt] could not be read during the scan; later it is modified. *)
Lemma unrecorded_file_round_trip_witness :
  (exists tracked, files ScanExample.built = Some tracked /\ tracked !! "locked.txt" = None)
  /\ no_alert DASHBOARD_DATA_initial
       (dispatch monitor_files ScanExample.handler
          (Example.file_event Modified "SafeBank_Data/locked.txt")
          Example.world DASHBOARD_DATA_initial).
Proof.
  apply (unrecorded_file_round_trip monitor_files ScanExample.scan "SafeBank_Data"
           "baseline.json" Example.world DASHBOARD_DATA_initial
           ScanExample.built ScanExample.handler
           (Example.file_event Modified "SafeBank_Data/locked.txt")
           Example.world DASHBOARD_DATA_initial "locked.txt").
  - vm_compute. reflexivity.
  - reflexivity.
  - reflexivity.
  - intros q [<-|[<-|[]]] Hq; [vm_compute in Hq; discriminate Hq|].
    left. vm_compute. reflexivity.
  - reflexivity.
  - vm_compute. reflexivity.
Defined.
(** ** The permissions field *)

Definition oct_digit (n : N) : ascii := ascii_of_N (48 + n mod 8).

Lemma oct_digits_acc fuel n acc :
  oct_digits fuel n acc = oct_digits fuel n [] ++ acc.
Proof.
  revert n acc. induction fuel as [|fuel IH]; intros n acc; cbn [oct_digits]; [reflexivity|].
  destruct (n <? 8)%N; [reflexivity|].
  rewrite (IH _ (_ :: acc)), (IH _ [_]), <- app_assoc. reflexivity.
Qed.

(** X18. The permissions of an entry are [oct(st_mode)[-4:]].  For a mode of
    at least four octal digits, as every mode of a file is, these are
    its last four octal digits: the special bits and the owner, group
    and other bits.  For a smaller mode the slice reaches into the
    prefix, and the field holds the letter of [0o]. *)
Theorem permissions_are_low_octal_digits h st :
  ((512 <= st_mode st)%N ->
     permissions (new_record h st)
     = string_of_list_ascii
         [oct_digit (st_mode st / 512); oct_digit (st_mode st / 64);
          oct_digit (st_mode st / 8); oct_digit (st_mode st)])
  /\ ((st_mode st < 512)%N ->
      In "o"%char (list_ascii_of_string (permissions (new_record h st)))).
Proof.
  cbn [permissions new_record]. unfold str_last, oct. split; intros Hm.
  - f_equal.
    assert (Hf : exists fuel, S (N.to_nat (N.log2 (st_mode st))) = S (S (S (S fuel)))).
    { assert (9 <= N.log2 (st_mode st))%N
        by (apply (N.log2_le_mono 512 (st_mode st)) in Hm; exact Hm).
      exists (N.to_nat (N.log2 (st_mode st)) - 3)%nat. lia. }
    destruct Hf as [fuel ->].
    set (n := st_mode st) in *.
    assert (H8 : (n <? 8)%N = false) by (apply N.ltb_ge; lia).
    assert (H64 : (n / 8 <? 8)%N = false)
      by (apply N.ltb_ge; apply (N.div_le_lower_bound n 8 8); lia).
    assert (H512 : (n / 8 / 8 <? 8)%N = false).
    { apply N.ltb_ge. rewrite N.Div0.div_div.
      apply (N.div_le_lower_bound n 64 8); lia. }
    cbn [oct_digits]. rewrite H8, H64, H512.
    assert (Hd : forall rest,
               (if (n / 8 / 8 / 8 <? 8)%N then rest
                else oct_digits fuel (n / 8 / 8 / 8 / 8) rest)
               = (if (n / 8 / 8 / 8 <? 8)%N then []
                  else oct_digits fuel (n / 8 / 8 / 8 / 8) []) ++ rest).
    { intros rest. destruct (n / 8 / 8 / 8 <? 8)%N; [reflexivity|apply oct_digits_acc]. }
    rewrite Hd. rewrite !N.Div0.div_div. change (8 * 8 * 8)%N with 512%N.
    change (8 * 8)%N with 64%N.
    rewrite list_ascii_of_string_app, list_ascii_of_string_of_list_ascii, app_assoc.
    apply slice_last_exact. reflexivity.
  - set (n := st_mode st) in *.
    rewrite list_ascii_of_string_of_list_ascii, list_ascii_of_string_app.
    rewrite list_ascii_of_string_of_list_ascii.
    assert (Hlen : (length (oct_digits (S (N.to_nat (N.log2 n))) n []) <= 3)%nat).
    { destruct (N.ltb_spec n 8) as [H8|H8].
      - cbn [oct_digits]. apply N.ltb_lt in H8. rewrite H8. cbn. lia.
      - assert (Hf : exists fuel, S (N.to_nat (N.log2 n)) = S (S fuel)).
        { assert (3 <= N.log2 n)%N by (apply (N.log2_le_mono 8 n) in H8; exact H8).
          exists (N.to_nat (N.log2 n) - 1)%nat. lia. }
        destruct Hf as [fuel ->]. cbn [oct_digits].
        apply N.ltb_ge in H8. rewrite H8.
        destruct (n / 8 <? 8)%N eqn:H64; [cbn; lia|].
        assert (H512 : (n / 8 / 8 <? 8)%N = true).
        { apply N.ltb_lt. rewrite N.Div0.div_div. apply N.Div0.div_lt_upper_bound. lia. }
        destruct fuel as [|fuel]; cbn [oct_digits]; [cbn; lia|].
        rewrite H512. cbn. lia. }
    set (ds := oct_digits _ n []) in *.
    unfold slice_last. rewrite length_app.
    change (list_ascii_of_string "0o") with ["0"%char; "o"%char].
    cbn [length]. rewrite drop_app.
    apply in_or_app. left.
    cbn [length].
    destruct ds as [|x1 [|x2 [|x3 [|x4 ds]]]]; cbn in *; try lia; auto.
Qed.

(** A regular file with mode [0o100644]. *)
Lemma permissions_are_low_octal_digits_witness :
  permissions (new_record Example.digest_abc
                 {| st_size := 3; st_mtime := "1740830400.0"; st_mode := 33188 |})
  = "0644".
Proof.
  destruct (permissions_are_low_octal_digits Example.digest_abc
              {| st_size := 3; st_mtime := "1740830400.0"; st_mode := 33188 |}) as [H _].
  rewrite H; [reflexivity|]. cbn. lia.
Defined.
